(** * integradora-backend: the REST handlers over a relational store

    A shallow embedding of the Express handlers of [src/index.js] and of its
    sibling [src/unnamed/part_000].  The two files hold the same six routes
    and differ in two places only:

    - the seller column of [products]: [seller] holding the caller's e-mail
      in [index.js], [seller_id] holding the caller's id in [part_000];
    - [order_items.price], written by [part_000] only.

    Both are covered by one development, indexed by a [Variant].

    The store follows the DDL of [initDB] in [part_000]: four tables with
    SERIAL primary keys, NOT NULL columns, a UNIQUE e-mail, REFERENCES with
    ON DELETE CASCADE, and the column types VARCHAR(n), INTEGER and
    NUMERIC(10,2).  [index.js] carries no DDL; it is read against tables of
    the same shape, the seller being recorded by e-mail.

    Every [pool.query] commits on its own.  A parameter is bound to the
    type of its column before the statement runs: a text that is no
    INTEGER or NUMERIC literal fails there.  An INSERT that gets past the
    binding draws the next value of the SERIAL sequence, and keeps it drawn
    when a constraint then rejects the row.

    The numeric fields of a body ([price], [stock], [total], and the [id],
    [quantity] and [price] of a cart line) are JSON values as they come:
    numbers, strings or anything else.  How PostgreSQL reads the text of a
    JSON string as an INTEGER or a NUMERIC is not in the sources; it is
    taken as a parameter, [Db.TextInput].  The text fields ([name],
    [email], [password], [role]) are strings or absent. *)

From Stdlib Require Import ZArith QArith String Ascii List Bool Lia.
From Stdlib Require Import DecimalString.
Import ListNotations.

Local Open Scope string_scope.
Local Open Scope list_scope.
Local Open Scope Z_scope.

(** ** Which of the two sources *)

Inductive Variant := IndexJs | Part000.

(** ** Session tokens ([jsonwebtoken])

    Signatures are symbolic: a token records the key it was signed with,
    and [verify] accepts it under that key only. *)

Module Jwt.

(** The object handed to [jwt.sign] by the login route. *)
Record Claims := mkClaims {
  claim_id : Z;
  claim_email : string;
  claim_role : string
}.

(** What [jwt.verify] decodes: the claims with [iat] and [exp] added. *)
Record Payload := mkPayload {
  id : Z;
  email : string;
  role : string;
  iat : Z;
  exp : Z
}.

Record Token := mkToken {
  payload : Payload;
  signed_with : string
}.

(** [expiresIn: '1h'], in seconds. *)
Definition one_hour : Z := 3600.

(** [jwt.sign(claims, key, { expiresIn: '1h' })] at clock reading [now]. *)
Definition sign (c : Claims) (key : string) (now : Z) : Token :=
  {| payload := {| id := claim_id c; email := claim_email c;
                   role := claim_role c;
                   iat := now; exp := now + one_hour |};
     signed_with := key |}.

(** [jwt.verify(token, key)]: [None] stands for the [err] argument of the
    callback (bad signature, or [now >= exp]). *)
Definition verify (t : Token) (key : string) (now : Z) : option Payload :=
  if negb (signed_with t =? key)%string then None
  else if exp (payload t) <=? now then None
  else Some (payload t).

End Jwt.

(** ** What a response carries *)

#[warnings="-register-all"]
Inductive Json :=
| JNull
| JBool (b : bool)
| JNum (q : Q)
| JStr (s : string)
| JToken (t : Jwt.Token)     (* the string serialising a signed token *)
| JDate (t : Z)              (* the ISO 8601 string of a timestamp *)
| JArr (items : list Json)
| JObj (fields : list (string * Json)).

Record Response := mkResponse {
  status : Z;
  body : Json
}.

(** [obj[key]], [None] for [undefined]. *)
Fixpoint field (key : string) (fields : list (string * Json)) : option Json :=
  match fields with
  | [] => None
  | (k, v) :: rest => if (k =? key)%string then Some v else field key rest
  end.

Definition get (key : string) (j : Json) : option Json :=
  match j with
  | JObj fields => field key fields
  | _ => None
  end.

(** ** What a request body carries

    A value of a parsed JSON body.  A number stands for the decimal
    JavaScript prints for it, which is the text the driver sends.  A field
    of a body is [None] when the key is absent ([undefined]). *)

#[warnings="-register-all"]
Inductive Value :=
| VNull
| VBool (b : bool)
| VNum (q : Q)
| VInfinity (negative : bool)    (* [1e999]: what no double holds *)
| VStr (s : string)
| VArr (items : list Value)
| VObj (fields : list (string * Value)).

Fixpoint lookup (key : string) (fields : list (string * Value))
    : option Value :=
  match fields with
  | [] => None
  | (k, v) :: rest => if (k =? key)%string then Some v else lookup key rest
  end.

(** [v.key] on a value that is not [null]: [undefined] on what has no
    such property. *)
Definition member (key : string) (v : Value) : option Value :=
  match v with
  | VObj fields => lookup key fields
  | _ => None
  end.

(** ** JavaScript truthiness *)

Definition truthy_str (v : option string) : bool :=
  match v with
  | Some s => negb (s =? EmptyString)%string
  | None => false
  end.

(** [!!v]: [undefined], [null], [false], [0] and the empty string are
    falsy. *)
Definition truthy (v : option Value) : bool :=
  match v with
  | None | Some VNull => false
  | Some (VBool b) => b
  | Some (VNum q) => negb (Qnum q =? 0)
  | Some (VStr s) => negb (s =? EmptyString)%string
  | Some (VInfinity _) | Some (VArr _) | Some (VObj _) => true
  end.

(** The same test, named after the column the field feeds. *)
Definition truthy_num (v : option Value) : bool := truthy v.

Definition truthy_int (v : option Value) : bool := truthy v.

(** [v || d]. *)
Definition or_default (v : option Value) (d : Value) : option Value :=
  if truthy v then v else Some d.

(** ** Characters of a string

    Strings are sequences of bytes in UTF-8; a character is a byte that is
    no continuation byte, with the continuation bytes that follow it. *)

Definition continuation (a : ascii) : bool :=
  let n := N_of_ascii a in ((128 <=? n) && (n <? 192))%N.

Fixpoint chars (s : string) : nat :=
  match s with
  | EmptyString => 0%nat
  | String a rest =>
      ((if continuation a then 0 else 1) + chars rest)%nat
  end.

(** The first [n] characters. *)
Fixpoint take_chars (n : nat) (s : string) : string :=
  match s with
  | EmptyString => EmptyString
  | String a rest =>
      if continuation a then String a (take_chars n rest)
      else match n with
           | O => EmptyString
           | S m => String a (take_chars m rest)
           end
  end.

(** What is left after the first [n] bytes. *)
Fixpoint skip (n : nat) (s : string) : string :=
  match n, s with
  | O, _ => s
  | S m, String _ rest => skip m rest
  | S _, EmptyString => EmptyString
  end.

Fixpoint all_blank (s : string) : bool :=
  match s with
  | EmptyString => true
  | String a rest => (a =? " ")%char && all_blank rest
  end.

(** The characters one by one, as [for ... of] walks through a string. *)
Fixpoint code_points (s : string) : list string :=
  match s with
  | EmptyString => []
  | String a rest =>
      match code_points rest with
      | [] => [String a EmptyString]
      | c :: cs =>
          match rest with
          | String b _ =>
              if continuation b then String a c :: cs
              else String a EmptyString :: c :: cs
          | EmptyString => String a EmptyString :: c :: cs
          end
      end
  end.

(** ** The relational store *)

Module Db.

(** PostgreSQL's reading of a text as a number, for the values that reach
    it as JSON strings or as the [:id] of a path: [int4in] gives the
    integer a text denotes, [numeric_in] the number. *)
Inductive Parsed :=
| Finite (q : Q)
| NotANumber
| Infinite.

Record TextInput := mkTextInput {
  int4in : string -> option Z;
  numeric_in : string -> option Parsed
}.

(** A parameter bound to the type of its column. *)
Inductive Bound (A : Type) :=
| Null
| Val (a : A)
| Invalid.
Arguments Null {A}.
Arguments Val {A} a.
Arguments Invalid {A}.

(** A NUMERIC(10,2): hundredths, or NaN. *)
Inductive Numeric :=
| Cents (c : Z)
| NaN.

Definition in_int4 (z : Z) : bool :=
  (-2147483648 <=? z) && (z <=? 2147483647).

Definition integral (q : Q) : bool :=
  Z.rem (Qnum q) (Z.pos (Qden q)) =? 0.

(** The text the driver sends for an infinite number. *)
Definition infinity_text (negative : bool) : string :=
  if negative then "-Infinity" else "Infinity".

(** A text as an INTEGER: what it denotes, when that fits 32 bits. *)
Definition int4_of_text (pg : TextInput) (s : string) : Bound Z :=
  match int4in pg s with
  | Some z => if in_int4 z then Val z else Invalid
  | None => Invalid
  end.

(** INTEGER.  The driver sends [null] and [undefined] as NULL, a number
    as its decimal, a string as it is, and anything else as a text that
    starts with a letter or a brace. *)
Definition int4 (pg : TextInput) (v : option Value) : Bound Z :=
  match v with
  | None | Some VNull => Null
  | Some (VNum q) =>
      let z := Z.quot (Qnum q) (Z.pos (Qden q)) in
      if integral q && in_int4 z then Val z else Invalid
  | Some (VStr s) => int4_of_text pg s
  | Some (VInfinity negative) => int4_of_text pg (infinity_text negative)
  | Some (VBool _) | Some (VArr _) | Some (VObj _) => Invalid
  end.

Definition numeric_of_text (pg : TextInput) (s : string) : Bound Parsed :=
  match numeric_in pg s with
  | Some x => Val x
  | None => Invalid
  end.

(** NUMERIC, before the precision and scale of the column apply. *)
Definition numeric (pg : TextInput) (v : option Value) : Bound Parsed :=
  match v with
  | None | Some VNull => Null
  | Some (VNum q) => Val (Finite q)
  | Some (VStr s) => numeric_of_text pg s
  | Some (VInfinity negative) =>
      numeric_of_text pg (infinity_text negative)
  | Some (VBool _) | Some (VArr _) | Some (VObj _) => Invalid
  end.

(** Rounding to hundredths, half away from zero. *)
Definition round_cents (q : Q) : Z :=
  let d := Z.pos (Qden q) in
  Z.sgn (Qnum q) * ((2 * 100 * Z.abs (Qnum q) + d) / (2 * d)).

(** NUMERIC(10,2): two decimals, eight digits before the point. *)
Definition numeric_10_2 (x : Parsed) : option Numeric :=
  match x with
  | Finite q =>
      let c := round_cents q in
      if Z.abs c <? 10000000000 then Some (Cents c) else None
  | NotANumber => Some NaN
  | Infinite => None
  end.

(** VARCHAR(n) on assignment: a longer text is refused, unless what
    exceeds [n] characters is blanks, which are cut off. *)
Definition varchar (n : nat) (s : string) : option string :=
  if (chars s <=? n)%nat then Some s
  else
    let kept := take_chars n s in
    if all_blank (skip (String.length kept) s) then Some kept else None.

(** *** The decimal notation

    A [TextInput] to run the routes with: the decimal notation of
    PostgreSQL.  An INTEGER is blanks, a sign, digits, blanks; a NUMERIC
    is blanks, then [NaN] in any case, or a sign, digits with a fraction
    and an exponent, then blanks.  What a later version reads beyond this
    (hexadecimal, underscores, [Infinity]) is another [TextInput]. *)

Definition blank (a : ascii) : bool :=
  let n := N_of_ascii a in ((n =? 32) || ((9 <=? n) && (n <=? 13)))%N.

Fixpoint skip_blanks (s : string) : string :=
  match s with
  | String a rest => if blank a then skip_blanks rest else s
  | EmptyString => s
  end.

Fixpoint only_blanks (s : string) : bool :=
  match s with
  | String a rest => blank a && only_blanks rest
  | EmptyString => true
  end.

Definition digit (a : ascii) : option Z :=
  let n := Z.of_N (N_of_ascii a) in
  if (48 <=? n) && (n <=? 57) then Some (n - 48) else None.

(** A run of digits read onto [acc]: the number, how many digits, and
    what follows. *)
Fixpoint read_digits (acc : Z) (count : Z) (s : string)
    : Z * Z * string :=
  match s with
  | String a rest =>
      match digit a with
      | Some d => read_digits (10 * acc + d) (count + 1) rest
      | None => (acc, count, s)
      end
  | EmptyString => (acc, count, s)
  end.

Definition read_sign (s : string) : bool * string :=
  match s with
  | String a rest =>
      if (a =? "-")%char then (true, rest)
      else if (a =? "+")%char then (false, rest)
      else (false, s)
  | EmptyString => (false, s)
  end.

Definition signed (negative : bool) (z : Z) : Z :=
  if negative then - z else z.

Definition decimal_int4in (s : string) : option Z :=
  let (negative, s1) := read_sign (skip_blanks s) in
  let '(z, n, s2) := read_digits 0 0 s1 in
  if (0 <? n) && only_blanks s2 then Some (signed negative z) else None.

Definition letter (lower upper : ascii) (a : ascii) : bool :=
  ((a =? lower) || (a =? upper))%char.

Definition reads_nan (s : string) : bool :=
  match s with
  | String a (String b (String c rest)) =>
      letter "n" "N" a && letter "a" "A" b && letter "n" "N" c
      && only_blanks rest
  | _ => false
  end.

(** [m * 10 ^ e]. *)
Definition scaled (m e : Z) : Q :=
  if 0 <=? e then inject_Z (m * 10 ^ e)
  else Qmake m (Z.to_pos (10 ^ (- e))).

Definition decimal_numeric_in (s : string) : option Parsed :=
  let s0 := skip_blanks s in
  if reads_nan s0 then Some NotANumber
  else
    let (negative, s1) := read_sign s0 in
    let '(whole, n1, s2) := read_digits 0 0 s1 in
    let '(mantissa, n2, s3) :=
      match s2 with
      | String a rest =>
          if (a =? ".")%char then read_digits whole 0 rest
          else (whole, 0, s2)
      | EmptyString => (whole, 0, s2)
      end in
    if n1 + n2 =? 0 then None
    else
      let exponent :=
        match s3 with
        | String a rest =>
            if letter "e" "E" a then
              let (down, s4) := read_sign rest in
              let '(e, n3, s5) := read_digits 0 0 s4 in
              if 0 <? n3 then Some (signed down e, s5) else None
            else Some (0, s3)
        | EmptyString => Some (0, s3)
        end in
      match exponent with
      | Some (e, s6) =>
          if only_blanks s6
          then Some (Finite (scaled (signed negative mantissa) (e - n2)))
          else None
      | None => None
      end.

Definition decimal : TextInput :=
  {| int4in := decimal_int4in; numeric_in := decimal_numeric_in |}.

Record User := mkUser {
  user_id : Z;
  user_email : string;
  user_password : string;
  user_role : string;
  user_created_at : Z
}.

(** [products.seller] (an e-mail) or [products.seller_id] (a user id). *)
Inductive SellerRef :=
| SellerEmail (e : string)
| SellerId (i : Z).

Record Product := mkProduct {
  product_id : Z;
  product_name : string;
  product_price : Numeric;
  product_stock : Z;
  product_seller : SellerRef;
  product_created_at : Z
}.

Record Order := mkOrder {
  order_id : Z;
  order_buyer : Z;
  order_total : Numeric;
  order_created_at : Z
}.

(** [item_price] is [None] where the table has no such column. *)
Record OrderItem := mkOrderItem {
  item_id : Z;
  item_order : Z;
  item_product : Z;
  item_quantity : Z;
  item_price : option Numeric
}.

Record Store := mkStore {
  users : list User;
  products : list Product;
  orders : list Order;
  order_items : list OrderItem;
  users_seq : Z;
  products_seq : Z;
  orders_seq : Z;
  order_items_seq : Z
}.

Definition empty : Store :=
  {| users := []; products := []; orders := []; order_items := [];
     users_seq := 0; products_seq := 0; orders_seq := 0;
     order_items_seq := 0 |}.

(** The statements the handlers send, with their parameters as the
    handler passes them. *)
Inductive Stmt :=
| InsertProduct (name : option string) (price stock : option Value)
                (seller : SellerRef)
| SelectProductsInStock
| DeleteProduct (id : string) (seller : SellerRef)
| SelectUserByCredentials (email password : option string)
| SelectUserByEmail (email : option string)
| InsertUser (email password role : option string)
| InsertOrder (buyer : Z) (total : option Value)
| InsertOrderItem (order : Z) (product quantity : option Value)
| InsertOrderItemPriced (order : Z) (product quantity price : option Value).

(** A row of [result.rows]. *)
Inductive Row :=
| UserRow (u : User)
| ProductRow (p : Product)
| IdRow (id : Z).

(** [column = $n]: never true against NULL. *)
Definition text_eq (column : string) (param : option string) : bool :=
  match param with
  | Some s => (column =? s)%string
  | None => false
  end.

Definition seller_eqb (a b : SellerRef) : bool :=
  match a, b with
  | SellerEmail x, SellerEmail y => (x =? y)%string
  | SellerId x, SellerId y => x =? y
  | _, _ => false
  end.

Definition has_user_id (i : Z) (t : Store) : bool :=
  existsb (fun u => user_id u =? i) (users t).

Definition has_user_email (e : string) (t : Store) : bool :=
  existsb (fun u => (user_email u =? e)%string) (users t).

Definition has_product_id (i : Z) (t : Store) : bool :=
  existsb (fun p => product_id p =? i) (products t).

Definition has_order_id (i : Z) (t : Store) : bool :=
  existsb (fun o => order_id o =? i) (orders t).

Definition has_item_id (i : Z) (t : Store) : bool :=
  existsb (fun it => item_id it =? i) (order_items t).

(** The seller column REFERENCES [users]. *)
Definition seller_known (r : SellerRef) (t : Store) : bool :=
  match r with
  | SellerEmail e => has_user_email e t
  | SellerId i => has_user_id i t
  end.

(** [WHERE id = $1 AND seller = $2]. *)
Definition delete_matches (i : Z) (r : SellerRef) (p : Product) : bool :=
  (product_id p =? i) && seller_eqb (product_seller p) r.

(** The store after a sequence gave out its next value. *)
Definition draw_users_seq (t : Store) : Store :=
  {| users := users t; products := products t; orders := orders t;
     order_items := order_items t;
     users_seq := users_seq t + 1; products_seq := products_seq t;
     orders_seq := orders_seq t; order_items_seq := order_items_seq t |}.

Definition draw_products_seq (t : Store) : Store :=
  {| users := users t; products := products t; orders := orders t;
     order_items := order_items t;
     users_seq := users_seq t; products_seq := products_seq t + 1;
     orders_seq := orders_seq t; order_items_seq := order_items_seq t |}.

Definition draw_orders_seq (t : Store) : Store :=
  {| users := users t; products := products t; orders := orders t;
     order_items := order_items t;
     users_seq := users_seq t; products_seq := products_seq t;
     orders_seq := orders_seq t + 1;
     order_items_seq := order_items_seq t |}.

Definition draw_order_items_seq (t : Store) : Store :=
  {| users := users t; products := products t; orders := orders t;
     order_items := order_items t;
     users_seq := users_seq t; products_seq := products_seq t;
     orders_seq := orders_seq t;
     order_items_seq := order_items_seq t + 1 |}.

(** The store with one more row. *)
Definition add_user (u : User) (t : Store) : Store :=
  {| users := users t ++ [u]; products := products t; orders := orders t;
     order_items := order_items t;
     users_seq := users_seq t; products_seq := products_seq t;
     orders_seq := orders_seq t; order_items_seq := order_items_seq t |}.

Definition add_product (p : Product) (t : Store) : Store :=
  {| users := users t; products := products t ++ [p]; orders := orders t;
     order_items := order_items t;
     users_seq := users_seq t; products_seq := products_seq t;
     orders_seq := orders_seq t; order_items_seq := order_items_seq t |}.

Definition add_order (o : Order) (t : Store) : Store :=
  {| users := users t; products := products t; orders := orders t ++ [o];
     order_items := order_items t;
     users_seq := users_seq t; products_seq := products_seq t;
     orders_seq := orders_seq t; order_items_seq := order_items_seq t |}.

Definition add_order_item (it : OrderItem) (t : Store) : Store :=
  {| users := users t; products := products t; orders := orders t;
     order_items := order_items t ++ [it];
     users_seq := users_seq t; products_seq := products_seq t;
     orders_seq := orders_seq t; order_items_seq := order_items_seq t |}.

(** What a statement gives: the rows, or [None] when it is rejected, and
    the store after it. *)
Definition Result : Type := option (list Row) * Store.

Section Statements.

Variable pg : TextInput.

(** INSERT INTO products (name, price, stock, seller) ... RETURNING *. *)
Definition insert_product (now : Z) (name : option string)
    (price stock : option Value) (seller : SellerRef) (t : Store)
    : Result :=
  match numeric pg price, int4 pg stock with
  | Invalid, _ | _, Invalid => (None, t)
  | price', stock' =>
      let t1 := draw_products_seq t in
      let i := products_seq t1 in
      match name, price', stock' with
      | Some n, Val x, Val st =>
          match varchar 255 n, numeric_10_2 x with
          | Some n', Some pr =>
              if has_product_id i t then (None, t1)
              else if negb (seller_known seller t) then (None, t1)
              else
                let p := {| product_id := i; product_name := n';
                            product_price := pr; product_stock := st;
                            product_seller := seller;
                            product_created_at := now |} in
                (Some [ProductRow p], add_product p t1)
          | _, _ => (None, t1)
          end
      | _, _, _ => (None, t1)
      end
  end.

(** DELETE FROM products WHERE id = $1 AND seller = $2 RETURNING *, with
    the cascade into [order_items]; [$1] is the text of the path. *)
Definition delete_product (id : string) (seller : SellerRef) (t : Store)
    : Result :=
  match int4 pg (Some (VStr id)) with
  | Val i =>
      let gone := filter (delete_matches i seller) (products t) in
      let kept := filter (fun p => negb (delete_matches i seller p))
                         (products t) in
      let items :=
        filter (fun it =>
                  negb (existsb (fun p => product_id p =? item_product it)
                                gone))
               (order_items t) in
      (Some (map ProductRow gone),
       {| users := users t; products := kept;
          orders := orders t; order_items := items;
          users_seq := users_seq t; products_seq := products_seq t;
          orders_seq := orders_seq t;
          order_items_seq := order_items_seq t |})
  | _ => (None, t)
  end.

(** INSERT INTO users (email, password, role) ... RETURNING *. *)
Definition insert_user (now : Z) (email password role : option string)
    (t : Store) : Result :=
  let t1 := draw_users_seq t in
  let i := users_seq t1 in
  match email, password, role with
  | Some e, Some pw, Some r =>
      match varchar 255 e, varchar 255 pw, varchar 50 r with
      | Some e', Some pw', Some r' =>
          if has_user_id i t then (None, t1)
          else if has_user_email e' t then (None, t1)
          else
            let u := {| user_id := i; user_email := e';
                        user_password := pw'; user_role := r';
                        user_created_at := now |} in
            (Some [UserRow u], add_user u t1)
      | _, _, _ => (None, t1)
      end
  | _, _, _ => (None, t1)
  end.

(** INSERT INTO orders (buyer_id, total) ... RETURNING id. *)
Definition insert_order (now : Z) (buyer : Z) (total : option Value)
    (t : Store) : Result :=
  match numeric pg total with
  | Invalid => (None, t)
  | total' =>
      let t1 := draw_orders_seq t in
      let i := orders_seq t1 in
      match total' with
      | Val x =>
          match numeric_10_2 x with
          | Some tot =>
              if has_order_id i t then (None, t1)
              else if negb (has_user_id buyer t) then (None, t1)
              else
                let o := {| order_id := i; order_buyer := buyer;
                            order_total := tot;
                            order_created_at := now |} in
                (Some [IdRow i], add_order o t1)
          | None => (None, t1)
          end
      | _ => (None, t1)
      end
  end.

(** INSERT INTO order_items ...: [price] is [None] for the three-column
    INSERT of [index.js] and [Some param] for the four-column INSERT of
    [part_000]. *)
Definition insert_order_item (order : Z) (product quantity : option Value)
    (price : option (option Value)) (t : Store) : Result :=
  let bound_price :=
    match price with
    | Some pr => numeric pg pr
    | None => Null
    end in
  match int4 pg product, int4 pg quantity, bound_price with
  | Invalid, _, _ | _, Invalid, _ | _, _, Invalid => (None, t)
  | product', quantity', price' =>
      let t1 := draw_order_items_seq t in
      let i := order_items_seq t1 in
      let stored_price :=
        match price, price' with
        | None, _ => Some None
        | Some _, Val x => option_map Some (numeric_10_2 x)
        | Some _, _ => None
        end in
      match product', quantity', stored_price with
      | Val p, Val q, Some pr =>
          if has_item_id i t then (None, t1)
          else if negb (has_order_id order t) then (None, t1)
          else if negb (has_product_id p t) then (None, t1)
          else
            let it := {| item_id := i; item_order := order;
                         item_product := p; item_quantity := q;
                         item_price := pr |} in
            (Some [], add_order_item it t1)
      | _, _, _ => (None, t1)
      end
  end.

(** One statement against the tables at clock reading [now]. *)
Definition run (now : Z) (q : Stmt) (t : Store) : Result :=
  match q with
  | InsertProduct name price stock seller =>
      insert_product now name price stock seller t
  | SelectProductsInStock =>
      (Some (map ProductRow
                 (filter (fun p => 0 <? product_stock p) (products t))),
       t)
  | DeleteProduct i seller => delete_product i seller t
  | SelectUserByCredentials e pw =>
      (Some (map UserRow
                 (filter (fun u => text_eq (user_email u) e
                                   && text_eq (user_password u) pw)
                         (users t))),
       t)
  | SelectUserByEmail e =>
      (Some (map UserRow
                 (filter (fun u => text_eq (user_email u) e) (users t))),
       t)
  | InsertUser e pw r => insert_user now e pw r t
  | InsertOrder buyer total => insert_order now buyer total t
  | InsertOrderItem o p q => insert_order_item o p q None t
  | InsertOrderItemPriced o p q pr =>
      insert_order_item o p q (Some pr) t
  end.

End Statements.

End Db.

(** ** The connection pool: tables, and a record of every [pool.query] *)

Record Pool := mkPool {
  tables : Db.Store;
  log : list (Db.Stmt * bool)      (* the statement, and whether it passed *)
}.

Definition fresh_pool : Pool := {| tables := Db.empty; log := [] |}.

(** A handler computation: it may throw, and it threads the pool.  What a
    statement wrote before a later one throws stays written. *)
Inductive Outcome (A : Type) :=
| Ok (a : A)
| Thrown.
Arguments Ok {A} a.
Arguments Thrown {A}.

Definition M (A : Type) : Type := Pool -> Outcome A * Pool.

Definition ret {A} (a : A) : M A := fun p => (Ok a, p).

Definition throw {A} : M A := fun p => (Thrown, p).

Definition bind {A B} (m : M A) (k : A -> M B) : M B :=
  fun p =>
    match m p with
    | (Ok a, p') => k a p'
    | (Thrown, p') => (Thrown, p')
    end.

(** [try { m } catch (err) { handler }]. *)
Definition try_catch {A} (m : M A) (handler : M A) : M A :=
  fun p =>
    match m p with
    | (Ok a, p') => (Ok a, p')
    | (Thrown, p') => handler p'
    end.

(** The node-style callback [(err, result) => ...]. *)
Definition with_callback {A B} (m : M A) (cb : Outcome A -> M B) : M B :=
  fun p => let (r, p') := m p in cb r p'.

Declare Scope handler_scope.
Delimit Scope handler_scope with handler.
Notation "x <- m ;; k" := (bind m (fun x => k))
  (at level 61, m at next level, right associativity) : handler_scope.
Local Open Scope handler_scope.

(** [rows[0].id]: a TypeError when there is no first row. *)
Definition first_row_id (rows : list Db.Row) : M Z :=
  match rows with
  | Db.IdRow i :: _ => ret i
  | Db.UserRow u :: _ => ret (Db.user_id u)
  | Db.ProductRow p :: _ => ret (Db.product_id p)
  | [] => throw
  end.

(** ** Rows as JSON ([RETURNING *] and [SELECT *] give every column)

    The driver hands an INTEGER over as a number, a NUMERIC as the string
    of its decimal, and a TIMESTAMP as a date, which [res.json] writes as
    an ISO 8601 string. *)

Definition num (n : Z) : Json := JNum (inject_Z n).

Definition digits (n : Z) : string :=
  NilZero.string_of_uint (N.to_uint (Z.to_N n)).

(** The decimal of a NUMERIC(10,2). *)
Definition numeric_text (x : Db.Numeric) : string :=
  match x with
  | Db.Cents c =>
      let hundredths := Z.abs c mod 100 in
      (if c <? 0 then "-" else EmptyString)
      ++ digits (Z.abs c / 100) ++ "."
      ++ (if hundredths <? 10 then "0" else EmptyString)
      ++ digits hundredths
  | Db.NaN => "NaN"
  end.

Definition user_json (u : Db.User) : Json :=
  JObj [("id", num (Db.user_id u));
        ("email", JStr (Db.user_email u));
        ("password", JStr (Db.user_password u));
        ("role", JStr (Db.user_role u));
        ("created_at", JDate (Db.user_created_at u))].

Definition seller_json (r : Db.SellerRef) : string * Json :=
  match r with
  | Db.SellerEmail e => ("seller", JStr e)
  | Db.SellerId i => ("seller_id", num i)
  end.

Definition product_json (p : Db.Product) : Json :=
  JObj [("id", num (Db.product_id p));
        ("name", JStr (Db.product_name p));
        ("price", JStr (numeric_text (Db.product_price p)));
        ("stock", num (Db.product_stock p));
        seller_json (Db.product_seller p);
        ("created_at", JDate (Db.product_created_at p))].

Definition row_json (r : Db.Row) : Json :=
  match r with
  | Db.UserRow u => user_json u
  | Db.ProductRow p => product_json p
  | Db.IdRow i => JObj [("id", num i)]
  end.

(** [{ message, key: rows[0] }]: the key is dropped by [JSON.stringify]
    when [rows[0]] is [undefined]. *)
Definition message_with (msg key : string) (rows : list Db.Row) : Json :=
  match rows with
  | r :: _ => JObj [("message", JStr msg); (key, row_json r)]
  | [] => JObj [("message", JStr msg)]
  end.

Definition message (msg : string) : Json := JObj [("message", JStr msg)].

Definition respond (code : Z) (j : Json) : M Response :=
  ret {| status := code; body := j |}.

(** ** Requests *)

(** The [authorization] header: some text that is no token, or a token. *)
Inductive AuthHeader :=
| Raw (s : string)
| Signed (t : Jwt.Token).

Record UploadBody := mkUploadBody {
  name : option string;
  price : option Value;
  stock : option Value
}.

Record Credentials := mkCredentials {
  login_email : option string;
  login_password : option string
}.

Record Registration := mkRegistration {
  reg_email : option string;
  reg_password : option string;
  reg_role : option string
}.

(** One entry of [req.body.products]: any value.  [product.id],
    [product.quantity] and [product.price] are read off it. *)
Definition CartLine : Type := Value.

Definition line_id (product : CartLine) : option Value :=
  member "id" product.

Definition line_quantity (product : CartLine) : option Value :=
  member "quantity" product.

Definition line_price (product : CartLine) : option Value :=
  member "price" product.

Record OrderBody := mkOrderBody {
  products : option Value;
  total : option Value
}.

(** ** The routes *)

Section Routes.

(** How the PostgreSQL behind the pool reads a text as a number. *)
Variable pg : Db.TextInput.

(** [process.env.SECRET_KEY]. *)
Variable SECRET_KEY : option string.

(** [await pool.query(sql, params)] at clock reading [now]. *)
Definition query (now : Z) (q : Db.Stmt) : M (list Db.Row) :=
  fun p =>
    match Db.run pg now q (tables p) with
    | (Some rows, t') =>
        (Ok rows, {| tables := t'; log := log p ++ [(q, true)] |})
    | (None, t') =>
        (Thrown, {| tables := t'; log := log p ++ [(q, false)] |})
    end.

(** [process.env.SECRET_KEY || 'secretkey']. *)
Definition secret : string :=
  match SECRET_KEY with
  | Some s => if (s =? EmptyString)%string then "secretkey" else s
  | None => "secretkey"
  end.

(** The seller column a caller is recorded under: [req.user.email] in
    [index.js], [req.user.id] in [part_000]. *)
Definition caller_ref (v : Variant) (user : Jwt.Payload) : Db.SellerRef :=
  match v with
  | IndexJs => Db.SellerEmail (Jwt.email user)
  | Part000 => Db.SellerId (Jwt.id user)
  end.

(** [!token] on the header value. *)
Definition header_present (authorization : option AuthHeader) : bool :=
  match authorization with
  | None => false
  | Some (Raw s) => negb (s =? EmptyString)%string
  | Some (Signed _) => true
  end.

(** [jwt.verify(token, secret, callback)]: [None] is a set [err]. *)
Definition decode (now : Z) (authorization : option AuthHeader)
    : option Jwt.Payload :=
  match authorization with
  | Some (Signed t) => Jwt.verify t secret now
  | _ => None
  end.

(** [verifyToken]: [next] is the handler behind the middleware, run with
    [req.user] set to the decoded payload. *)
Definition verifyToken (now : Z) (authorization : option AuthHeader)
    (next : Jwt.Payload -> M Response) : M Response :=
  if negb (header_present authorization)
  then respond 403 (message "No se proporcionó un token")
  else
    match decode now authorization with
    | None => respond 401 (message "Token no válido")
    | Some decoded => next decoded
    end.

(** [const { ... } = req.body], the first line of four handlers, outside
    any [try]: a TypeError when [req.body] is [undefined]. *)
Definition destructure {A} (body : option A) (handler : A -> M Response)
    : M Response :=
  match body with
  | Some b => handler b
  | None => throw
  end.

(** POST /upload-product, behind [verifyToken]. *)
Definition upload_product_handler (v : Variant) (now : Z)
    (b : UploadBody) (user : Jwt.Payload) : M Response :=
  if negb (truthy_str (name b)) || negb (truthy_num (price b))
     || negb (truthy_int (stock b))
  then respond 400 (message "Todos los campos son obligatorios")
  else if negb (Jwt.role user =? "seller")%string
  then respond 403 (message "Solo los vendedores pueden subir productos")
  else
    try_catch
      (rows <- query now (Db.InsertProduct (name b) (price b) (stock b)
                                           (caller_ref v user)) ;;
       respond 201 (message_with "Producto subido exitosamente"
                                 "product" rows))
      (respond 500 (message "Error al subir producto")).

Definition upload_product (v : Variant) (now : Z)
    (authorization : option AuthHeader) (b : UploadBody) : M Response :=
  verifyToken now authorization (upload_product_handler v now b).

(** GET /products. *)
Definition get_products (now : Z) : M Response :=
  try_catch
    (rows <- query now Db.SelectProductsInStock ;;
     respond 200 (JArr (map row_json rows)))
    (respond 500 (message "Error al obtener productos")).

(** DELETE /products/:id, behind [verifyToken]; [id] is the text of the
    path. *)
Definition delete_product_handler (v : Variant) (now : Z) (id : string)
    (user : Jwt.Payload) : M Response :=
  if negb (Jwt.role user =? "seller")%string
  then respond 403
         (message "Solo los vendedores pueden eliminar productos")
  else
    try_catch
      (rows <- query now (Db.DeleteProduct id (caller_ref v user)) ;;
       if (Z.of_nat (length rows) =? 0)
       then respond 404
              (message
                 "Producto no encontrado o no tienes permiso para eliminarlo")
       else respond 200 (message "Producto eliminado exitosamente"))
      (respond 500 (message "Error al eliminar producto")).

Definition delete_product (v : Variant) (now : Z)
    (authorization : option AuthHeader) (id : string) : M Response :=
  verifyToken now authorization (delete_product_handler v now id).

(** POST /login.  The lookup reads [users], so [rows[0]] is a user row;
    the last branch is never taken. *)
Definition login (now : Z) (b : Credentials) : M Response :=
  with_callback
    (query now (Db.SelectUserByCredentials (login_email b)
                                           (login_password b)))
    (fun result =>
       match result with
       | Thrown => respond 401 (message "Credenciales incorrectas")
       | Ok rows =>
           if Z.of_nat (length rows) =? 0
           then respond 401 (message "Credenciales incorrectas")
           else
             match rows with
             | Db.UserRow user :: _ =>
                 let token :=
                   Jwt.sign {| Jwt.claim_id := Db.user_id user;
                               Jwt.claim_email := Db.user_email user;
                               Jwt.claim_role := Db.user_role user |}
                            secret now in
                 respond 200
                   (JObj [("message", JStr "Inicio de sesión exitoso");
                          ("token", JToken token);
                          ("role", JStr (Db.user_role user))])
             | _ => throw
             end
       end).

(** [validRoles.includes(role)]. *)
Definition validRoles : list string := ["buyer"; "seller"].

Definition includes (l : list string) (v : option string) : bool :=
  match v with
  | Some s => existsb (fun r => (r =? s)%string) l
  | None => false
  end.

(** POST /register. *)
Definition register (now : Z) (b : Registration) : M Response :=
  if negb (includes validRoles (reg_role b))
  then respond 400 (message "Rol inválido")
  else
    try_catch
      (existingUser <- query now (Db.SelectUserByEmail (reg_email b)) ;;
       if (0 <? Z.of_nat (length existingUser))
       then respond 400 (message "El usuario ya existe")
       else
         rows <- query now (Db.InsertUser (reg_email b) (reg_password b)
                                          (reg_role b)) ;;
         respond 201 (message_with "Usuario registrado exitosamente"
                                   "user" rows))
      (respond 500 (message "Error al registrar usuario")).

(** [products.length === 0]: [length] is the number of elements of an
    array, the number of code units of a string, a property like any
    other of an object, and [undefined] of the rest. *)
Definition length_is_zero (products : option Value) : bool :=
  match products with
  | Some (VArr items) => Z.of_nat (length items) =? 0
  | Some (VStr s) => Z.of_nat (String.length s) =? 0
  | Some (VObj fields) =>
      match lookup "length" fields with
      | Some (VNum q) => Qnum q =? 0
      | _ => false
      end
  | _ => false
  end.

(** What [for (const product of products)] walks through: the elements
    of an array, the characters of a string; [None] is the TypeError of a
    value that is not iterable. *)
Definition iterate (products : option Value) : option (list CartLine) :=
  match products with
  | Some (VArr items) => Some items
  | Some (VStr s) => Some (map VStr (code_points s))
  | _ => None
  end.

(** The INSERT of one cart line: three columns in [index.js], four with
    [product.price] in [part_000]; the quantity is
    [product.quantity || 1]. *)
Definition item_stmt (v : Variant) (orderId : Z) (product : CartLine)
    : Db.Stmt :=
  match v with
  | IndexJs =>
      Db.InsertOrderItem orderId (line_id product)
        (or_default (line_quantity product) (VNum 1))
  | Part000 =>
      Db.InsertOrderItemPriced orderId (line_id product)
        (or_default (line_quantity product) (VNum 1))
        (line_price product)
  end.

(** The body of the loop: [product.id] is a TypeError when [product] is
    [null], before anything is sent. *)
Definition insert_item (v : Variant) (now : Z) (orderId : Z)
    (product : CartLine) : M (list Db.Row) :=
  match product with
  | VNull => throw
  | _ => query now (item_stmt v orderId product)
  end.

(** [for (const product of products) { await pool.query(...) }]. *)
Fixpoint insert_items (v : Variant) (now : Z) (orderId : Z)
    (products : list CartLine) : M unit :=
  match products with
  | [] => ret tt
  | product :: rest =>
      _ <- insert_item v now orderId product ;;
      insert_items v now orderId rest
  end.

(** POST /orders, behind [verifyToken]. *)
Definition create_order_handler (v : Variant) (now : Z) (b : OrderBody)
    (user : Jwt.Payload) : M Response :=
  if negb (truthy (products b)) || length_is_zero (products b)
     || negb (truthy_num (total b))
  then respond 400 (message "Datos incompletos para procesar la orden.")
  else
    try_catch
      (result <- query now (Db.InsertOrder (Jwt.id user) (total b)) ;;
       orderId <- first_row_id result ;;
       _ <- match iterate (products b) with
            | Some lines => insert_items v now orderId lines
            | None => throw
            end ;;
       respond 201 (JObj [("message", JStr "Orden creada exitosamente");
                          ("orderId", num orderId)]))
      (respond 500 (message "Error al crear orden")).

Definition create_order (v : Variant) (now : Z)
    (authorization : option AuthHeader) (b : OrderBody) : M Response :=
  verifyToken now authorization (create_order_handler v now b).

(** The six routes of the application, as [express.json()] hands a
    request on to them: with the parsed body, or with none ([req.body]
    is [undefined]) where the request had no JSON to parse. *)
Inductive Request :=
| PostUploadProduct (authorization : option AuthHeader)
                    (body : option UploadBody)
| GetProducts
| DeleteProducts (authorization : option AuthHeader) (id : string)
| PostLogin (body : option Credentials)
| PostRegister (body : option Registration)
| PostOrders (authorization : option AuthHeader)
             (body : option OrderBody).

(** The server as a function of the request.  [Thrown] is a handler that
    threw: the answer, if any, is then not the handler's. *)
Definition serve (v : Variant) (now : Z) (r : Request) : M Response :=
  match r with
  | PostUploadProduct authorization body =>
      verifyToken now authorization
        (fun user =>
           destructure body (fun b => upload_product_handler v now b user))
  | GetProducts => get_products now
  | DeleteProducts authorization id =>
      delete_product v now authorization id
  | PostLogin body => destructure body (login now)
  | PostRegister body => destructure body (register now)
  | PostOrders authorization body =>
      verifyToken now authorization
        (fun user =>
           destructure body (fun b => create_order_handler v now b user))
  end.

(** The pool after serving, one after the other, requests stamped with
    the clock reading they arrive at. *)
Fixpoint serve_all (v : Variant) (rs : list (Z * Request)) (p : Pool)
    : Pool :=
  match rs with
  | [] => p
  | (now, r) :: rest => serve_all v rest (snd (serve v now r p))
  end.

End Routes.

(** ** Vocabulary of the statements below *)

(** What a parameter is stored as in an INTEGER column and in a
    NUMERIC(10,2) column; [None] when the store does not take it. *)
Definition column_int (pg : Db.TextInput) (v : option Value) : option Z :=
  match Db.int4 pg v with
  | Db.Val z => Some z
  | _ => None
  end.

Definition column_numeric (pg : Db.TextInput) (v : option Value)
    : option Db.Numeric :=
  match Db.numeric pg v with
  | Db.Val x => Db.numeric_10_2 x
  | _ => None
  end.

Definition column_text (n : nat) (s : option string) : option string :=
  match s with
  | Some x => Db.varchar n x
  | None => None
  end.

(** A value JavaScript takes for false: [undefined], [null], [false],
    the number 0 and the empty string, and nothing else. *)
Definition falsy (v : option Value) : Prop :=
  v = None \/ v = Some VNull \/ v = Some (VBool false)
  \/ (exists q, v = Some (VNum q) /\ (q == 0)%Q)
  \/ v = Some (VStr EmptyString).


(** The product is recorded under the caller: under the e-mail of the
    token in [index.js], under its id in [part_000]. *)
Definition owned_by (v : Variant) (user : Jwt.Payload) (pr : Db.Product)
    : Prop :=
  match v with
  | IndexJs => Db.product_seller pr = Db.SellerEmail (Jwt.email user)
  | Part000 => Db.product_seller pr = Db.SellerId (Jwt.id user)
  end.


(** The JSON object carries every column of the row. *)
Definition shows_product (pr : Db.Product) (j : Json) : Prop :=
  get "id" j = Some (num (Db.product_id pr))
  /\ get "name" j = Some (JStr (Db.product_name pr))
  /\ get "price" j = Some (JStr (numeric_text (Db.product_price pr)))
  /\ get "stock" j = Some (num (Db.product_stock pr))
  /\ match Db.product_seller pr with
     | Db.SellerEmail e => get "seller" j = Some (JStr e)
     | Db.SellerId i => get "seller_id" j = Some (num i)
     end
  /\ get "created_at" j = Some (JDate (Db.product_created_at pr)).


(** The one answer of a refused login. *)
Definition bad_credentials : Response :=
  {| status := 401; body := message "Credenciales incorrectas" |}.

(** The rows the credential lookup selects. *)
Definition credential_matches (b : Credentials) (t : Db.Store)
    : list Db.User :=
  filter (fun u => Db.text_eq (Db.user_email u) (login_email b)
                   && Db.text_eq (Db.user_password u) (login_password b))
         (Db.users t).

(** The pool after the credential lookup: same tables, one more entry in
    the log. *)
Definition looked_up (b : Credentials) (p : Pool) : Pool :=
  {| tables := tables p;
     log := log p ++ [(Db.SelectUserByCredentials (login_email b)
                                                  (login_password b),
                       true)] |}.

(** The payload a token signed at [now] for the stored user [u] decodes
    to. *)
Definition issued_payload (u : Db.User) (now : Z) : Jwt.Payload :=
  {| Jwt.id := Db.user_id u; Jwt.email := Db.user_email u;
     Jwt.role := Db.user_role u;
     Jwt.iat := now; Jwt.exp := now + 3600 |}.

(** The answers of DELETE /products/:id. *)
Definition product_not_found : Response :=
  {| status := 404;
     body :=
       message "Producto no encontrado o no tienes permiso para eliminarlo" |}.

Definition sellers_only_delete : Response :=
  {| status := 403;
     body := message "Solo los vendedores pueden eliminar productos" |}.

Definition product_deleted : Response :=
  {| status := 200; body := message "Producto eliminado exitosamente" |}.

Definition delete_failed : Response :=
  {| status := 500; body := message "Error al eliminar producto" |}.

(** The answers of POST /upload-product. *)
Definition fields_required : Response :=
  {| status := 400; body := message "Todos los campos son obligatorios" |}.

Definition sellers_only_upload : Response :=
  {| status := 403;
     body := message "Solo los vendedores pueden subir productos" |}.


(** SERIAL keys: every key in a table was drawn from its sequence, so the
    next value is free.  It holds of the empty store and every statement
    keeps it. *)
Definition sequences_ahead (t : Db.Store) : Prop :=
  Forall (fun u => Db.user_id u <= Db.users_seq t) (Db.users t)
  /\ Forall (fun pr => Db.product_id pr <= Db.products_seq t)
            (Db.products t)
  /\ Forall (fun o => Db.order_id o <= Db.orders_seq t) (Db.orders t)
  /\ Forall (fun it => Db.item_id it <= Db.order_items_seq t)
            (Db.order_items t).


Definition user_exists : Response :=
  {| status := 400; body := message "El usuario ya existe" |}.

Definition register_failed : Response :=
  {| status := 500; body := message "Error al registrar usuario" |}.

(** A computation keeps a property of the tables. *)
Definition keeps {A} (P : Db.Store -> Prop) (m : M A) : Prop :=
  forall p, P (tables p) -> P (tables (snd (m p))).

(** The answers of POST /orders. *)
Definition incomplete_order : Response :=
  {| status := 400;
     body := message "Datos incompletos para procesar la orden." |}.

Definition order_failed : Response :=
  {| status := 500; body := message "Error al crear orden" |}.

Definition order_created (orderId : Z) : Response :=
  {| status := 201;
     body := JObj [("message", JStr "Orden creada exitosamente");
                   ("orderId", num orderId)] |}.

(** The statements a request sent: what it added to the log. *)
Definition sent_by (before after : Pool) : list (Db.Stmt * bool) :=
  skipn (length (log before)) (log after).

Definition all_passed (entries : list (Db.Stmt * bool)) : Prop :=
  Forall (fun e => snd e = true) entries.

(** The same rows in the four tables: what is left of a rejected
    statement is a value drawn from a sequence, at most. *)
Definition same_rows (t t' : Db.Store) : Prop :=
  Db.users t' = Db.users t /\ Db.products t' = Db.products t
  /\ Db.orders t' = Db.orders t /\ Db.order_items t' = Db.order_items t.

(** The [order_items] row is the one written for this cart line of order
    [orderId]: the line's product, its quantity or 1, and its price where
    the table has the column, each as its column stores it. *)
Definition stored_as (pg : Db.TextInput) (v : Variant) (orderId : Z)
    (line : CartLine) (it : Db.OrderItem) : Prop :=
  Db.item_order it = orderId
  /\ column_int pg (line_id line) = Some (Db.item_product it)
  /\ column_int pg (or_default (line_quantity line) (VNum 1))
     = Some (Db.item_quantity it)
  /\ match v with
     | IndexJs => Db.item_price it = None
     | Part000 =>
         Db.item_price it <> None
         /\ Db.item_price it = column_numeric pg (line_price line)
     end.

(** The rows of [order_items] that belong to an order. *)
Definition items_of (orderId : Z) (t : Db.Store) : list Db.OrderItem :=
  filter (fun it => Db.item_order it =? orderId) (Db.order_items t).

(** The lines of the cart of a body: none when it is not iterable. *)
Definition cart (b : OrderBody) : list CartLine :=
  match iterate (products b) with
  | Some lines => lines
  | None => []
  end.

(** A small shop to run the routes on: a buyer and a seller register, the
    seller uploads one product.  The tokens are the ones the login route
    signs for them at clock reading 12. *)
Definition buyer_account : Registration :=
  {| reg_email := Some "b@x.com"; reg_password := Some "pw";
     reg_role := Some "buyer" |}.

Definition seller_account : Registration :=
  {| reg_email := Some "s@x.com"; reg_password := Some "pw";
     reg_role := Some "seller" |}.

Definition widget : UploadBody :=
  {| name := Some "Widget"; price := Some (VNum (999 # 100)%Q);
     stock := Some (VNum 5) |}.

Definition buyer_token (k : option string) : Jwt.Token :=
  Jwt.sign {| Jwt.claim_id := 1; Jwt.claim_email := "b@x.com";
              Jwt.claim_role := "buyer" |} (secret k) 12.

Definition seller_token (k : option string) : Jwt.Token :=
  Jwt.sign {| Jwt.claim_id := 2; Jwt.claim_email := "s@x.com";
              Jwt.claim_role := "seller" |} (secret k) 12.

Definition shop_history (k : option string) : list (Z * Request) :=
  [(10, PostRegister (Some buyer_account));
   (11, PostRegister (Some seller_account));
   (13, PostUploadProduct (Some (Signed (seller_token k))) (Some widget))].

Definition shop (pg : Db.TextInput) (k : option string) (v : Variant)
    : Pool :=
  serve_all pg k v (shop_history k) fresh_pool.

(** A cart line as a client writes it. *)
Definition line (id quantity price : Value) : CartLine :=
  VObj [("id", id); ("quantity", quantity); ("price", price)].

(** A cart whose second line names a product that does not exist. *)
Definition cart_with_unknown_product : OrderBody :=
  {| products :=
       Some (VArr [ line (VNum 1) (VNum 2) (VNum (999 # 100)%Q);
                    VObj [("id", VNum 99); ("price", VNum 1)] ]);
     total := Some (VNum (1998 # 100)%Q) |}.

(** Carts of one line: a negative quantity, the quantity 0 as a number
    and as a string, and a quantity beyond 32 bits. *)
Definition cart_with_quantity (quantity : Value) : OrderBody :=
  {| products := Some (VArr [ line (VNum 1) quantity (VNum (999 # 100)%Q) ]);
     total := Some (VNum (1998 # 100)%Q) |}.

(** The two answers of [verifyToken]. *)
Definition missing_token : Response :=
  {| status := 403; body := message "No se proporcionó un token" |}.

Definition invalid_token : Response :=
  {| status := 401; body := message "Token no válido" |}.

(** The [authorization] header of a request to a route that has
    [verifyToken] in front of it; [None] for the three open routes. *)
Definition gate (r : Request) : option (option AuthHeader) :=
  match r with
  | PostUploadProduct authorization _ => Some authorization
  | DeleteProducts authorization _ => Some authorization
  | PostOrders authorization _ => Some authorization
  | GetProducts | PostLogin _ | PostRegister _ => None
  end.

(** Some stored user has exactly this e-mail and this password. *)
Definition credentials_on_file (b : Credentials) (t : Db.Store) : Prop :=
  exists u, In u (Db.users t)
            /\ login_email b = Some (Db.user_email u)
            /\ login_password b = Some (Db.user_password u).





(** [users.email] is UNIQUE. *)
Definition emails_unique (t : Db.Store) : Prop :=
  NoDup (map Db.user_email (Db.users t)).

(** The row POST /register writes for a body, at clock reading [now]. *)
Definition registered_user (now : Z) (e pw r : string) (t : Db.Store)
    : Db.User :=
  {| Db.user_id := Db.users_seq t + 1; Db.user_email := e;
     Db.user_password := pw; Db.user_role := r;
     Db.user_created_at := now |}.

(** The 200 of POST /login for a stored user. *)
Definition logged_in (k : option string) (now : Z) (u : Db.User)
    : Response :=
  {| status := 200;
     body :=
       JObj [("message", JStr "Inicio de sesión exitoso");
             ("token",
              JToken (Jwt.sign {| Jwt.claim_id := Db.user_id u;
                                  Jwt.claim_email := Db.user_email u;
                                  Jwt.claim_role := Db.user_role u |}
                               (secret k) now));
             ("role", JStr (Db.user_role u))] |}.

(** The rows the other three INSERTs write. *)
Definition uploaded_product (now : Z) (n : string) (pr : Db.Numeric)
    (st : Z) (seller : Db.SellerRef) (t : Db.Store) : Db.Product :=
  {| Db.product_id := Db.products_seq t + 1; Db.product_name := n;
     Db.product_price := pr; Db.product_stock := st;
     Db.product_seller := seller; Db.product_created_at := now |}.

Definition placed_order (now buyer : Z) (tot : Db.Numeric) (t : Db.Store)
    : Db.Order :=
  {| Db.order_id := Db.orders_seq t + 1; Db.order_buyer := buyer;
     Db.order_total := tot; Db.order_created_at := now |}.

Definition written_item (o pid qty : Z) (pr : option Db.Numeric)
    (t : Db.Store) : Db.OrderItem :=
  {| Db.item_id := Db.order_items_seq t + 1; Db.item_order := o;
     Db.item_product := pid; Db.item_quantity := qty;
     Db.item_price := pr |}.

(** No sequence went back. *)
Definition sequences_follow (t t' : Db.Store) : Prop :=
  Db.users_seq t <= Db.users_seq t'
  /\ Db.products_seq t <= Db.products_seq t'
  /\ Db.orders_seq t <= Db.orders_seq t'
  /\ Db.order_items_seq t <= Db.order_items_seq t'.

(** The PRIMARY KEY of each table. *)
Definition keys_unique (t : Db.Store) : Prop :=
  NoDup (map Db.user_id (Db.users t))
  /\ NoDup (map Db.product_id (Db.products t))
  /\ NoDup (map Db.order_id (Db.orders t))
  /\ NoDup (map Db.item_id (Db.order_items t)).

(** The REFERENCES of the DDL: a product's seller and an order's buyer are
    users, an order item's order and product exist. *)
Definition references_hold (t : Db.Store) : Prop :=
  Forall (fun pr => Db.seller_known (Db.product_seller pr) t = true)
         (Db.products t)
  /\ Forall (fun o => Db.has_user_id (Db.order_buyer o) t = true)
            (Db.orders t)
  /\ Forall (fun it => Db.has_order_id (Db.item_order it) t = true
                       /\ Db.has_product_id (Db.item_product it) t = true)
            (Db.order_items t).

(** Every stored role is one of the two that [validRoles] lists. *)
Definition roles_valid (t : Db.Store) : Prop :=
  Forall (fun u => Db.user_role u = "buyer" \/ Db.user_role u = "seller")
         (Db.users t).

(** The tables a route has no statement for, equal before ([t]) and after
    ([t']) the request. *)
Definition untouched (r : Request) (t t' : Db.Store) : Prop :=
  match r with
  | PostUploadProduct _ _ =>
      Db.users t' = Db.users t /\ Db.orders t' = Db.orders t
      /\ Db.order_items t' = Db.order_items t
  | DeleteProducts _ _ =>
      Db.users t' = Db.users t /\ Db.orders t' = Db.orders t
  | PostRegister _ =>
      Db.products t' = Db.products t /\ Db.orders t' = Db.orders t
      /\ Db.order_items t' = Db.order_items t
  | PostOrders _ _ =>
      Db.users t' = Db.users t /\ Db.products t' = Db.products t
  | GetProducts | PostLogin _ => t' = t
  end.

(** The product listing: what GET /products answers for a store. *)
Definition listing (t : Db.Store) : list Db.Product :=
  filter (fun pr => 0 <? Db.product_stock pr) (Db.products t).

Definition product_list (t : Db.Store) : Response :=
  {| status := 200; body := JArr (map product_json (listing t)) |}.

Definition is_null (v : Value) : bool :=
  match v with
  | VNull => true
  | _ => false
  end.

Definition is_some {A} (o : option A) : bool :=
  match o with
  | Some _ => true
  | None => false
  end.

(** A cart line the store accepts: it is not [null], its id is that of a
    stored product, its quantity (or the 1 that stands in for a falsy
    one) is an INTEGER and, where [order_items] has a price column, its
    price is a NUMERIC(10,2). *)
Definition line_ok (pg : Db.TextInput) (v : Variant) (t : Db.Store)
    (line : CartLine) : bool :=
  negb (is_null line)
  && match column_int pg (line_id line) with
     | Some i => Db.has_product_id i t
     | None => false
     end
  && is_some (column_int pg (or_default (line_quantity line) (VNum 1)))
  && match v with
     | IndexJs => true
     | Part000 => is_some (column_numeric pg (line_price line))
     end.

(** The lines of a cart up to the first one the store does not accept. *)
Fixpoint valid_prefix (pg : Db.TextInput) (v : Variant) (t : Db.Store)
    (lines : list CartLine) : list CartLine :=
  match lines with
  | [] => []
  | line :: rest =>
      if line_ok pg v t line then line :: valid_prefix pg v t rest else []
  end.

(** * Properties *)

(** ** Catalogue listing *)

Lemma map_row_json_products (l : list Db.Product) :
  map row_json (map Db.ProductRow l) = map product_json l.
Proof.
  induction l as [| p l IH]; simpl; [reflexivity | now rewrite IH].
Qed.

Lemma product_json_shows (pr : Db.Product) :
  shows_product pr (product_json pr).
Proof.
  unfold shows_product, product_json, seller_json.
  destruct (Db.product_seller pr); repeat split; reflexivity.
Qed.


Lemma Forall2_map_shows (l : list Db.Product) :
  Forall2 shows_product l (map product_json l).
Proof.
  induction l as [| pr l IH]; simpl; constructor;
    [apply product_json_shows | exact IH].
Qed.

(** C8. GET /products answers 200 with an array that has, in storage
    order, one object for each product whose stock is strictly positive,
    carrying the columns of that row: its id, name, price (as the decimal
    of the stored NUMERIC), stock, seller and creation time.  Each such
    product is listed, and no product with a zero or negative stock is;
    the tables are not touched. *)
Theorem get_products_lists_exactly_in_stock
    (pg : Db.TextInput) (now : Z) (p : Pool) :
  exists (rows : list Db.Product) (items : list Json),
    fst (get_products pg now p)
      = Ok {| status := 200; body := JArr items |}
    /\ Forall2 shows_product rows items
    /\ rows = filter (fun pr => 0 <? Db.product_stock pr)
                     (Db.products (tables p))
    /\ (forall pr, In pr rows <->
                   In pr (Db.products (tables p)) /\ 0 < Db.product_stock pr)
    /\ (forall pr, In pr rows -> ~ Db.product_stock pr <= 0)
    /\ tables (snd (get_products pg now p)) = tables p.
Proof.
  exists (filter (fun pr => 0 <? Db.product_stock pr)
                 (Db.products (tables p))).
  exists (map product_json
              (filter (fun pr => 0 <? Db.product_stock pr)
                      (Db.products (tables p)))).
  assert (Hin : forall pr,
             In pr (filter (fun pr => 0 <? Db.product_stock pr)
                           (Db.products (tables p))) <->
             In pr (Db.products (tables p)) /\ 0 < Db.product_stock pr).
  { intros pr. rewrite filter_In, Z.ltb_lt. reflexivity. }
  split; [| split; [| split; [reflexivity | split; [exact Hin | split]]]].
  - unfold get_products, try_catch, bind, query, respond, ret; simpl.
    now rewrite map_row_json_products.
  - apply Forall2_map_shows.
  - intros pr H Hle. apply Hin in H. lia.
  - reflexivity.
Qed.

(** ** Login *)

Section Login.

Variable pg : Db.TextInput.
Variable SECRET_KEY : option string.

Lemma login_no_match (now : Z) (b : Credentials) (p : Pool) :
  credential_matches b (tables p) = [] ->
  login pg SECRET_KEY now b p = (Ok bad_credentials, looked_up b p).
Proof.
  intros H. unfold login, with_callback, query; simpl.
  fold (credential_matches b (tables p)). now rewrite H.
Qed.

Lemma login_match (now : Z) (b : Credentials) (p : Pool) (u : Db.User)
    (rest : list Db.User) :
  credential_matches b (tables p) = u :: rest ->
  login pg SECRET_KEY now b p
  = (Ok {| status := 200;
           body :=
             JObj [("message", JStr "Inicio de sesión exitoso");
                   ("token",
                    JToken
                      (Jwt.sign
                         {| Jwt.claim_id := Db.user_id u;
                            Jwt.claim_email := Db.user_email u;
                            Jwt.claim_role := Db.user_role u |}
                         (secret SECRET_KEY) now));
                   ("role", JStr (Db.user_role u))] |},
     looked_up b p).
Proof.
  intros H. unfold login, with_callback, query; simpl.
  fold (credential_matches b (tables p)). now rewrite H.
Qed.

Lemma no_match_when_all_differ (b : Credentials) (t : Db.Store) :
  (forall u, In u (Db.users t) ->
             Db.text_eq (Db.user_email u) (login_email b)
             && Db.text_eq (Db.user_password u) (login_password b)
             = false) ->
  credential_matches b t = [].
Proof.
  unfold credential_matches. induction (Db.users t) as [| u l IH].
  - reflexivity.
  - intros H. simpl. rewrite (H u (or_introl eq_refl)).
    apply IH. intros u' Hu'. apply H. now right.
Qed.

End Login.

Section LoginClaims.

Variable pg : Db.TextInput.
Variable SECRET_KEY : option string.

(** C7. Two refused logins cannot be told apart: a known e-mail with a
    wrong password and an unknown e-mail are both answered with the same
    401 and the same message, whatever the tables and the clock. *)
Theorem login_failures_are_indistinguishable
    (now1 now2 : Z) (p1 p2 : Pool)
    (wrong_password unknown_email : Credentials) :
  (exists u, In u (Db.users (tables p1))
             /\ Db.text_eq (Db.user_email u)
                           (login_email wrong_password) = true) ->
  (forall u, In u (Db.users (tables p1)) ->
             Db.text_eq (Db.user_email u)
                        (login_email wrong_password) = true ->
             Db.text_eq (Db.user_password u)
                        (login_password wrong_password) = false) ->
  (forall u, In u (Db.users (tables p2)) ->
             Db.text_eq (Db.user_email u)
                        (login_email unknown_email) = false) ->
  fst (login pg SECRET_KEY now1 wrong_password p1)
  = fst (login pg SECRET_KEY now2 unknown_email p2)
  /\ fst (login pg SECRET_KEY now1 wrong_password p1)
     = Ok {| status := 401;
             body := JObj [("message", JStr "Credenciales incorrectas")] |}.
Proof.
  intros _ Hpw Hemail.
  rewrite (login_no_match pg SECRET_KEY now1 wrong_password p1).
  - rewrite (login_no_match pg SECRET_KEY now2 unknown_email p2).
    + split; reflexivity.
    + apply no_match_when_all_differ. intros u Hu.
      now rewrite (Hemail u Hu).
  - apply no_match_when_all_differ. intros u Hu.
    destruct (Db.text_eq (Db.user_email u) (login_email wrong_password))
      eqn:E; [| reflexivity].
    now rewrite (Hpw u Hu E).
Qed.

(** C10. Login validates nothing: with the e-mail or the password absent
    from the body the credential lookup is still sent (it is the one
    entry added to the log), and the answer is the 401 of a refused
    login, never a 400. *)
Theorem login_without_field_is_refused_not_rejected
    (now : Z) (b : Credentials) (p : Pool) :
  login_email b = None \/ login_password b = None ->
  login pg SECRET_KEY now b p = (Ok bad_credentials, looked_up b p)
  /\ log (snd (login pg SECRET_KEY now b p))
     = log p ++ [(Db.SelectUserByCredentials (login_email b)
                                             (login_password b), true)]
  /\ status bad_credentials = 401
  /\ status bad_credentials <> 400
  /\ (forall (now' : Z) (b' : Credentials) (p' : Pool),
        credential_matches b' (tables p') = [] ->
        fst (login pg SECRET_KEY now' b' p')
        = fst (login pg SECRET_KEY now b p)).
Proof.
  intros Habsent.
  assert (Hnone : credential_matches b (tables p) = []).
  { apply no_match_when_all_differ. intros u _.
    destruct Habsent as [H | H]; rewrite H; simpl;
      [reflexivity | apply andb_false_r]. }
  rewrite (login_no_match pg SECRET_KEY now b p Hnone).
  repeat split; try reflexivity.
  - discriminate.
  - intros now' b' p' H'.
    now rewrite (login_no_match pg SECRET_KEY now' b' p' H').
Qed.

Lemma verify_sign (c : Jwt.Claims) (key : string) (now later : Z) :
  later < now + Jwt.one_hour ->
  Jwt.verify (Jwt.sign c key now) key later
  = Some (Jwt.payload (Jwt.sign c key now)).
Proof.
  intros H. unfold Jwt.verify, Jwt.sign; simpl.
  rewrite String.eqb_refl; simpl.
  destruct (Z.leb_spec (now + Jwt.one_hour) later); [lia | reflexivity].
Qed.

Lemma credential_matches_sound (b : Credentials) (t : Db.Store)
    (u : Db.User) (rest : list Db.User) :
  credential_matches b t = u :: rest ->
  In u (Db.users t)
  /\ login_email b = Some (Db.user_email u)
  /\ login_password b = Some (Db.user_password u).
Proof.
  intros H.
  assert (Hin : In u (credential_matches b t)) by (rewrite H; now left).
  apply filter_In in Hin. destruct Hin as [Hin Hm].
  apply andb_true_iff in Hm. destruct Hm as [He Hp].
  split; [assumption |].
  unfold Db.text_eq in He, Hp.
  destruct (login_email b) as [e |]; [| discriminate].
  destruct (login_password b) as [pw |]; [| discriminate].
  apply String.eqb_eq in He, Hp. now subst.
Qed.

(** C6. A login answered with 200 carries a token signed over exactly the
    id, e-mail and role of the matching stored user, expiring one hour
    after it was issued; presented to [verifyToken] at any time before
    that expiry, and whatever the tables have become since, it hands the
    handler behind it exactly the payload that was signed. *)
Theorem login_token_round_trip
    (now : Z) (b : Credentials) (p p' : Pool) (r : Response) :
  login pg SECRET_KEY now b p = (Ok r, p') ->
  status r = 200 ->
  exists (u : Db.User) (t : Jwt.Token),
    In u (Db.users (tables p))
    /\ login_email b = Some (Db.user_email u)
    /\ login_password b = Some (Db.user_password u)
    /\ get "token" (body r) = Some (JToken t)
    /\ get "role" (body r) = Some (JStr (Db.user_role u))
    /\ t = Jwt.sign {| Jwt.claim_id := Db.user_id u;
                       Jwt.claim_email := Db.user_email u;
                       Jwt.claim_role := Db.user_role u |}
                    (secret SECRET_KEY) now
    /\ Jwt.payload t = issued_payload u now
    /\ (forall later : Z, later < now + 3600 ->
          Jwt.verify t (secret SECRET_KEY) later
          = Some (issued_payload u now))
    /\ (forall (later : Z) (next : Jwt.Payload -> M Response)
               (afterwards : Pool),
          later < now + 3600 ->
          verifyToken SECRET_KEY later (Some (Signed t)) next afterwards
          = next (issued_payload u now) afterwards).
Proof.
  intros Hlogin Hstatus.
  destruct (credential_matches b (tables p)) as [| u rest] eqn:Hm.
  - rewrite (login_no_match pg SECRET_KEY now b p Hm) in Hlogin.
    injection Hlogin as Hr _. subst r. discriminate.
  - rewrite (login_match pg SECRET_KEY now b p u rest Hm) in Hlogin.
    injection Hlogin as Hr _. subst r.
    destruct (credential_matches_sound b (tables p) u rest Hm)
      as [Hin [He Hp]].
    eexists u, _. repeat split; try eassumption; try reflexivity.
    + intros later Hlater. now apply verify_sign.
    + intros later next afterwards Hlater.
      unfold verifyToken, decode; simpl.
      now rewrite verify_sign.
Qed.

End LoginClaims.

(** ** What each statement does to the four tables *)

Ltac by_cases H :=
  repeat match type of H with
         | context [match ?x with _ => _ end] =>
             destruct x eqn:?; try discriminate H
         end.

Lemma insert_product_inv (pg : Db.TextInput) (now : Z) (n : option string)
    (pr st : option Value) (seller : Db.SellerRef) (t t' : Db.Store)
    (rows : list Db.Row) :
  Db.insert_product pg now n pr st seller t = (Some rows, t') ->
  exists n' pr' st',
    column_text 255 n = Some n' /\ column_numeric pg pr = Some pr'
    /\ column_int pg st = Some st'
    /\ Db.has_product_id (Db.products_seq t + 1) t = false
    /\ Db.seller_known seller t = true
    /\ rows = [Db.ProductRow (uploaded_product now n' pr' st' seller t)]
    /\ Db.users t' = Db.users t
    /\ Db.products t'
       = Db.products t ++ [uploaded_product now n' pr' st' seller t]
    /\ Db.orders t' = Db.orders t
    /\ Db.order_items t' = Db.order_items t
    /\ sequences_follow t t'.
Proof.
  unfold Db.insert_product, column_text, column_numeric, column_int.
  intros H.
  destruct (Db.numeric pg pr) as [| x |], (Db.int4 pg st) as [| z |],
    n as [n0 |]; try discriminate H.
  destruct (Db.varchar 255 n0) as [n' |], (Db.numeric_10_2 x) as [pr' |];
    try discriminate H.
  cbn [Db.products_seq Db.draw_products_seq] in H.
  destruct (Db.has_product_id _ t) eqn:Hid; [discriminate |].
  destruct (Db.seller_known seller t) eqn:Hk; [| discriminate].
  injection H as <- <-. exists n', pr', z.
  repeat split; try reflexivity; try assumption; simpl; lia.
Qed.


Lemma insert_product_rejected (pg : Db.TextInput) (now : Z)
    (n : option string) (pr st : option Value) (seller : Db.SellerRef)
    (t t' : Db.Store) :
  Db.insert_product pg now n pr st seller t = (None, t') ->
  t' = t \/ t' = Db.draw_products_seq t.
Proof.
  unfold Db.insert_product. intros H.
  by_cases H; injection H as <-; auto.
Qed.

Lemma insert_user_inv (now : Z) (e pw r : option string)
    (t t' : Db.Store) (rows : list Db.Row) :
  Db.insert_user now e pw r t = (Some rows, t') ->
  exists e' pw' r',
    column_text 255 e = Some e' /\ column_text 255 pw = Some pw'
    /\ column_text 50 r = Some r'
    /\ Db.has_user_id (Db.users_seq t + 1) t = false
    /\ Db.has_user_email e' t = false
    /\ rows = [Db.UserRow (registered_user now e' pw' r' t)]
    /\ Db.users t' = Db.users t ++ [registered_user now e' pw' r' t]
    /\ Db.products t' = Db.products t
    /\ Db.orders t' = Db.orders t
    /\ Db.order_items t' = Db.order_items t
    /\ sequences_follow t t'.
Proof.
  unfold Db.insert_user, column_text. intros H.
  destruct e as [e0 |], pw as [pw0 |], r as [r0 |]; try discriminate.
  destruct (Db.varchar 255 e0) as [e' |], (Db.varchar 255 pw0) as [pw' |],
    (Db.varchar 50 r0) as [r' |]; try discriminate.
  cbn [Db.users_seq Db.draw_users_seq] in H.
  destruct (Db.has_user_id _ t) eqn:Hid; [discriminate |].
  destruct (Db.has_user_email e' t) eqn:Hem; [discriminate |].
  injection H as <- <-. exists e', pw', r'.
  repeat split; try reflexivity; try assumption; simpl; lia.
Qed.


Lemma insert_user_rejected (now : Z) (e pw r : option string)
    (t t' : Db.Store) :
  Db.insert_user now e pw r t = (None, t') -> t' = Db.draw_users_seq t.
Proof.
  unfold Db.insert_user. intros H.
  by_cases H; injection H as <-; auto.
Qed.

Lemma insert_order_inv (pg : Db.TextInput) (now buyer : Z)
    (tot : option Value) (t t' : Db.Store) (rows : list Db.Row) :
  Db.insert_order pg now buyer tot t = (Some rows, t') ->
  exists tot',
    column_numeric pg tot = Some tot'
    /\ Db.has_order_id (Db.orders_seq t + 1) t = false
    /\ Db.has_user_id buyer t = true
    /\ rows = [Db.IdRow (Db.orders_seq t + 1)]
    /\ Db.users t' = Db.users t
    /\ Db.products t' = Db.products t
    /\ Db.orders t' = Db.orders t ++ [placed_order now buyer tot' t]
    /\ Db.order_items t' = Db.order_items t
    /\ sequences_follow t t'.
Proof.
  unfold Db.insert_order, column_numeric. intros H.
  destruct (Db.numeric pg tot) as [| x |]; try discriminate.
  destruct (Db.numeric_10_2 x) as [tot' |]; try discriminate.
  cbn [Db.orders_seq Db.draw_orders_seq] in H.
  destruct (Db.has_order_id _ t) eqn:Hid; [discriminate |].
  destruct (Db.has_user_id buyer t) eqn:Hb; [| discriminate].
  injection H as <- <-. exists tot'.
  repeat split; try reflexivity; try assumption; simpl; lia.
Qed.

Lemma insert_order_passes (pg : Db.TextInput) (now buyer : Z)
    (tot : option Value) (t : Db.Store) (tot' : Db.Numeric) :
  column_numeric pg tot = Some tot' ->
  Db.has_order_id (Db.orders_seq t + 1) t = false ->
  Db.has_user_id buyer t = true ->
  Db.insert_order pg now buyer tot t
  = (Some [Db.IdRow (Db.orders_seq t + 1)],
     Db.add_order (placed_order now buyer tot' t) (Db.draw_orders_seq t)).
Proof.
  unfold Db.insert_order, column_numeric. intros Htot Hid Hb.
  destruct (Db.numeric pg tot) as [| x |]; try discriminate.
  rewrite Htot. cbn [Db.orders_seq Db.draw_orders_seq].
  now rewrite Hid, Hb.
Qed.

Lemma insert_order_rejected (pg : Db.TextInput) (now buyer : Z)
    (tot : option Value) (t t' : Db.Store) :
  Db.insert_order pg now buyer tot t = (None, t') ->
  t' = t \/ t' = Db.draw_orders_seq t.
Proof.
  unfold Db.insert_order. intros H.
  by_cases H; injection H as <-; auto.
Qed.

(** The price an item row gets: none where the table has no such column,
    the NUMERIC(10,2) of the parameter where it has. *)
Lemma insert_order_item_inv (pg : Db.TextInput) (o : Z)
    (pid qty : option Value) (pr : option (option Value))
    (t t' : Db.Store) (rows : list Db.Row) :
  Db.insert_order_item pg o pid qty pr t = (Some rows, t') ->
  exists pid' qty' pr',
    column_int pg pid = Some pid' /\ column_int pg qty = Some qty'
    /\ match pr with
       | None => pr' = None
       | Some x => pr' <> None /\ pr' = column_numeric pg x
       end
    /\ Db.has_item_id (Db.order_items_seq t + 1) t = false
    /\ Db.has_order_id o t = true
    /\ Db.has_product_id pid' t = true
    /\ Db.users t' = Db.users t
    /\ Db.products t' = Db.products t
    /\ Db.orders t' = Db.orders t
    /\ Db.order_items t'
       = Db.order_items t ++ [written_item o pid' qty' pr' t]
    /\ sequences_follow t t'.
Proof.
  unfold Db.insert_order_item, column_int, column_numeric. intros H.
  destruct (Db.int4 pg pid) as [| pid' |], (Db.int4 pg qty) as [| qty' |];
    try discriminate;
    try (destruct pr as [x |]; [destruct (Db.numeric pg x) |];
         discriminate).
  destruct pr as [x |].
  - destruct (Db.numeric pg x) as [| y |]; try discriminate.
    destruct (Db.numeric_10_2 y) as [pr' |] eqn:Hy; try discriminate.
    cbn [option_map Db.order_items_seq Db.draw_order_items_seq] in H.
    destruct (Db.has_item_id _ t) eqn:Hid; [discriminate |].
    destruct (Db.has_order_id o t) eqn:Ho; [| discriminate].
    destruct (Db.has_product_id pid' t) eqn:Hp; [| discriminate].
    injection H as <- <-. exists pid', qty', (Some pr').
    repeat split; try reflexivity; try assumption; try discriminate; simpl; lia.
  - cbn [Db.order_items_seq Db.draw_order_items_seq] in H.
    destruct (Db.has_item_id _ t) eqn:Hid; [discriminate |].
    destruct (Db.has_order_id o t) eqn:Ho; [| discriminate].
    destruct (Db.has_product_id pid' t) eqn:Hp; [| discriminate].
    injection H as <- <-. exists pid', qty', None.
    repeat split; try reflexivity; try assumption; simpl; lia.
Qed.

Lemma insert_order_item_passes (pg : Db.TextInput) (o : Z)
    (pid qty : option Value) (pr : option (option Value)) (t : Db.Store)
    (pid' qty' : Z) (pr' : option Db.Numeric) :
  column_int pg pid = Some pid' -> column_int pg qty = Some qty' ->
  match pr with
  | None => pr' = None
  | Some x => pr' <> None /\ pr' = column_numeric pg x
  end ->
  Db.has_item_id (Db.order_items_seq t + 1) t = false ->
  Db.has_order_id o t = true ->
  Db.has_product_id pid' t = true ->
  Db.insert_order_item pg o pid qty pr t
  = (Some [],
     Db.add_order_item (written_item o pid' qty' pr' t)
                       (Db.draw_order_items_seq t)).
Proof.
  unfold Db.insert_order_item, column_int, column_numeric.
  intros Hpid Hqty Hpr Hid Ho Hp.
  destruct (Db.int4 pg pid) as [| pid0 |]; try discriminate.
  destruct (Db.int4 pg qty) as [| qty0 |]; try discriminate.
  injection Hpid as ->. injection Hqty as ->.
  destruct pr as [x |].
  - destruct Hpr as [Hsome ->].
    destruct (Db.numeric pg x) as [| y |]; try contradiction.
    destruct (Db.numeric_10_2 y) as [pr0 |]; try contradiction.
    cbn [option_map Db.order_items_seq Db.draw_order_items_seq].
    now rewrite Hid, Ho, Hp.
  - subst pr'. cbn [Db.order_items_seq Db.draw_order_items_seq].
    now rewrite Hid, Ho, Hp.
Qed.

Lemma insert_order_item_rejected (pg : Db.TextInput) (o : Z)
    (pid qty : option Value) (pr : option (option Value))
    (t t' : Db.Store) :
  Db.insert_order_item pg o pid qty pr t = (None, t') ->
  t' = t \/ t' = Db.draw_order_items_seq t.
Proof.
  unfold Db.insert_order_item. intros H.
  by_cases H; injection H as <-; auto.
Qed.

Lemma delete_product_inv (pg : Db.TextInput) (id : string)
    (seller : Db.SellerRef) (t t' : Db.Store) (rows : list Db.Row) :
  Db.delete_product pg id seller t = (Some rows, t') ->
  exists i,
    column_int pg (Some (VStr id)) = Some i
    /\ rows = map Db.ProductRow (filter (Db.delete_matches i seller)
                                        (Db.products t))
    /\ Db.users t' = Db.users t
    /\ Db.products t'
       = filter (fun pr => negb (Db.delete_matches i seller pr))
                (Db.products t)
    /\ Db.orders t' = Db.orders t
    /\ Db.order_items t'
       = filter (fun it =>
                   negb (existsb (fun pr => Db.product_id pr
                                            =? Db.item_product it)
                                 (filter (Db.delete_matches i seller)
                                         (Db.products t))))
                (Db.order_items t)
    /\ sequences_follow t t'.
Proof.
  unfold Db.delete_product, column_int. intros H.
  destruct (Db.int4 pg (Some (VStr id))) as [| i |]; try discriminate.
  injection H as <- <-. exists i.
  repeat split; try reflexivity; try assumption; simpl; lia.
Qed.

Lemma delete_product_rejected (pg : Db.TextInput) (id : string)
    (seller : Db.SellerRef) (t t' : Db.Store) :
  Db.delete_product pg id seller t = (None, t') ->
  column_int pg (Some (VStr id)) = None /\ t' = t.
Proof.
  unfold Db.delete_product, column_int. intros H.
  destruct (Db.int4 pg (Some (VStr id))) as [| i |]; try discriminate;
    injection H as <-; now split.
Qed.

(** A rejected statement leaves the rows of the four tables; no sequence
    goes back. *)
Lemma run_rejected (pg : Db.TextInput) (now : Z) (q : Db.Stmt)
    (t t' : Db.Store) :
  Db.run pg now q t = (None, t') ->
  same_rows t t' /\ sequences_follow t t'.
Proof.
  intros H.
  assert (Hsame : forall s, t' = s -> same_rows t s /\ sequences_follow t s
                            -> same_rows t t' /\ sequences_follow t t')
    by (intros s ->; auto).
  destruct q as [n pr st seller | | i seller | e pw | e | e pw r
                | buyer tot | o pid qty | o pid qty pr];
    cbn [Db.run] in H; try discriminate.
  - apply insert_product_rejected in H. destruct H as [-> | ->];
      unfold same_rows, sequences_follow; simpl; repeat split; lia.
  - apply delete_product_rejected in H. destruct H as [_ ->].
    unfold same_rows, sequences_follow; repeat split; lia.
  - apply insert_user_rejected in H. subst t'.
    unfold same_rows, sequences_follow; simpl; repeat split; lia.
  - apply insert_order_rejected in H. destruct H as [-> | ->];
      unfold same_rows, sequences_follow; simpl; repeat split; lia.
  - apply insert_order_item_rejected in H. destruct H as [-> | ->];
      unfold same_rows, sequences_follow; simpl; repeat split; lia.
  - apply insert_order_item_rejected in H. destruct H as [-> | ->];
      unfold same_rows, sequences_follow; simpl; repeat split; lia.
Qed.

(** One statement, by cases: the tables after it in terms of the tables
    before it ([Eu], [Ep], [Eo], [Ei]), and what the statement checked. *)
Ltac same_tables Hrun t t' :=
  injection Hrun as _ Hrun;
  assert (Eu : Db.users t' = Db.users t) by (now rewrite Hrun);
  assert (Ep : Db.products t' = Db.products t) by (now rewrite Hrun);
  assert (Eo : Db.orders t' = Db.orders t) by (now rewrite Hrun);
  assert (Ei : Db.order_items t' = Db.order_items t) by (now rewrite Hrun);
  assert (Es : sequences_follow t t')
    by (rewrite Hrun; unfold sequences_follow; repeat split; lia);
  clear Hrun.

Ltac run_cases Hrun :=
  match type of Hrun with
  | Db.run _ _ ?q ?t = (Some _, ?t') =>
      destruct q; cbn [Db.run] in Hrun;
      [ apply insert_product_inv in Hrun;
        destruct Hrun
          as (? & ? & ? & _ & _ & _ & Hfree & Hknown & _
              & Eu & Ep & Eo & Ei & Es)
      | same_tables Hrun t t'
      | apply delete_product_inv in Hrun;
        destruct Hrun as (? & _ & _ & Eu & Ep & Eo & Ei & Es)
      | same_tables Hrun t t'
      | same_tables Hrun t t'
      | apply insert_user_inv in Hrun;
        destruct Hrun
          as (? & ? & ? & _ & _ & _ & Hfree & Hemail & _
              & Eu & Ep & Eo & Ei & Es)
      | apply insert_order_inv in Hrun;
        destruct Hrun
          as (? & _ & Hfree & Hbuyer & _ & Eu & Ep & Eo & Ei & Es)
      | apply insert_order_item_inv in Hrun;
        destruct Hrun
          as (? & ? & ? & _ & _ & _ & Hfree & Horder & Hproduct
              & Eu & Ep & Eo & Ei & Es)
      | apply insert_order_item_inv in Hrun;
        destruct Hrun
          as (? & ? & ? & _ & _ & _ & Hfree & Horder & Hproduct
              & Eu & Ep & Eo & Ei & Es) ]
  end.

(** The same for a statement that is known. *)
Ltac run_inv Hrun :=
  cbn [Db.run] in Hrun;
  match type of Hrun with
  | Db.insert_product _ _ _ _ _ _ _ = _ =>
      apply insert_product_inv in Hrun;
      destruct Hrun
        as (? & ? & ? & _ & _ & _ & Hfree & Hknown & _
            & Eu & Ep & Eo & Ei & Es)
  | Db.delete_product _ _ _ _ = _ =>
      apply delete_product_inv in Hrun;
      destruct Hrun as (? & _ & _ & Eu & Ep & Eo & Ei & Es)
  | Db.insert_user _ _ _ _ _ = _ =>
      apply insert_user_inv in Hrun;
      destruct Hrun
        as (? & ? & ? & _ & _ & _ & Hfree & Hemail & _
            & Eu & Ep & Eo & Ei & Es)
  | Db.insert_order _ _ _ _ _ = _ =>
      apply insert_order_inv in Hrun;
      destruct Hrun
        as (? & _ & Hfree & Hbuyer & _ & Eu & Ep & Eo & Ei & Es)
  | Db.insert_order_item _ _ _ _ _ _ = _ =>
      apply insert_order_item_inv in Hrun;
      destruct Hrun
        as (? & ? & ? & _ & _ & _ & Hfree & Horder & Hproduct
            & Eu & Ep & Eo & Ei & Es)
  | (Some _, ?t) = (Some _, ?t') => same_tables Hrun t t'
  end.

(** What [query] does with an accepted and with a rejected statement. *)
Lemma query_ok (pg : Db.TextInput) (now : Z) (q : Db.Stmt) (p : Pool)
    (rows : list Db.Row) (t' : Db.Store) :
  Db.run pg now q (tables p) = (Some rows, t') ->
  query pg now q p
  = (Ok rows, {| tables := t'; log := log p ++ [(q, true)] |}).
Proof. intros H. unfold query. now rewrite H. Qed.

Lemma query_rejected (pg : Db.TextInput) (now : Z) (q : Db.Stmt) (p : Pool)
    (t' : Db.Store) :
  Db.run pg now q (tables p) = (None, t') ->
  query pg now q p
  = (Thrown, {| tables := t'; log := log p ++ [(q, false)] |}).
Proof. intros H. unfold query. now rewrite H. Qed.

(** ** Truthiness, spelled out *)

Lemma truthy_false_iff (v : option Value) : truthy v = false <-> falsy v.
Proof.
  unfold falsy. split.
  - destruct v as [[| [|] | q | n | s | l | f] |]; simpl; intros H;
      try discriminate H; auto.
    + right; right; right; left. exists q. split; [reflexivity |].
      apply negb_false_iff, Z.eqb_eq in H. unfold Qeq. simpl. lia.
    + right; right; right; right.
      apply negb_false_iff, String.eqb_eq in H. now subst.
  - intros [-> | [-> | [-> | [[q [-> Hq]] | ->]]]]; try reflexivity.
    simpl. apply negb_false_iff, Z.eqb_eq.
    unfold Qeq in Hq. simpl in Hq. lia.
Qed.


(** ** Deleting a product *)

Lemma seller_eqb_eq (a b : Db.SellerRef) :
  Db.seller_eqb a b = true <-> a = b.
Proof.
  destruct a, b; simpl; split; intros H; try discriminate.
  - apply String.eqb_eq in H. now subst.
  - injection H as ->. apply String.eqb_refl.
  - apply Z.eqb_eq in H. now subst.
  - injection H as ->. apply Z.eqb_refl.
Qed.

Lemma delete_matches_spec (i : Z) (r : Db.SellerRef) (pr : Db.Product) :
  Db.delete_matches i r pr = true
  <-> Db.product_id pr = i /\ Db.product_seller pr = r.
Proof.
  unfold Db.delete_matches.
  now rewrite andb_true_iff, Z.eqb_eq, seller_eqb_eq.
Qed.

Lemma filter_keeps_all {A} (f : A -> bool) (l : list A) :
  (forall x, In x l -> f x = true) -> filter f l = l.
Proof.
  induction l as [| a l IH]; intros H; simpl; [reflexivity |].
  rewrite (H a (or_introl eq_refl)). f_equal. apply IH.
  intros x Hx. apply H. now right.
Qed.

Lemma filter_drops_all {A} (f : A -> bool) (l : list A) :
  (forall x, In x l -> f x = false) -> filter f l = [].
Proof.
  induction l as [| a l IH]; intros H; simpl; [reflexivity |].
  rewrite (H a (or_introl eq_refl)). apply IH.
  intros x Hx. apply H. now right.
Qed.

(** What the DELETE does once [:id] is read as the integer [i]. *)
Lemma delete_product_bound (pg : Db.TextInput) (id : string) (i : Z)
    (r : Db.SellerRef) (t : Db.Store) :
  column_int pg (Some (VStr id)) = Some i ->
  Db.delete_product pg id r t
  = (Some (map Db.ProductRow (filter (Db.delete_matches i r)
                                     (Db.products t))),
     {| Db.users := Db.users t;
        Db.products := filter (fun pr => negb (Db.delete_matches i r pr))
                              (Db.products t);
        Db.orders := Db.orders t;
        Db.order_items :=
          filter (fun it =>
                    negb (existsb (fun pr => Db.product_id pr
                                             =? Db.item_product it)
                                  (filter (Db.delete_matches i r)
                                          (Db.products t))))
                 (Db.order_items t);
        Db.users_seq := Db.users_seq t;
        Db.products_seq := Db.products_seq t;
        Db.orders_seq := Db.orders_seq t;
        Db.order_items_seq := Db.order_items_seq t |}).
Proof.
  unfold Db.delete_product, column_int. intros H.
  destruct (Db.int4 pg (Some (VStr id))) as [| z |]; try discriminate.
  now injection H as ->.
Qed.

Lemma delete_product_unbound (pg : Db.TextInput) (id : string)
    (r : Db.SellerRef) (t : Db.Store) :
  column_int pg (Some (VStr id)) = None ->
  Db.delete_product pg id r t = (None, t).
Proof.
  unfold Db.delete_product, column_int. intros H.
  now destruct (Db.int4 pg (Some (VStr id))) as [| z |].
Qed.

(** A DELETE whose WHERE clause matches no row returns no row and leaves
    the tables as they were. *)
Lemma delete_without_match (pg : Db.TextInput) (id : string) (i : Z)
    (r : Db.SellerRef) (t : Db.Store) :
  column_int pg (Some (VStr id)) = Some i ->
  (forall pr, In pr (Db.products t) -> Db.delete_matches i r pr = false) ->
  Db.delete_product pg id r t = (Some [], t).
Proof.
  intros Hid H. rewrite (delete_product_bound pg id i r t Hid).
  rewrite (filter_drops_all _ _ H). simpl.
  rewrite (filter_keeps_all (fun pr => negb (Db.delete_matches i r pr))).
  - rewrite (filter_keeps_all (fun _ => true)) by reflexivity.
    now destruct t.
  - intros pr Hpr. now rewrite (H pr Hpr).
Qed.

Lemma owned_by_caller_ref (v : Variant) (user : Jwt.Payload)
    (pr : Db.Product) :
  owned_by v user pr <-> Db.product_seller pr = caller_ref v user.
Proof. destruct v; reflexivity. Qed.


Section Authenticated.

Variable pg : Db.TextInput.
Variable SECRET_KEY : option string.

(** Behind [verifyToken], a request whose token decodes runs the handler
    with the decoded payload as [req.user]. *)
Lemma verifyToken_passes (now : Z) (authorization : option AuthHeader)
    (user : Jwt.Payload) (next : Jwt.Payload -> M Response) (p : Pool) :
  decode SECRET_KEY now authorization = Some user ->
  verifyToken SECRET_KEY now authorization next p = next user p.
Proof.
  intros H. unfold verifyToken.
  destruct authorization as [[s | t] |]; simpl in H; try discriminate.
  simpl. unfold decode. now rewrite H.
Qed.

(** DELETE /products/:id for a seller, by what [:id] is read as. *)
Lemma delete_handler_runs (v : Variant) (now : Z) (id : string)
    (user : Jwt.Payload) (p : Pool) :
  Jwt.role user = "seller" ->
  delete_product_handler pg v now id user p
  = match Db.delete_product pg id (caller_ref v user) (tables p) with
    | (Some rows, t') =>
        (Ok (if Z.of_nat (length rows) =? 0
             then product_not_found else product_deleted),
         {| tables := t';
            log := log p ++ [(Db.DeleteProduct id (caller_ref v user),
                              true)] |})
    | (None, t') =>
        (Ok delete_failed,
         {| tables := t';
            log := log p ++ [(Db.DeleteProduct id (caller_ref v user),
                              false)] |})
    end.
Proof.
  intros Hrole. unfold delete_product_handler.
  rewrite Hrole, String.eqb_refl. cbn [negb].
  unfold try_catch, bind, query. cbn [Db.run].
  destruct (Db.delete_product pg id (caller_ref v user) (tables p))
    as [[rows |] t']; [| reflexivity].
  now destruct (Z.of_nat (length rows) =? 0).
Qed.

Lemma delete_not_found (v : Variant) (now : Z) (id : string) (i : Z)
    (user : Jwt.Payload) (p : Pool) :
  Jwt.role user = "seller" ->
  column_int pg (Some (VStr id)) = Some i ->
  (forall pr, In pr (Db.products (tables p)) ->
              Db.delete_matches i (caller_ref v user) pr = false) ->
  fst (delete_product_handler pg v now id user p) = Ok product_not_found
  /\ tables (snd (delete_product_handler pg v now id user p)) = tables p.
Proof.
  intros Hrole Hid Hnone.
  rewrite (delete_handler_runs v now id user p Hrole).
  rewrite (delete_without_match pg id i _ _ Hid Hnone).
  now split.
Qed.

(** C5, as the code has it.  For a caller whose token decodes: a role
    other than seller gets 403 and nothing is sent to the store.  For a
    seller, a product that disappears has the id that [:id] is the text
    of and is recorded under the caller (the e-mail of the token in
    [index.js], its id in [part_000]), and nothing else changes in
    [products]; when [:id] is the text of an INTEGER, a request for an id
    that no product has and a request for a product of another seller
    get the same 404, with the tables untouched; when [:id] is no such
    text, the answer is the 500, with the tables untouched as well. *)
Theorem delete_only_own_products
    (v : Variant) (now : Z) (authorization : option AuthHeader)
    (id : string) (user : Jwt.Payload) (p : Pool) :
  decode SECRET_KEY now authorization = Some user ->
  let answer :=
    fst (delete_product pg SECRET_KEY v now authorization id p) in
  let after :=
    snd (delete_product pg SECRET_KEY v now authorization id p) in
  (Jwt.role user <> "seller" ->
     answer = Ok sellers_only_delete /\ after = p)
  /\ (Jwt.role user = "seller" ->
        (forall pr, In pr (Db.products (tables p)) ->
                    ~ In pr (Db.products (tables after)) ->
                    column_int pg (Some (VStr id))
                    = Some (Db.product_id pr)
                    /\ owned_by v user pr)
        /\ (forall pr, In pr (Db.products (tables after)) ->
                       In pr (Db.products (tables p)))
        /\ (forall i, column_int pg (Some (VStr id)) = Some i ->
              Db.has_product_id i (tables p) = false ->
              answer = Ok product_not_found /\ tables after = tables p)
        /\ (forall i, column_int pg (Some (VStr id)) = Some i ->
              Db.has_product_id i (tables p) = true ->
              (forall pr, In pr (Db.products (tables p)) ->
                          Db.product_id pr = i ->
                          ~ owned_by v user pr) ->
              answer = Ok product_not_found /\ tables after = tables p)
        /\ (column_int pg (Some (VStr id)) = None ->
              answer = Ok delete_failed /\ status delete_failed = 500
              /\ tables after = tables p)).
Proof.
  intros Hauth answer after. subst answer after.
  unfold delete_product. rewrite (verifyToken_passes _ _ _ _ _ Hauth).
  split.
  - intros Hrole. unfold delete_product_handler.
    destruct (String.eqb_spec (Jwt.role user) "seller") as [E | _];
      [contradiction | simpl]. now split.
  - intros Hrole. rewrite (delete_handler_runs v now id user p Hrole).
    split; [| split; [| split; [| split]]].
    + intros pr Hin Hgone.
      destruct (column_int pg (Some (VStr id))) as [i |] eqn:Hid.
      * rewrite (delete_product_bound pg id i _ _ Hid) in Hgone.
        cbn [fst snd tables Db.products] in Hgone.
        destruct (Db.delete_matches i (caller_ref v user) pr) eqn:E.
        -- apply delete_matches_spec in E. destruct E as [<- Hs].
           split; [reflexivity |].
           now apply owned_by_caller_ref.
        -- exfalso. apply Hgone. apply filter_In. now rewrite E.
      * rewrite (delete_product_unbound pg id _ _ Hid) in Hgone.
        contradiction.
    + intros pr.
      destruct (column_int pg (Some (VStr id))) as [i |] eqn:Hid.
      * rewrite (delete_product_bound pg id i _ _ Hid).
        cbn [fst snd tables Db.products]. intros H.
        now apply filter_In in H.
      * rewrite (delete_product_unbound pg id _ _ Hid). auto.
    + intros i Hid Hnone.
      rewrite <- (delete_handler_runs v now id user p Hrole).
      apply (delete_not_found v now id i); [assumption .. |].
      intros pr Hpr. unfold Db.delete_matches.
      destruct (Z.eqb_spec (Db.product_id pr) i) as [E | _];
        [| reflexivity].
      exfalso. unfold Db.has_product_id in Hnone.
      assert (Hex : existsb (fun q => Db.product_id q =? i)
                            (Db.products (tables p)) = true).
      { apply existsb_exists. exists pr. split; [assumption |].
        now apply Z.eqb_eq. }
      congruence.
    + intros i Hid _ Hother.
      rewrite <- (delete_handler_runs v now id user p Hrole).
      apply (delete_not_found v now id i); [assumption .. |].
      intros pr Hpr.
      destruct (Db.delete_matches i (caller_ref v user) pr) eqn:E;
        [| reflexivity].
      apply delete_matches_spec in E. destruct E as [Eid Eseller].
      exfalso. apply (Hother pr Hpr Eid).
      now apply owned_by_caller_ref.
    + intros Hid. rewrite (delete_product_unbound pg id _ _ Hid).
      now repeat split.
Qed.

End Authenticated.

(** ** Uploading a product *)


Section Upload.

Variable pg : Db.TextInput.
Variable SECRET_KEY : option string.


End Upload.

(** ** The SERIAL invariant *)

Lemma Forall_le_weaken {A} (key : A -> Z) (n m : Z) (l : list A) :
  n <= m -> Forall (fun x => key x <= n) l -> Forall (fun x => key x <= m) l.
Proof.
  intros Hnm H. induction H; constructor; [lia | assumption].
Qed.

Lemma Forall_filter {A} (P : A -> Prop) (f : A -> bool) (l : list A) :
  Forall P l -> Forall P (filter f l).
Proof.
  intros H. apply Forall_forall. intros x Hx.
  apply filter_In in Hx. rewrite Forall_forall in H. now apply H.
Qed.


Lemma same_rows_sequences_ahead (t t' : Db.Store) :
  sequences_ahead t -> same_rows t t' -> sequences_follow t t' ->
  sequences_ahead t'.
Proof.
  intros (Hu & Hp & Ho & Hi) (Eu & Ep & Eo & Ei) (Su & Sp & So & Si).
  unfold sequences_ahead. rewrite Eu, Ep, Eo, Ei.
  repeat split; eapply Forall_le_weaken; eassumption.
Qed.

Lemma run_keeps_sequences_ahead (pg : Db.TextInput) (now : Z)
    (q : Db.Stmt) (t t' : Db.Store) (res : option (list Db.Row)) :
  sequences_ahead t -> Db.run pg now q t = (res, t') ->
  sequences_ahead t'.
Proof.
  intros Hseq Hrun. destruct res as [rows |].
  2:{ apply run_rejected in Hrun. destruct Hrun.
      now apply (same_rows_sequences_ahead t). }
  destruct Hseq as (Hu & Hp & Ho & Hi).
  destruct q as [n pr st seller | | i seller | e pw | e | e pw r
                | buyer tot | o pid qty | o pid qty pr];
    cbn [Db.run] in Hrun.
  - pose proof Hrun as Hrun'. unfold Db.insert_product in Hrun'.
    by_cases Hrun'. injection Hrun' as _ <-.
    repeat split; simpl; try assumption.
    apply Forall_app. split.
    + apply Forall_le_weaken with (n := Db.products_seq t); [lia | exact Hp].
    + constructor; [simpl; lia | constructor].
  - injection Hrun as _ <-. now repeat split.
  - apply delete_product_inv in Hrun.
    destruct Hrun as (i' & _ & _ & Eu & Ep & Eo & Ei & Su & Sp & So & Si).
    unfold sequences_ahead. rewrite Eu, Ep, Eo, Ei.
    repeat split; try apply Forall_filter;
      eapply Forall_le_weaken; eassumption.
  - injection Hrun as _ <-. now repeat split.
  - injection Hrun as _ <-. now repeat split.
  - unfold Db.insert_user in Hrun.
    by_cases Hrun. injection Hrun as _ <-.
    repeat split; simpl; try assumption.
    apply Forall_app. split.
    + apply Forall_le_weaken with (n := Db.users_seq t); [lia | exact Hu].
    + constructor; [simpl; lia | constructor].
  - unfold Db.insert_order in Hrun.
    by_cases Hrun. injection Hrun as _ <-.
    repeat split; simpl; try assumption.
    apply Forall_app. split.
    + apply Forall_le_weaken with (n := Db.orders_seq t); [lia | exact Ho].
    + constructor; [simpl; lia | constructor].
  - unfold Db.insert_order_item in Hrun.
    by_cases Hrun; injection Hrun as _ <-;
      (repeat split; simpl; try assumption);
      (apply Forall_app; split;
       [apply Forall_le_weaken with (n := Db.order_items_seq t);
        [lia | exact Hi]
       | constructor; [simpl; lia | constructor]]).
  - unfold Db.insert_order_item in Hrun.
    by_cases Hrun; injection Hrun as _ <-;
      (repeat split; simpl; try assumption);
      (apply Forall_app; split;
       [apply Forall_le_weaken with (n := Db.order_items_seq t);
        [lia | exact Hi]
       | constructor; [simpl; lia | constructor]]).
Qed.

Section Keeps.

Variable pg : Db.TextInput.
Variable P : Db.Store -> Prop.
Hypothesis run_keeps :
  forall now q t t' res,
    P t -> Db.run pg now q t = (res, t') -> P t'.

Lemma keeps_ret {A} (a : A) : keeps P (ret a).
Proof. intros p H. exact H. Qed.

Lemma keeps_throw {A} : keeps P (@throw A).
Proof. intros p H. exact H. Qed.

Lemma keeps_respond (code : Z) (j : Json) : keeps P (respond code j).
Proof. apply keeps_ret. Qed.

Lemma keeps_bind {A B} (m : M A) (k : A -> M B) :
  keeps P m -> (forall a, keeps P (k a)) -> keeps P (bind m k).
Proof.
  intros Hm Hk p H. unfold bind. specialize (Hm p H).
  destruct (m p) as [[a |] p']; simpl in *; [now apply Hk | assumption].
Qed.

Lemma keeps_try_catch {A} (m handler : M A) :
  keeps P m -> keeps P handler -> keeps P (try_catch m handler).
Proof.
  intros Hm Hh p H. unfold try_catch. specialize (Hm p H).
  destruct (m p) as [[a |] p']; simpl in *; [assumption | now apply Hh].
Qed.

Lemma keeps_with_callback {A B} (m : M A) (cb : Outcome A -> M B) :
  keeps P m -> (forall r, keeps P (cb r)) ->
  keeps P (with_callback m cb).
Proof.
  intros Hm Hcb p H. unfold with_callback. specialize (Hm p H).
  destruct (m p) as [r p']. now apply Hcb.
Qed.

Lemma keeps_destructure {A} (body : option A)
    (handler : A -> M Response) :
  (forall b, keeps P (handler b)) -> keeps P (destructure body handler).
Proof.
  intros H. destruct body as [b |]; [apply H | apply keeps_throw].
Qed.

Lemma keeps_query (now : Z) (q : Db.Stmt) : keeps P (query pg now q).
Proof.
  intros p H. unfold query.
  destruct (Db.run pg now q (tables p)) as [[rows |] t'] eqn:E; simpl;
    now apply (run_keeps now q (tables p) t' _ H E).
Qed.

Lemma keeps_first_row_id (rows : list Db.Row) :
  keeps P (first_row_id rows).
Proof.
  destruct rows as [| [u | pr | i] rest]; simpl;
    [apply keeps_throw | apply keeps_ret ..].
Qed.

Lemma keeps_insert_items (v : Variant) (now orderId : Z)
    (products : list CartLine) :
  keeps P (insert_items pg v now orderId products).
Proof.
  induction products as [| product rest IH]; simpl.
  - apply keeps_ret.
  - apply keeps_bind; [| intros _; exact IH].
    destruct product; first [apply keeps_throw | apply keeps_query].
Qed.

Lemma keeps_verifyToken (k : option string) (now : Z)
    (authorization : option AuthHeader)
    (next : Jwt.Payload -> M Response) :
  (forall user, keeps P (next user)) ->
  keeps P (verifyToken k now authorization next).
Proof.
  intros Hnext. unfold verifyToken.
  destruct (negb (header_present authorization)); [apply keeps_respond |].
  destruct (decode k now authorization); [apply Hnext | apply keeps_respond].
Qed.

(** Every route keeps what every statement keeps. *)
Lemma keeps_serve (k : option string) (v : Variant) (now : Z)
    (r : Request) :
  keeps P (serve pg k v now r).
Proof.
  destruct r as [a b | | a i | b | b | a b]; simpl.
  - apply keeps_verifyToken. intros user.
    apply keeps_destructure. intros body. unfold upload_product_handler.
    destruct (_ || _); [apply keeps_respond |].
    destruct (negb _); [apply keeps_respond |].
    apply keeps_try_catch; [| apply keeps_respond].
    apply keeps_bind; [apply keeps_query | intros; apply keeps_respond].
  - apply keeps_try_catch; [| apply keeps_respond].
    apply keeps_bind; [apply keeps_query | intros; apply keeps_respond].
  - apply keeps_verifyToken. intros user. unfold delete_product_handler.
    destruct (negb _); [apply keeps_respond |].
    apply keeps_try_catch; [| apply keeps_respond].
    apply keeps_bind; [apply keeps_query |].
    intros rows. destruct (_ =? _); apply keeps_respond.
  - apply keeps_destructure. intros body.
    apply keeps_with_callback; [apply keeps_query |].
    intros [rows |]; [| apply keeps_respond].
    destruct (_ =? _); [apply keeps_respond |].
    destruct rows as [| [u | pr | i] rest];
      first [apply keeps_respond | apply keeps_throw].
  - apply keeps_destructure. intros body.
    unfold register. destruct (negb _); [apply keeps_respond |].
    apply keeps_try_catch; [| apply keeps_respond].
    apply keeps_bind; [apply keeps_query |].
    intros rows. destruct (_ <? _); [apply keeps_respond |].
    apply keeps_bind; [apply keeps_query | intros; apply keeps_respond].
  - apply keeps_verifyToken. intros user.
    apply keeps_destructure. intros body. unfold create_order_handler.
    destruct (_ || _); [apply keeps_respond |].
    apply keeps_try_catch; [| apply keeps_respond].
    apply keeps_bind; [apply keeps_query |]. intros rows.
    apply keeps_bind; [apply keeps_first_row_id |]. intros orderId.
    apply keeps_bind;
      [destruct (iterate _); [apply keeps_insert_items | apply keeps_throw]
      |].
    intros; apply keeps_respond.
Qed.

Lemma keeps_serve_all (k : option string) (v : Variant)
    (rs : list (Z * Request)) (p : Pool) :
  P (tables p) -> P (tables (serve_all pg k v rs p)).
Proof.
  revert p. induction rs as [| [now r] rest IH]; intros p H; simpl.
  - exact H.
  - apply IH. now apply keeps_serve.
Qed.

End Keeps.


(** No statement removes a user: whoever is in [users] stays there, and so
    does the standing of a token that login signed for them. *)
Lemma run_keeps_user (pg : Db.TextInput) (u : Db.User) (now : Z)
    (q : Db.Stmt) (t t' : Db.Store) (res : option (list Db.Row)) :
  In u (Db.users t) -> Db.run pg now q t = (res, t') ->
  In u (Db.users t').
Proof.
  intros Hin Hrun. destruct res as [rows |].
  2:{ apply run_rejected in Hrun. destruct Hrun as [[Eu _] _].
      now rewrite Eu. }
  run_cases Hrun; rewrite Eu; try assumption.
  apply in_or_app. now left.
Qed.

Lemma served_pool_keeps_user (pg : Db.TextInput) (k : option string)
    (v : Variant) (rs : list (Z * Request)) (p : Pool) (u : Db.User) :
  In u (Db.users (tables p)) ->
  In u (Db.users (tables (serve_all pg k v rs p))).
Proof.
  apply (keeps_serve_all pg (fun t => In u (Db.users t))).
  intros now q t t' res. apply run_keeps_user.
Qed.

(** ** Registration *)


Lemma includes_validRoles (r : option string) :
  includes validRoles r = true <-> r = Some "buyer" \/ r = Some "seller".
Proof.
  unfold includes, validRoles. destruct r as [s |]; cbn [existsb].
  - rewrite !orb_true_iff, !String.eqb_eq. split.
    + intros [H | [H | H]]; [left | right | discriminate]; now subst.
    + intros [H | H]; injection H as <-; auto.
  - split; [discriminate | intros [H | H]; discriminate].
Qed.

(** A text that fits the column is stored as it is. *)
Lemma varchar_fits (n : nat) (s : string) :
  (chars s <= n)%nat -> Db.varchar n s = Some s.
Proof.
  intros H. unfold Db.varchar.
  now rewrite (proj2 (Nat.leb_le _ _) H).
Qed.

Lemma valid_role_fits (r : option string) :
  r = Some "buyer" \/ r = Some "seller" ->
  exists role, r = Some role /\ (role = "buyer" \/ role = "seller")
               /\ column_text 50 r = Some role.
Proof.
  intros [-> | ->]; eexists; (split; [reflexivity |]); split; auto.
Qed.

Lemma has_user_email_In (u : Db.User) (t : Db.Store) :
  In u (Db.users t) -> Db.has_user_email (Db.user_email u) t = true.
Proof.
  intros H. apply existsb_exists. exists u.
  split; [assumption | apply String.eqb_refl].
Qed.

Section Registration.

Variable pg : Db.TextInput.

(** POST /register with a valid role and an e-mail the lookup does not
    find: the answer is decided by the INSERT. *)
Lemma register_inserts (now : Z) (b : Registration) (p : Pool) :
  reg_role b = Some "buyer" \/ reg_role b = Some "seller" ->
  (forall u, In u (Db.users (tables p)) ->
             Db.text_eq (Db.user_email u) (reg_email b) = false) ->
  register pg now b p
  = let looked :=
      {| tables := tables p;
         log := log p ++ [(Db.SelectUserByEmail (reg_email b), true)] |} in
    let insert := Db.InsertUser (reg_email b) (reg_password b)
                                (reg_role b) in
    match Db.insert_user now (reg_email b) (reg_password b) (reg_role b)
                         (tables p) with
    | (Some rows, t') =>
        (Ok {| status := 201;
               body := message_with "Usuario registrado exitosamente"
                                    "user" rows |},
         {| tables := t'; log := log looked ++ [(insert, true)] |})
    | (None, t') =>
        (Ok register_failed,
         {| tables := t'; log := log looked ++ [(insert, false)] |})
    end.
Proof.
  intros Hrole Hnone. unfold register.
  rewrite (proj2 (includes_validRoles _) Hrole). cbn [negb].
  unfold try_catch, bind.
  erewrite query_ok by reflexivity.
  rewrite length_map, (filter_drops_all _ _ Hnone).
  cbn [length Z.of_nat Z.ltb Z.compare].
  unfold query. cbn [Db.run tables log].
  now destruct (Db.insert_user now _ _ _ (tables p)) as [[rows |] t'].
Qed.

Lemma register_finds (now : Z) (b : Registration) (p : Pool)
    (u : Db.User) :
  reg_role b = Some "buyer" \/ reg_role b = Some "seller" ->
  In u (Db.users (tables p)) ->
  Db.text_eq (Db.user_email u) (reg_email b) = true ->
  register pg now b p
  = (Ok user_exists,
     {| tables := tables p;
        log := log p ++ [(Db.SelectUserByEmail (reg_email b), true)] |}).
Proof.
  intros Hrole Hin Hu. unfold register.
  rewrite (proj2 (includes_validRoles _) Hrole). cbn [negb].
  unfold try_catch, bind.
  erewrite query_ok by reflexivity.
  rewrite length_map.
  destruct (filter _ (Db.users (tables p))) as [| u' rest] eqn:F.
  - exfalso.
    assert (Hf : In u (filter
                         (fun u => Db.text_eq (Db.user_email u)
                                              (reg_email b))
                         (Db.users (tables p)))).
    { apply filter_In. now split. }
    rewrite F in Hf. exact Hf.
  - destruct (Z.ltb_spec 0 (Z.of_nat (length (u' :: rest))));
      [| simpl length in *; lia].
    reflexivity.
Qed.

Lemma lookup_misses_or_finds (e : option string) (t : Db.Store) :
  (forall u, In u (Db.users t) ->
             Db.text_eq (Db.user_email u) e = false)
  \/ (exists u, In u (Db.users t)
                /\ Db.text_eq (Db.user_email u) e = true).
Proof.
  induction (Db.users t) as [| a l [IH | [u [Hin Hu]]]].
  - left. intros u [].
  - destruct (Db.text_eq (Db.user_email a) e) eqn:E.
    + right. exists a. split; [now left | assumption].
    + left. intros u [<- | Hin]; [assumption | now apply IH].
  - right. exists u. split; [now right | assumption].
Qed.


(** The ways POST /register can end: without a new row, and not with a
    201; or with the 201 and one more user, whose e-mail nobody had. *)
Lemma register_outcome (now : Z) (b : Registration) (p : Pool) :
  (same_rows (tables p) (tables (snd (register pg now b p)))
   /\ sequences_follow (tables p) (tables (snd (register pg now b p)))
   /\ forall r, fst (register pg now b p) = Ok r -> status r <> 201)
  \/ (exists e pw role,
        column_text 255 (reg_email b) = Some e
        /\ column_text 255 (reg_password b) = Some pw
        /\ reg_role b = Some role
        /\ (role = "buyer" \/ role = "seller")
        /\ Db.has_user_email e (tables p) = false
        /\ fst (register pg now b p)
           = Ok {| status := 201;
                   body :=
                     JObj [("message",
                            JStr "Usuario registrado exitosamente");
                           ("user",
                            user_json
                              (registered_user now e pw role (tables p)))]
                |}
        /\ Db.users (tables (snd (register pg now b p)))
           = Db.users (tables p)
               ++ [registered_user now e pw role (tables p)]
        /\ Db.products (tables (snd (register pg now b p)))
           = Db.products (tables p)
        /\ Db.orders (tables (snd (register pg now b p)))
           = Db.orders (tables p)
        /\ Db.order_items (tables (snd (register pg now b p)))
           = Db.order_items (tables p)).
Proof.
  assert (Hsame : same_rows (tables p) (tables p)
                  /\ sequences_follow (tables p) (tables p)).
  { unfold same_rows, sequences_follow. repeat split; lia. }
  destruct (includes validRoles (reg_role b)) eqn:Hrole.
  2:{ left. unfold register. rewrite Hrole. cbn [negb respond ret fst snd].
      split; [apply Hsame |]. split; [apply Hsame |].
      intros r E. injection E as <-. discriminate. }
  apply includes_validRoles in Hrole.
  destruct (lookup_misses_or_finds (reg_email b) (tables p))
    as [Hnone | [u [Hin Hu]]].
  2:{ left. rewrite (register_finds now b p u Hrole Hin Hu).
      cbn [fst snd tables].
      split; [apply Hsame |]. split; [apply Hsame |].
      intros r E. injection E as <-. discriminate. }
  rewrite (register_inserts now b p Hrole Hnone). cbn zeta.
  destruct (Db.insert_user now (reg_email b) (reg_password b) (reg_role b)
                           (tables p)) as [[rows |] t'] eqn:E.
  - right. apply insert_user_inv in E.
    destruct E as (e & pw & role & He & Hpw & Hr & _ & Hfree & -> & H).
    destruct (valid_role_fits _ Hrole) as (role' & Hr' & Hvalid & Hfits).
    assert (role' = role) by congruence. subst role'.
    exists e, pw, role. cbn [fst snd tables message_with row_json].
    split; [assumption |]. split; [assumption |]. split; [assumption |].
    split; [assumption |]. split; [assumption |]. split; [reflexivity |].
    destruct H as (Eu & Ep & Eo & Ei & _). now repeat split.
  - left. cbn [fst snd tables].
    apply (run_rejected pg now (Db.InsertUser (reg_email b)
                                  (reg_password b) (reg_role b))) in E.
    destruct E as [E1 E2]. split; [exact E1 |]. split; [exact E2 |].
    intros r E'. injection E' as <-. discriminate.
Qed.

(** X6. An e-mail registers once.  After a registration answered 201,
    and whatever requests are served afterwards, a registration with the
    same e-mail and a valid role (any password) is never answered 201
    and writes no row.  When the e-mail fits the 255 characters of its
    column the answer is the 400 "El usuario ya existe" and the tables
    are left as they are. *)
Theorem registered_email_cannot_register_again
    (k : option string) (v : Variant) (now : Z) (b : Registration)
    (p : Pool) (r : Response) :
  fst (register pg now b p) = Ok r -> status r = 201 ->
  forall (rs : list (Z * Request)) (now' : Z) (b' : Registration),
    reg_email b' = reg_email b ->
    reg_role b' = Some "buyer" \/ reg_role b' = Some "seller" ->
    let later := serve_all pg k v rs (snd (register pg now b p)) in
    same_rows (tables later) (tables (snd (register pg now' b' later)))
    /\ (forall r', fst (register pg now' b' later) = Ok r' ->
                   status r' <> 201)
    /\ (forall e, reg_email b = Some e -> (chars e <= 255)%nat ->
          fst (register pg now' b' later) = Ok user_exists
          /\ tables (snd (register pg now' b' later)) = tables later).
Proof.
  intros Hr Hs rs now' b' Hemail Hrole later.
  destruct (register_outcome now b p) as [[_ [_ Hnot]] | H].
  { exfalso. exact (Hnot r Hr Hs). }
  destruct H as (e & pw & role & He & _ & _ & _ & _ & _ & Hu & _).
  assert (Hin : In (registered_user now e pw role (tables p))
                   (Db.users (tables later))).
  { apply served_pool_keeps_user. rewrite Hu. apply in_or_app.
    right. now left. }
  assert (Hagain : same_rows (tables later)
                             (tables (snd (register pg now' b' later)))
                   /\ forall r', fst (register pg now' b' later) = Ok r' ->
                                 status r' <> 201).
  { destruct (register_outcome now' b' later) as [[H1 [_ H2]] | H].
    - now split.
    - exfalso.
      destruct H as (e' & pw' & role' & He' & _ & _ & _ & Hfree & _).
      rewrite Hemail, He in He'. injection He' as He'. subst e'.
      apply has_user_email_In in Hin. cbn [registered_user Db.user_email]
        in Hin. congruence. }
  split; [apply Hagain |]. split; [apply Hagain |].
  intros s Hsub Hfits.
  rewrite Hsub in He. cbn [column_text] in He.
  rewrite (varchar_fits 255 s Hfits) in He. injection He as <-.
  rewrite (register_finds now' b' later _ Hrole Hin).
  - now split.
  - rewrite Hemail, Hsub. cbn [registered_user Db.user_email Db.text_eq].
    apply String.eqb_refl.
Qed.

End Registration.


(** The buyer of the shop tries to register once more, as a seller. *)
Lemma registered_email_cannot_register_again_in_shop :
  fst (register Db.decimal 20
         {| reg_email := Some "b@x.com"; reg_password := Some "other";
            reg_role := Some "seller" |}
         (shop Db.decimal None Part000))
  = Ok user_exists.
Proof.
  refine (proj1 (proj2 (proj2
            (registered_email_cannot_register_again Db.decimal None Part000
               10 buyer_account fresh_pool _ eq_refl eq_refl
               [(11, PostRegister (Some seller_account));
                (13, PostUploadProduct
                       (Some (Signed (seller_token None))) (Some widget))]
               20
               {| reg_email := Some "b@x.com";
                  reg_password := Some "other";
                  reg_role := Some "seller" |}
               eq_refl _)) "b@x.com" eq_refl _)).
  - right. reflexivity.
  - vm_compute. lia.
Defined.

(** An e-mail of 255 characters and a blank is stored without the blank:
    registering it again finds no user with the e-mail as submitted, and
    the INSERT then breaks UNIQUE. *)
Lemma padded_email_registers_once :
  let padded :=
    {| reg_email :=
         Some (String.append
                 (string_of_list_ascii (repeat "a"%char 255%nat)) " ");
       reg_password := Some "pw"; reg_role := Some "buyer" |} in
  let once := register Db.decimal 10 padded fresh_pool in
  let twice := register Db.decimal 11 padded (snd once) in
  (exists r, fst once = Ok r /\ status r = 201)
  /\ map (fun u => chars (Db.user_email u)) (Db.users (tables (snd once)))
     = [255%nat]
  /\ fst twice = Ok register_failed
  /\ Db.users (tables (snd twice)) = Db.users (tables (snd once)).
Proof.
  vm_compute. repeat split. eexists. split; reflexivity.
Qed.

(** ** Creating an order *)

Lemma item_stmt_spec (pg : Db.TextInput) (v : Variant) (now o : Z)
    (line : CartLine) (t t' : Db.Store) (rows : list Db.Row) :
  Db.run pg now (item_stmt v o line) t = (Some rows, t') ->
  exists it,
    Db.users t' = Db.users t /\ Db.products t' = Db.products t
    /\ Db.orders t' = Db.orders t
    /\ Db.order_items t' = Db.order_items t ++ [it]
    /\ stored_as pg v o line it.
Proof.
  intros H. unfold stored_as.
  destruct v; cbn [item_stmt Db.run] in H;
    apply insert_order_item_inv in H;
    destruct H as (pid & qty & pr & H1 & H2 & H3 & _ & _ & _
                   & Eu & Ep & Eo & Ei & _);
    exists (written_item o pid qty pr t);
    cbn [written_item Db.item_order Db.item_product Db.item_quantity
         Db.item_price];
    repeat split; try assumption; apply H3.
Qed.

Lemma insert_item_cases (pg : Db.TextInput) (v : Variant) (now o : Z)
    (line : CartLine) :
  (line = VNull /\ insert_item pg v now o line = throw)
  \/ (line <> VNull
      /\ insert_item pg v now o line = query pg now (item_stmt v o line)).
Proof.
  destruct line; [left | right ..]; split; try reflexivity; discriminate.
Qed.

Lemma not_all_passed_cons_false (q : Db.Stmt)
    (rest : list (Db.Stmt * bool)) :
  ~ all_passed ((q, false) :: rest).
Proof. intros H. inversion H; subst. discriminate. Qed.

(** The loop over the cart: it writes a row for each line of a prefix of
    the cart, in order, and nothing else; it ends normally exactly when
    that prefix is the whole cart, that is when no line is [null] and
    every INSERT passed. *)
Lemma insert_items_spec (pg : Db.TextInput) (v : Variant) (now o : Z)
    (lines : list CartLine) (p : Pool) :
  exists (new : list Db.OrderItem) (entries : list (Db.Stmt * bool)),
    let r := fst (insert_items pg v now o lines p) in
    let p' := snd (insert_items pg v now o lines p) in
    Db.users (tables p') = Db.users (tables p)
    /\ Db.products (tables p') = Db.products (tables p)
    /\ Db.orders (tables p') = Db.orders (tables p)
    /\ Db.order_items (tables p') = Db.order_items (tables p) ++ new
    /\ log p' = log p ++ entries
    /\ Forall2 (stored_as pg v o) (firstn (length new) lines) new
    /\ ((r = Ok tt /\ length new = length lines /\ all_passed entries
         /\ ~ In VNull lines)
        \/ (r = Thrown /\ (length new < length lines)%nat
            /\ (~ all_passed entries \/ In VNull lines))).
Proof.
  revert p. induction lines as [| line rest IH]; intros p.
  - exists [], []. cbn [insert_items ret fst snd length firstn].
    rewrite !app_nil_r.
    do 5 (split; [reflexivity |]). split; [constructor |].
    left. repeat split; [constructor | intros []].
  - cbn [insert_items]. unfold bind.
    destruct (insert_item_cases pg v now o line) as [[-> ->] | [Hnn ->]].
    { exists [], []. cbn [throw fst snd length firstn].
      rewrite !app_nil_r.
      do 5 (split; [reflexivity |]). split; [constructor |].
      right. repeat split; [simpl; lia |]. right. now left. }
    destruct (Db.run pg now (item_stmt v o line) (tables p))
      as [[rows |] t'] eqn:E.
    + rewrite (query_ok _ _ _ _ _ _ E).
      destruct (item_stmt_spec _ _ _ _ _ _ _ _ E)
        as [it [Hu [Hp [Ho [Hi Hs]]]]].
      specialize (IH {| tables := t';
                        log := log p ++ [(item_stmt v o line, true)] |}).
      destruct IH as [new [entries IH]]. cbn zeta in IH.
      destruct IH as [Hu' [Hp' [Ho' [Hi' [Hl' [Hf' Hr']]]]]].
      cbn [tables log] in *.
      exists (it :: new), ((item_stmt v o line, true) :: entries).
      cbn zeta.
      split; [congruence |]. split; [congruence |]. split; [congruence |].
      split; [rewrite Hi', Hi, <- app_assoc; reflexivity |].
      split; [rewrite Hl', <- app_assoc; reflexivity |].
      split; [simpl; now constructor |].
      destruct Hr' as [(Hr & Hlen & Hall & Hnull)
                      | (Hr & Hlen & Hwhy)].
      * left. repeat split; [assumption | simpl; congruence | |].
        -- constructor; [reflexivity | assumption].
        -- intros [H | H]; [now apply Hnn | now apply Hnull].
      * right. repeat split; [assumption | simpl; lia |].
        destruct Hwhy as [Hnot | Hin]; [left | right; now right].
        intros H. inversion H; subst. contradiction.
    + rewrite (query_rejected _ _ _ _ _ E).
      apply run_rejected in E. destruct E as [(Eu & Ep & Eo & Ei) _].
      exists [], [(item_stmt v o line, false)].
      cbn [fst snd tables log length firstn].
      rewrite app_nil_r.
      do 4 (split; [assumption |]). split; [reflexivity |].
      split; [constructor |].
      right. repeat split; [simpl; lia |]. left.
      apply not_all_passed_cons_false.
Qed.

Lemma sent_by_app (p after : Pool) (entries : list (Db.Stmt * bool)) :
  log after = log p ++ entries -> sent_by p after = entries.
Proof.
  intros H. unfold sent_by. rewrite H. clear H.
  induction (log p) as [| e l IH]; [reflexivity | exact IH].
Qed.

Lemma create_order_handler_incomplete (pg : Db.TextInput) (v : Variant)
    (now : Z) (b : OrderBody) (user : Jwt.Payload) (p : Pool) :
  truthy (products b) = false \/ length_is_zero (products b) = true
  \/ truthy (total b) = false ->
  create_order_handler pg v now b user p = (Ok incomplete_order, p).
Proof.
  intros H. unfold create_order_handler, truthy_num.
  destruct H as [H | [H | H]]; rewrite H; cbn [negb orb];
    rewrite ?orb_true_r; reflexivity.
Qed.

(** What POST /orders does with a cart that passes the validation and
    can be walked through: either the INSERT of the order is rejected and
    no row is written, or the order row is written and the loop runs;
    what the loop wrote before it stopped stays. *)
Lemma create_order_handler_spec (pg : Db.TextInput) (v : Variant)
    (now : Z) (b : OrderBody) (user : Jwt.Payload) (p : Pool)
    (lines : list CartLine) :
  truthy (products b) = true -> length_is_zero (products b) = false ->
  truthy (total b) = true ->
  iterate (products b) = Some lines ->
  let answer := fst (create_order_handler pg v now b user p) in
  let after := snd (create_order_handler pg v now b user p) in
  (answer = Ok order_failed /\ same_rows (tables p) (tables after)
   /\ log after = log p ++ [(Db.InsertOrder (Jwt.id user) (total b), false)])
  \/ (exists (o : Db.Order) (new : list Db.OrderItem)
             (entries : list (Db.Stmt * bool)),
        Db.users (tables after) = Db.users (tables p)
        /\ Db.products (tables after) = Db.products (tables p)
        /\ Db.orders (tables after) = Db.orders (tables p) ++ [o]
        /\ Db.order_buyer o = Jwt.id user
        /\ column_numeric pg (total b) = Some (Db.order_total o)
        /\ Db.order_items (tables after) = Db.order_items (tables p) ++ new
        /\ log after
           = log p ++ (Db.InsertOrder (Jwt.id user) (total b), true)
                      :: entries
        /\ Forall2 (stored_as pg v (Db.order_id o))
                   (firstn (length new) lines) new
        /\ ((answer = Ok (order_created (Db.order_id o))
             /\ length new = length lines /\ all_passed entries
             /\ ~ In VNull lines)
            \/ (answer = Ok order_failed
                /\ (length new < length lines)%nat
                /\ (~ all_passed entries \/ In VNull lines)))).
Proof.
  intros Hcart Hlen Htotal Hlines answer after. subst answer after.
  destruct (create_order_handler pg v now b user p)
    as [answer after] eqn:Hrun.
  cbn [fst snd].
  unfold create_order_handler, truthy_num in Hrun.
  rewrite Hcart, Hlen, Htotal, Hlines in Hrun.
  cbn [negb orb] in Hrun. unfold try_catch, bind in Hrun.
  destruct (Db.run pg now (Db.InsertOrder (Jwt.id user) (total b))
                   (tables p)) as [[rows |] t1] eqn:E.
  - right. rewrite (query_ok _ _ _ _ _ _ E) in Hrun.
    cbn [Db.run] in E. apply insert_order_inv in E.
    destruct E as (tot & Ht & _ & _ & -> & Hu & Hp & Ho & Hi & _).
    set (o := placed_order now (Jwt.id user) tot (tables p)) in *.
    cbn [first_row_id ret] in Hrun.
    change (Db.orders_seq (tables p) + 1) with (Db.order_id o) in Hrun.
    destruct (insert_items_spec pg v now (Db.order_id o) lines
                {| tables := t1;
                   log := log p ++ [(Db.InsertOrder (Jwt.id user) (total b),
                                     true)] |})
      as [new [entries Hloop]]. cbn zeta in Hloop.
    destruct Hloop as [Hu' [Hp' [Ho' [Hi' [Hl' [Hf' Hr']]]]]].
    destruct (insert_items pg v now (Db.order_id o) lines _)
      as [[[] |] p2] eqn:Eloop; cbn [fst snd tables log] in *;
      cbn [respond ret] in Hrun; injection Hrun as <- <-;
      exists o, new, entries;
      (split; [congruence |]); (split; [congruence |]);
      (split; [congruence |]); (split; [reflexivity |]);
      (split; [assumption |]); (split; [congruence |]);
      (split; [rewrite Hl', <- app_assoc; reflexivity |]);
      (split; [assumption |]).
    + left. destruct Hr' as [(_ & Hn & Hall & Hnull) | [Hr _]];
        [| discriminate]. now repeat split.
    + right. destruct Hr' as [[Hr _] | (_ & Hn & Hwhy)];
        [discriminate |]. now repeat split.
  - left. rewrite (query_rejected _ _ _ _ _ E) in Hrun.
    cbn [respond ret] in Hrun. injection Hrun as <- <-.
    apply run_rejected in E. destruct E as [E _].
    split; [reflexivity |]. split; [exact E | reflexivity].
Qed.

(** A cart that is neither an array nor a string: the order row is
    written when its INSERT passes, the loop throws at once. *)
Lemma create_order_handler_not_iterable (pg : Db.TextInput) (v : Variant)
    (now : Z) (b : OrderBody) (user : Jwt.Payload) (p : Pool) :
  truthy (products b) = true -> length_is_zero (products b) = false ->
  truthy (total b) = true ->
  iterate (products b) = None ->
  fst (create_order_handler pg v now b user p) = Ok order_failed
  /\ Db.order_items (tables (snd (create_order_handler pg v now b user p)))
     = Db.order_items (tables p).
Proof.
  intros Hcart Hlen Htotal Hlines.
  unfold create_order_handler, truthy_num.
  rewrite Hcart, Hlen, Htotal, Hlines.
  cbn [negb orb]. unfold try_catch, bind.
  destruct (Db.run pg now (Db.InsertOrder (Jwt.id user) (total b))
                   (tables p)) as [[rows |] t1] eqn:E.
  - rewrite (query_ok _ _ _ _ _ _ E).
    cbn [Db.run] in E. apply insert_order_inv in E.
    destruct E as (tot & _ & _ & _ & -> & _ & _ & _ & Hi & _).
    cbn [first_row_id ret throw respond fst snd tables]. now split.
  - rewrite (query_rejected _ _ _ _ _ E).
    apply run_rejected in E. destruct E as [(_ & _ & _ & Ei) _].
    cbn [respond ret fst snd tables]. now split.
Qed.

Lemma code_points_nonempty (s : string) :
  s <> EmptyString -> code_points s <> [].
Proof.
  destruct s as [| a rest]; [contradiction |]. intros _.
  cbn [code_points].
  destruct (code_points rest) as [| c cs]; [discriminate |].
  destruct rest as [| b0 rest']; [discriminate |].
  destruct (continuation b0); discriminate.
Qed.

Lemma iterate_nonempty (products : option Value) (lines : list CartLine) :
  truthy products = true -> length_is_zero products = false ->
  iterate products = Some lines -> lines <> [].
Proof.
  destruct products as [[| bb | q | n | s | l | f] |];
    cbn [iterate]; try discriminate.
  - intros Ht _ E. injection E as <-. cbn [truthy] in Ht.
    apply negb_true_iff in Ht. apply String.eqb_neq in Ht.
    apply code_points_nonempty in Ht.
    destruct (code_points s); [contradiction | discriminate].
  - intros _ Hl E. injection E as <-. cbn [length_is_zero] in Hl.
    destruct l; [discriminate Hl | discriminate].
Qed.

Lemma column_int_one (pg : Db.TextInput) :
  column_int pg (Some (VNum 1)) = Some 1.
Proof. reflexivity. Qed.

(** The quantity of a written row, from the quantity of its line. *)
Lemma stored_quantity (pg : Db.TextInput) (v : Variant) (o : Z)
    (line : CartLine) (it : Db.OrderItem) :
  stored_as pg v o line it ->
  (falsy (line_quantity line) -> Db.item_quantity it = 1)
  /\ (~ falsy (line_quantity line) ->
      column_int pg (line_quantity line) = Some (Db.item_quantity it)).
Proof.
  intros (_ & _ & Hq & _). unfold or_default in Hq. split.
  - intros H. apply truthy_false_iff in H. rewrite H in Hq.
    rewrite column_int_one in Hq. now injection Hq as <-.
  - intros H. destruct (truthy (line_quantity line)) eqn:E;
      [exact Hq |]. apply truthy_false_iff in E. contradiction.
Qed.

Section Orders.

Variable pg : Db.TextInput.
Variable SECRET_KEY : option string.

(** C4. For a caller whose token decodes: an absent or empty cart, or a
    falsy total, is answered 400 and nothing is sent to the store.  With
    a cart of N lines, none of them [null], and a truthy total, when
    every INSERT the request sent passed, exactly one order row was
    appended, with the caller as buyer and the submitted total as its
    NUMERIC(10,2) column holds it, exactly N item rows were appended, one
    per line and in cart order, each with the line's product and its
    quantity or 1 when the quantity is absent, and the answer is the 201
    carrying the id of the new order.  (A [null] among the lines makes
    the loop throw: the answer is then the 500.) *)
Theorem order_writes_one_header_and_every_line
    (v : Variant) (now : Z) (authorization : option AuthHeader)
    (b : OrderBody) (user : Jwt.Payload) (p : Pool) :
  decode SECRET_KEY now authorization = Some user ->
  let answer := fst (create_order pg SECRET_KEY v now authorization b p) in
  let after := snd (create_order pg SECRET_KEY v now authorization b p) in
  (products b = None \/ products b = Some (VArr [])
   \/ truthy_num (total b) = false ->
     answer = Ok incomplete_order /\ after = p)
  /\ (forall lines,
        products b = Some (VArr lines) -> lines <> [] ->
        ~ In VNull lines ->
        truthy_num (total b) = true ->
        all_passed (sent_by p after) ->
        exists (o : Db.Order) (items : list Db.OrderItem),
          Db.orders (tables after) = Db.orders (tables p) ++ [o]
          /\ Db.order_buyer o = Jwt.id user
          /\ column_numeric pg (total b) = Some (Db.order_total o)
          /\ Db.order_items (tables after)
             = Db.order_items (tables p) ++ items
          /\ length items = length lines
          /\ Forall2 (stored_as pg v (Db.order_id o)) lines items
          /\ Forall2 (fun line it => line_quantity line = None ->
                                     Db.item_quantity it = 1)
                     lines items
          /\ answer = Ok (order_created (Db.order_id o))
          /\ Db.users (tables after) = Db.users (tables p)
          /\ Db.products (tables after) = Db.products (tables p))
  /\ (forall lines,
        products b = Some (VArr lines) -> In VNull lines ->
        truthy_num (total b) = true ->
        answer = Ok order_failed).
Proof.
  intros Hauth answer after. subst answer after.
  unfold create_order. rewrite (verifyToken_passes _ _ _ _ _ _ Hauth).
  split; [| split].
  - intros H. rewrite create_order_handler_incomplete; [now split |].
    unfold truthy_num in H.
    destruct H as [H | [H | H]]; rewrite ?H; auto.
  - intros lines Hcart Hne Hnull Htotal Hall.
    assert (Hlen : length_is_zero (products b) = false).
    { rewrite Hcart. cbn [length_is_zero]. destruct lines;
        [contradiction | reflexivity]. }
    destruct (create_order_handler_spec pg v now b user p lines)
      as [[_ [_ Hlog]] | [o [new [entries H]]]];
      try assumption; try (rewrite Hcart; reflexivity).
    + exfalso. rewrite (sent_by_app _ _ _ Hlog) in Hall.
      exact (not_all_passed_cons_false _ _ Hall).
    + destruct H as [Hu [Hp [Ho [Hb [Ht [Hi [Hlog [Hf Hr]]]]]]]].
      rewrite (sent_by_app _ _ _ Hlog) in Hall.
      inversion Hall as [| e es _ Hrest]; subst.
      destruct Hr as [(Hans & Hn & _) | (_ & _ & [Hnot | Hin])];
        [| contradiction ..].
      rewrite Hn, firstn_all in Hf.
      exists o, new. repeat split; try assumption.
      eapply Forall2_impl; [| exact Hf].
      intros line it Hs Habsent. apply (stored_quantity _ _ _ _ _ Hs).
      left. exact Habsent.
  - intros lines Hcart Hin Htotal.
    assert (Hlen : length_is_zero (products b) = false).
    { rewrite Hcart. cbn [length_is_zero]. destruct lines;
        [destruct Hin | reflexivity]. }
    destruct (create_order_handler_spec pg v now b user p lines)
      as [[Hans _] | [o [new [entries H]]]];
      try assumption; try (rewrite Hcart; reflexivity).
    destruct H as (_ & _ & _ & _ & _ & _ & _ & _ & Hr).
    destruct Hr as [(_ & _ & _ & Hnull) | (Hans & _)];
      [contradiction | exact Hans].
Qed.

(** C9, as the code has it.  Whatever the request, the rows POST /orders
    adds to [order_items] answer, in order, to the first lines of the
    cart, and when the answer is the 201 there is one for each line, of
    which there is at least one.  A line whose quantity is falsy (absent,
    [null], [false], 0 or the empty string) is stored with quantity 1; a
    line with any other quantity is stored with that quantity as the
    INTEGER column reads it, be it negative, or 0 when it came as the
    string of a zero. *)
Theorem order_item_quantity_defaults_to_one
    (v : Variant) (now : Z) (authorization : option AuthHeader)
    (b : OrderBody) (p : Pool) :
  let answer := fst (create_order pg SECRET_KEY v now authorization b p) in
  let after := snd (create_order pg SECRET_KEY v now authorization b p) in
  exists items : list Db.OrderItem,
    Db.order_items (tables after) = Db.order_items (tables p) ++ items
    /\ Forall2
         (fun line it =>
            (falsy (line_quantity line) -> Db.item_quantity it = 1)
            /\ (~ falsy (line_quantity line) ->
                column_int pg (line_quantity line)
                = Some (Db.item_quantity it)))
         (firstn (length items) (cart b)) items
    /\ (forall r, answer = Ok r -> status r = 201 ->
                  length items = length (cart b)
                  /\ (0 < length items)%nat).
Proof.
  intros answer after. subst answer after.
  assert (Hnothing :
            forall (q : Pool) (r : Response),
              tables q = tables p -> status r <> 201 ->
              let run := (Ok r, q) in
              exists items : list Db.OrderItem,
                Db.order_items (tables (snd run))
                = Db.order_items (tables p) ++ items
                /\ Forall2
                     (fun line it =>
                        (falsy (line_quantity line) ->
                         Db.item_quantity it = 1)
                        /\ (~ falsy (line_quantity line) ->
                            column_int pg (line_quantity line)
                            = Some (Db.item_quantity it)))
                     (firstn (length items) (cart b)) items
                /\ (forall r', fst run = Ok r' -> status r' = 201 ->
                               length items = length (cart b)
                               /\ (0 < length items)%nat)).
  { intros q r Hq Hr run. exists []. cbn [snd fst run].
    rewrite Hq, app_nil_r.
    split; [reflexivity |]. split; [constructor |].
    intros r' E. injection E as <-. contradiction. }
  unfold create_order, verifyToken.
  destruct (negb (header_present authorization));
    [now apply Hnothing |].
  destruct (decode SECRET_KEY now authorization) as [user |];
    [| now apply Hnothing].
  destruct (truthy (products b)) eqn:Hcart;
    [| rewrite create_order_handler_incomplete by auto;
       now apply Hnothing].
  destruct (length_is_zero (products b)) eqn:Hlen;
    [rewrite create_order_handler_incomplete by auto;
     now apply Hnothing |].
  destruct (truthy (total b)) eqn:Htotal;
    [| rewrite create_order_handler_incomplete by auto;
       now apply Hnothing].
  destruct (iterate (products b)) as [lines |] eqn:Hlines.
  2:{ destruct (create_order_handler_not_iterable pg v now b user p
                  Hcart Hlen Htotal Hlines) as [Hans Hi].
      exists []. rewrite Hi, Hans, app_nil_r.
      split; [reflexivity |]. split; [constructor |].
      intros r' E. injection E as <-. discriminate. }
  assert (Hc : cart b = lines) by (unfold cart; now rewrite Hlines).
  rewrite Hc.
  destruct (create_order_handler_spec pg v now b user p lines
              Hcart Hlen Htotal Hlines)
    as [(Hans & (_ & _ & _ & Hi) & _) | [o [new [entries H]]]].
  { exists []. rewrite Hi, Hans, app_nil_r.
    split; [reflexivity |]. split; [constructor |].
    intros r' E. injection E as <-. discriminate. }
  destruct H as (_ & _ & _ & _ & _ & Hi & _ & Hf & Hr).
  exists new. split; [exact Hi |]. split.
  - eapply Forall2_impl; [| exact Hf].
    intros x it Hs. exact (stored_quantity _ _ _ _ _ Hs).
  - intros r' Hans' Hs'.
    destruct Hr as [(_ & Hn & _) | (Hans & _)].
    + split; [exact Hn |]. rewrite Hn.
      pose proof (iterate_nonempty _ _ Hcart Hlen Hlines) as Hne.
      destruct lines; [contradiction | simpl; lia].
    + rewrite Hans in Hans'. injection Hans' as <-. discriminate.
Qed.

(** C1. POST /orders is not atomic.  Whenever the order row went in and
    one INSERT of the loop was rejected, the answer is the 500 while the
    order row and the item rows written before the rejection are still
    in the tables, fewer of them than the cart has lines.  And this does
    happen: in the shop, a cart of two lines whose second line names a
    product that does not exist leaves one order with one item row. *)
Theorem partial_order_is_reachable (v : Variant) :
  (forall (now : Z) (authorization : option AuthHeader) (b : OrderBody)
          (user : Jwt.Payload) (p : Pool) (lines : list CartLine)
          (entries : list (Db.Stmt * bool)),
      let answer :=
        fst (create_order pg SECRET_KEY v now authorization b p) in
      let after :=
        snd (create_order pg SECRET_KEY v now authorization b p) in
      decode SECRET_KEY now authorization = Some user ->
      products b = Some (VArr lines) -> lines <> [] ->
      truthy_num (total b) = true ->
      sent_by p after
      = (Db.InsertOrder (Jwt.id user) (total b), true) :: entries ->
      ~ all_passed entries ->
      answer = Ok order_failed
      /\ exists (o : Db.Order) (items : list Db.OrderItem),
           Db.orders (tables after) = Db.orders (tables p) ++ [o]
           /\ Db.order_items (tables after)
              = Db.order_items (tables p) ++ items
           /\ Forall2 (stored_as pg v (Db.order_id o))
                      (firstn (length items) lines) items
           /\ (length items < length lines)%nat)
  /\ (exists (history : list (Z * Request)) (now : Z)
             (authorization : option AuthHeader) (b : OrderBody)
             (lines : list CartLine) (o : Db.Order),
        let p := serve_all pg SECRET_KEY v history fresh_pool in
        let answer :=
          fst (create_order pg SECRET_KEY v now authorization b p) in
        let after :=
          snd (create_order pg SECRET_KEY v now authorization b p) in
        products b = Some (VArr lines)
        /\ answer = Ok order_failed
        /\ status order_failed = 500
        /\ Db.orders (tables p) = []
        /\ Db.orders (tables after) = [o]
        /\ length (items_of (Db.order_id o) (tables after)) = 1%nat
        /\ length lines = 2%nat).
Proof.
  split.
  - intros now authorization b user p lines entries answer after
      Hauth Hcart Hne Htotal Hsent Hnot.
    subst answer after. revert Hsent. unfold create_order.
    rewrite (verifyToken_passes _ _ _ _ _ _ Hauth). intros Hsent.
    assert (Hlen : length_is_zero (products b) = false).
    { rewrite Hcart. cbn [length_is_zero]. destruct lines;
        [contradiction | reflexivity]. }
    destruct (create_order_handler_spec pg v now b user p lines)
      as [[_ [_ Hlog]] | [o [new [entries' H]]]];
      try assumption; try (rewrite Hcart; reflexivity).
    + rewrite (sent_by_app _ _ _ Hlog) in Hsent. discriminate.
    + destruct H as [_ [_ [Ho [_ [_ [Hi [Hlog [Hf Hr]]]]]]]].
      rewrite (sent_by_app _ _ _ Hlog) in Hsent.
      injection Hsent as <-.
      destruct Hr as [(_ & _ & Hall & _) | (Hans & Hn & _)];
        [contradiction |].
      split; [exact Hans |]. now exists o, new.
  - exists (shop_history SECRET_KEY), 15,
      (Some (Signed (buyer_token SECRET_KEY))),
      cart_with_unknown_product.
    assert (Hseller :
              decode SECRET_KEY 13
                     (Some (Signed (seller_token SECRET_KEY)))
              = Some (issued_payload
                        {| Db.user_id := 2; Db.user_email := "s@x.com";
                           Db.user_password := "pw";
                           Db.user_role := "seller";
                           Db.user_created_at := 11 |} 12)).
    { apply verify_sign. unfold Jwt.one_hour. lia. }
    assert (Hbuyer :
              decode SECRET_KEY 15
                     (Some (Signed (buyer_token SECRET_KEY)))
              = Some (issued_payload
                        {| Db.user_id := 1; Db.user_email := "b@x.com";
                           Db.user_password := "pw";
                           Db.user_role := "buyer";
                           Db.user_created_at := 10 |} 12)).
    { apply verify_sign. unfold Jwt.one_hour. lia. }
    unfold shop_history, create_order.
    cbn [serve_all serve].
    rewrite (verifyToken_passes _ _ _ _ _ _ Hbuyer).
    rewrite (verifyToken_passes _ _ _ _ _ _ Hseller).
    destruct v; eexists _, _; vm_compute; repeat split; reflexivity.
Qed.

End Orders.

(** C9 as written fails: a line asking for a quantity of -2 is stored
    with quantity -2, and a line whose quantity is the string of a zero
    is stored with quantity 0; both are below 1. *)
Lemma quantities_below_one_are_stored :
  let negative :=
    create_order Db.decimal None IndexJs 15
      (Some (Signed (buyer_token None)))
      (cart_with_quantity (VNum (-2))) (shop Db.decimal None IndexJs) in
  let zero :=
    create_order Db.decimal None IndexJs 15
      (Some (Signed (buyer_token None)))
      (cart_with_quantity (VStr "0")) (shop Db.decimal None IndexJs) in
  fst negative = Ok (order_created 1)
  /\ map Db.item_quantity (Db.order_items (tables (snd negative))) = [-2]
  /\ ~ Forall (fun it => 1 <= Db.item_quantity it)
             (Db.order_items (tables (snd negative)))
  /\ truthy (line_quantity (line (VNum 1) (VStr "0") (VNum 1))) = true
  /\ fst zero = Ok (order_created 1)
  /\ map Db.item_quantity (Db.order_items (tables (snd zero))) = [0]
  /\ ~ Forall (fun it => 1 <= Db.item_quantity it)
             (Db.order_items (tables (snd zero))).
Proof.
  vm_compute. repeat split;
    intros H; inversion H as [| it its Hle _]; subst; apply Hle;
    reflexivity.
Qed.

(** ** The statements above, run in the shop *)

Lemma seller_token_decodes :
  decode None 14 (Some (Signed (seller_token None)))
  = Some (Jwt.payload (seller_token None)).
Proof. reflexivity. Qed.

Lemma buyer_token_decodes :
  decode None 15 (Some (Signed (buyer_token None)))
  = Some (Jwt.payload (buyer_token None)).
Proof. reflexivity. Qed.



(** What the shop lists: the widget, with its price as a string and the
    time of its upload. *)
Lemma get_products_lists_exactly_in_stock_in_shop :
  exists shown : Json,
    fst (get_products Db.decimal 14 (shop Db.decimal None Part000))
    = Ok {| status := 200; body := JArr [shown] |}
    /\ get "id" shown = Some (JNum 1)
    /\ get "name" shown = Some (JStr "Widget")
    /\ get "price" shown = Some (JStr "9.99")
    /\ get "stock" shown = Some (JNum 5)
    /\ get "seller_id" shown = Some (JNum 2)
    /\ get "created_at" shown = Some (JDate 13).
Proof.
  destruct (get_products_lists_exactly_in_stock Db.decimal 14
              (shop Db.decimal None Part000))
    as (rows & items & Hans & Hf & Hrows & _).
  assert (Hl : rows
               = [{| Db.product_id := 1; Db.product_name := "Widget";
                     Db.product_price := Db.Cents 999;
                     Db.product_stock := 5;
                     Db.product_seller := Db.SellerId 2;
                     Db.product_created_at := 13 |}])
    by (rewrite Hrows; vm_compute; reflexivity).
  rewrite Hl in Hf.
  inversion Hf as [| row shown rest rest' Hs Hrest]; subst.
  inversion Hrest; subst.
  exists shown. split; [exact Hans |]. exact Hs.
Defined.

(** The seller asks for product 7, which the shop does not have. *)
Lemma delete_only_own_products_in_shop :
  fst (delete_product Db.decimal None Part000 14
         (Some (Signed (seller_token None))) "7"
         (shop Db.decimal None Part000))
  = Ok product_not_found.
Proof.
  pose proof (delete_only_own_products Db.decimal None Part000 14
                (Some (Signed (seller_token None))) "7"
                (Jwt.payload (seller_token None))
                (shop Db.decimal None Part000)
                seller_token_decodes) as H.
  cbv zeta in H. destruct H as [_ H].
  destruct (H eq_refl) as [_ [_ [H404 _]]].
  apply (H404 7); reflexivity.
Defined.

(** C5 as written fails: the seller of the shop asks for an id that no
    product has; for an id beyond 32 bits, or one that is no number, the
    answer is the 500, not the 404. *)
Lemma delete_of_an_id_that_is_no_integer :
  let beyond :=
    delete_product Db.decimal None Part000 14
      (Some (Signed (seller_token None))) "2147483648"
      (shop Db.decimal None Part000) in
  let word :=
    delete_product Db.decimal None Part000 14
      (Some (Signed (seller_token None))) "abc"
      (shop Db.decimal None Part000) in
  Db.has_product_id 2147483648 (tables (shop Db.decimal None Part000))
  = false
  /\ fst beyond = Ok delete_failed
  /\ fst word = Ok delete_failed
  /\ status delete_failed = 500
  /\ fst beyond <> Ok product_not_found.
Proof.
  vm_compute. repeat split. discriminate.
Qed.

(** The seller logs in at 12 and presents the token at 14. *)
Lemma login_token_round_trip_in_shop :
  exists (u : Db.User) (t : Jwt.Token),
    In u (Db.users (tables (shop Db.decimal None IndexJs)))
    /\ Db.user_role u = "seller"
    /\ t = seller_token None
    /\ Jwt.verify t (secret None) 14 = Some (issued_payload u 12).
Proof.
  destruct (login_token_round_trip Db.decimal None 12
              {| login_email := Some "s@x.com";
                 login_password := Some "pw" |}
              (shop Db.decimal None IndexJs) _ _ eq_refl eq_refl)
    as [u [t [Hin [He [_ [_ [_ [Ht [_ [Hv _]]]]]]]]]].
  exists u, t. split; [exact Hin |].
  assert (Hu : u = {| Db.user_id := 2; Db.user_email := "s@x.com";
                      Db.user_password := "pw"; Db.user_role := "seller";
                      Db.user_created_at := 11 |}).
  { destruct Hin as [<- | [<- | []]]; [discriminate | reflexivity]. }
  split; [now rewrite Hu |]. split; [now rewrite Ht, Hu |].
  apply Hv. lia.
Defined.

(** The buyer's e-mail with a wrong password, and an e-mail nobody has. *)
Lemma login_failures_are_indistinguishable_in_shop :
  fst (login Db.decimal None 20
             {| login_email := Some "b@x.com";
                login_password := Some "guess" |}
             (shop Db.decimal None IndexJs))
  = fst (login Db.decimal None 21
               {| login_email := Some "nobody@x.com";
                  login_password := Some "pw" |}
               (shop Db.decimal None IndexJs)).
Proof.
  apply (login_failures_are_indistinguishable Db.decimal None 20 21
           (shop Db.decimal None IndexJs) (shop Db.decimal None IndexJs)
           {| login_email := Some "b@x.com";
              login_password := Some "guess" |}
           {| login_email := Some "nobody@x.com";
              login_password := Some "pw" |}).
  - eexists. split; [left; reflexivity | reflexivity].
  - intros u [<- | [<- | []]] H; [reflexivity | discriminate H].
  - intros u [<- | [<- | []]]; reflexivity.
Defined.

(** A login that sends a password and no e-mail. *)
Lemma login_without_field_in_shop :
  login Db.decimal None 20
        {| login_email := None; login_password := Some "pw" |}
        (shop Db.decimal None IndexJs)
  = (Ok bad_credentials,
     looked_up {| login_email := None; login_password := Some "pw" |}
               (shop Db.decimal None IndexJs)).
Proof.
  apply (login_without_field_is_refused_not_rejected Db.decimal None 20
           {| login_email := None; login_password := Some "pw" |}
           (shop Db.decimal None IndexJs)).
  left. reflexivity.
Defined.

(** The buyer orders the one product of the shop twice over, the second
    line without a quantity. *)
Lemma order_writes_one_header_and_every_line_in_shop :
  let b := {| products :=
                Some (VArr [ line (VNum 1) (VNum 2) (VNum (999 # 100)%Q);
                             VObj [("id", VNum 1);
                                   ("price", VNum (999 # 100)%Q)] ]);
              total := Some (VNum (2997 # 100)%Q) |} in
  let after :=
    snd (create_order Db.decimal None Part000 15
           (Some (Signed (buyer_token None))) b
           (shop Db.decimal None Part000)) in
  exists (o : Db.Order) (items : list Db.OrderItem),
    Db.orders (tables after) = [o]
    /\ Db.order_total o = Db.Cents 2997
    /\ Db.order_items (tables after) = items
    /\ length items = 2%nat
    /\ map Db.item_quantity items = [2; 1].
Proof.
  intros b after.
  pose proof (order_writes_one_header_and_every_line Db.decimal None
                Part000 15 (Some (Signed (buyer_token None))) b
                (Jwt.payload (buyer_token None))
                (shop Db.decimal None Part000)
                buyer_token_decodes) as H.
  cbv zeta in H. destruct H as [_ [H _]].
  destruct (H _ eq_refl ltac:(discriminate)) as [o [items Ho]].
  { intros [H0 | [H0 | []]]; discriminate H0. }
  { reflexivity. }
  { vm_compute. repeat constructor. }
  destruct Ho as [Horders [_ [Htotal [Hitems [Hlen _]]]]].
  exists o, items. split; [exact Horders |].
  split; [now injection Htotal as <- |].
  split; [exact Hitems |]. split; [exact Hlen |].
  vm_compute in Hitems. rewrite <- Hitems. reflexivity.
Defined.

(** The buyer's cart with an unknown product: the general half of the
    statement, applied. *)
Lemma partial_order_in_shop :
  fst (create_order Db.decimal None Part000 15
         (Some (Signed (buyer_token None)))
         cart_with_unknown_product (shop Db.decimal None Part000))
  = Ok order_failed.
Proof.
  destruct (partial_order_is_reachable Db.decimal None Part000) as [H _].
  refine (proj1 (H 15 (Some (Signed (buyer_token None)))
                   cart_with_unknown_product
                   (Jwt.payload (buyer_token None))
                   (shop Db.decimal None Part000)
                   _ _ buyer_token_decodes eq_refl _ eq_refl eq_refl _)).
  - discriminate.
  - vm_compute. intros Hall. inversion Hall as [| e es _ Hrest]; subst.
    inversion Hrest as [| e' es' Hfalse _]; subst. discriminate Hfalse.
Defined.

(** The buyer orders the widget with a quantity of 0: one row is
    written, with quantity 1. *)
Lemma order_item_quantity_defaults_to_one_in_shop :
  exists it : Db.OrderItem,
    Db.order_items
      (tables (snd (create_order Db.decimal None IndexJs 15
                      (Some (Signed (buyer_token None)))
                      (cart_with_quantity (VNum 0))
                      (shop Db.decimal None IndexJs))))
    = [it]
    /\ Db.item_quantity it = 1.
Proof.
  destruct (order_item_quantity_defaults_to_one Db.decimal None IndexJs 15
              (Some (Signed (buyer_token None)))
              (cart_with_quantity (VNum 0))
              (shop Db.decimal None IndexJs))
    as (items & Hitems & Hf & Hall).
  destruct (Hall _ eq_refl eq_refl) as [Hlen _].
  destruct items as [| it [| it' rest]]; try discriminate Hlen.
  exists it. split; [exact Hitems |].
  inversion Hf as [| l0 i0 ls0 is0 [Hq _] _]; subst.
  apply Hq. right; right; right; left. exists 0%Q. split; reflexivity.
Defined.


(** * Further properties of the routes *)

(** ** The gate in front of the three protected routes *)

Ltac open_gate Hgate :=
  match type of Hgate with
  | gate ?r = _ =>
      destruct r; cbn [gate] in Hgate; try discriminate Hgate;
      injection Hgate as Hgate; subst;
      cbn [serve];
      unfold upload_product, delete_product, create_order, verifyToken
  end.

(** X1. A request to /upload-product, DELETE /products/:id or /orders that
    carries no [authorization] header, or an empty one, is answered 403
    "No se proporcionó un token"; the handler behind the gate does not run:
    no statement is sent and the pool is as before. *)
Theorem protected_routes_need_a_token
    (pg : Db.TextInput) (k : option string) (v : Variant) (now : Z)
    (r : Request) (authorization : option AuthHeader) (p : Pool) :
  gate r = Some authorization ->
  authorization = None \/ authorization = Some (Raw EmptyString) ->
  serve pg k v now r p = (Ok missing_token, p).
Proof.
  intros Hgate Habsent.
  open_gate Hgate; destruct Habsent as [-> | ->]; reflexivity.
Qed.

Lemma protected_routes_need_a_token_for_upload :
  serve Db.decimal None Part000 14
        (PostUploadProduct None (Some widget))
        (shop Db.decimal None Part000)
  = (Ok missing_token, shop Db.decimal None Part000).
Proof.
  apply (protected_routes_need_a_token Db.decimal None Part000 14
           (PostUploadProduct None (Some widget)) None
           (shop Db.decimal None Part000)).
  - reflexivity.
  - left. reflexivity.
Defined.

(** X2. A header that is present but does not verify is answered 401
    "Token no válido" by each of the three protected routes, and again
    nothing is sent to the store: this is so for text that is no token,
    for a token signed under another key than the server's, and for a
    token presented at or after its [exp]. *)
Theorem protected_routes_turn_bad_tokens_away
    (pg : Db.TextInput) (k : option string) (v : Variant) (now : Z)
    (r : Request) (h : AuthHeader) (p : Pool) :
  gate r = Some (Some h) ->
  match h with
  | Raw s => s <> EmptyString
  | Signed t =>
      Jwt.signed_with t <> secret k \/ Jwt.exp (Jwt.payload t) <= now
  end ->
  serve pg k v now r p = (Ok invalid_token, p).
Proof.
  intros Hgate Hbad.
  assert (Hpresent : header_present (Some h) = true).
  { destruct h as [s | t]; [| reflexivity]. simpl.
    destruct (String.eqb_spec s EmptyString); [contradiction | reflexivity]. }
  assert (Hdecode : decode k now (Some h) = None).
  { destruct h as [s | t]; [reflexivity |]. simpl. unfold Jwt.verify.
    destruct (String.eqb_spec (Jwt.signed_with t) (secret k)) as [E | _];
      [| reflexivity].
    destruct Hbad as [Hkey | Hexp]; [contradiction |]. cbn [negb].
    destruct (Z.leb_spec (Jwt.exp (Jwt.payload t)) now);
      [reflexivity | lia]. }
  open_gate Hgate; rewrite Hpresent, Hdecode; reflexivity.
Qed.

(** The seller's token, one hour after it was signed. *)
Lemma protected_routes_turn_expired_token_away :
  serve Db.decimal None Part000 3612
        (DeleteProducts (Some (Signed (seller_token None))) "1")
        (shop Db.decimal None Part000)
  = (Ok invalid_token, shop Db.decimal None Part000).
Proof.
  apply (protected_routes_turn_bad_tokens_away Db.decimal None Part000 3612
           (DeleteProducts (Some (Signed (seller_token None))) "1")
           (Signed (seller_token None)) (shop Db.decimal None Part000)).
  - reflexivity.
  - right. simpl. unfold Jwt.one_hour. lia.
Defined.

(** ** Uploading, for callers who are not sellers *)

(** X3. POST /upload-product checks the body before the role: a caller
    whose token decodes to a role other than seller is answered 400 when
    the name, the price or the stock is falsy and 403 "Solo los vendedores
    pueden subir productos" otherwise, and in neither case is anything
    sent to the store. *)
Theorem upload_is_for_sellers_only
    (pg : Db.TextInput) (k : option string) (v : Variant) (now : Z)
    (authorization : option AuthHeader) (b : UploadBody)
    (user : Jwt.Payload) (p : Pool) :
  decode k now authorization = Some user ->
  Jwt.role user <> "seller" ->
  upload_product pg k v now authorization b p
  = (Ok (if truthy_str (name b) && truthy_num (price b)
            && truthy_int (stock b)
         then sellers_only_upload else fields_required),
     p).
Proof.
  intros Hauth Hrole. unfold upload_product.
  rewrite (verifyToken_passes _ _ _ _ _ _ Hauth).
  unfold upload_product_handler.
  destruct (truthy_str (name b)), (truthy_num (price b)),
    (truthy_int (stock b)); cbn [negb orb andb]; try reflexivity.
  destruct (String.eqb_spec (Jwt.role user) "seller");
    [contradiction | reflexivity].
Qed.

(** The buyer tries to upload the widget. *)
Lemma upload_is_for_sellers_only_in_shop :
  upload_product Db.decimal None IndexJs 14
                 (Some (Signed (buyer_token None))) widget
                 (shop Db.decimal None IndexJs)
  = (Ok sellers_only_upload, shop Db.decimal None IndexJs).
Proof.
  apply (upload_is_for_sellers_only Db.decimal None IndexJs 14
           (Some (Signed (buyer_token None))) widget
           (Jwt.payload (buyer_token None))
           (shop Db.decimal None IndexJs)).
  - reflexivity.
  - discriminate.
Defined.

(** ** Login reads, and decides on an exact match *)

Lemma credential_matches_complete (b : Credentials) (t : Db.Store) :
  credentials_on_file b t -> credential_matches b t <> [].
Proof.
  intros [u [Hin [He Hp]]] Hnone.
  assert (Hf : In u (credential_matches b t)).
  { apply filter_In. split; [assumption |].
    rewrite He, Hp. simpl. now rewrite !String.eqb_refl. }
  rewrite Hnone in Hf. exact Hf.
Qed.

(** X4. POST /login never writes: the tables after it are the tables
    before it, and the one statement it sends is the lookup.  It answers
    200 exactly when some stored user has the submitted e-mail and the
    submitted password, both compared as they are; in every other case it
    answers the 401 of a refused login. *)
Theorem login_reads_and_matches_exactly
    (pg : Db.TextInput) (k : option string) (now : Z) (b : Credentials)
    (p : Pool) :
  snd (login pg k now b p) = looked_up b p
  /\ tables (snd (login pg k now b p)) = tables p
  /\ ((exists r, fst (login pg k now b p) = Ok r /\ status r = 200)
      <-> credentials_on_file b (tables p))
  /\ (~ credentials_on_file b (tables p) ->
      fst (login pg k now b p) = Ok bad_credentials).
Proof.
  destruct (credential_matches b (tables p)) as [| u rest] eqn:E.
  - rewrite (login_no_match pg k now b p E).
    assert (Hnot : ~ credentials_on_file b (tables p)).
    { intros H. now apply credential_matches_complete in H. }
    repeat split; try reflexivity.
    + intros [r [Hr Hs]]. injection Hr as <-. discriminate Hs.
    + intros H. contradiction.
  - rewrite (login_match pg k now b p u rest E).
    destruct (credential_matches_sound b (tables p) u rest E)
      as [Hin [He Hp]].
    assert (Hon : credentials_on_file b (tables p)) by now exists u.
    repeat split; try reflexivity.
    + intros _. exact Hon.
    + intros _. now eexists.
    + intros H. contradiction.
Qed.

(** ** The status codes of each route *)

Section StatusCodes.

Variable pg : Db.TextInput.
Variable codes : list Z.






End StatusCodes.


(** ** What each statement keeps *)

Lemma not_in_map_of_existsb {A} (key : A -> Z) (i : Z) (l : list A) :
  existsb (fun x => key x =? i) l = false -> ~ In i (map key l).
Proof.
  intros H Hin. apply in_map_iff in Hin. destruct Hin as [x [Hx Hl]].
  assert (Ht : existsb (fun x => key x =? i) l = true).
  { apply existsb_exists. exists x. split; [assumption |].
    now apply Z.eqb_eq. }
  congruence.
Qed.

Lemma NoDup_map_snoc {A B} (f : A -> B) (l : list A) (x : A) :
  NoDup (map f l) -> ~ In (f x) (map f l) -> NoDup (map f (l ++ [x])).
Proof.
  intros Hl Hx. rewrite map_app. apply NoDup_app.
  - exact Hl.
  - simpl. constructor; [intros [] | constructor].
  - intros a Ha [<- | []]. contradiction.
Qed.

Lemma NoDup_map_filter {A B} (f : A -> B) (g : A -> bool) (l : list A) :
  NoDup (map f l) -> NoDup (map f (filter g l)).
Proof.
  induction l as [| a l IH]; simpl; intros H; [constructor |].
  inversion H as [| ? ? Hnot Hrest]; subst.
  destruct (g a); [| now apply IH].
  simpl. constructor; [| now apply IH].
  intros Hin. apply Hnot. apply in_map_iff in Hin.
  destruct Hin as [x [Hx Hf]]. apply filter_In in Hf.
  apply in_map_iff. exists x. now split.
Qed.

Lemma run_keeps_keys_unique (pg : Db.TextInput) (now : Z) (q : Db.Stmt)
    (t t' : Db.Store) (res : option (list Db.Row)) :
  keys_unique t -> Db.run pg now q t = (res, t') -> keys_unique t'.
Proof.
  intros (Hu & Hp & Ho & Hi) Hrun. unfold keys_unique.
  destruct res as [rows |].
  2:{ apply run_rejected in Hrun. destruct Hrun as [(Eu & Ep & Eo & Ei) _].
      rewrite Eu, Ep, Eo, Ei. now repeat split. }
  run_cases Hrun;
    repeat match goal with
           | E : Db.users t' = _ |- _ => rewrite E; clear E
           | E : Db.products t' = _ |- _ => rewrite E; clear E
           | E : Db.orders t' = _ |- _ => rewrite E; clear E
           | E : Db.order_items t' = _ |- _ => rewrite E; clear E
           end;
    repeat split; try assumption;
    try (apply NoDup_map_filter; assumption);
    apply NoDup_map_snoc; try assumption;
    apply not_in_map_of_existsb; assumption.
Qed.

Lemma run_keeps_emails_unique (pg : Db.TextInput) (now : Z) (q : Db.Stmt)
    (t t' : Db.Store) (res : option (list Db.Row)) :
  emails_unique t -> Db.run pg now q t = (res, t') -> emails_unique t'.
Proof.
  intros Hu Hrun. unfold emails_unique in *.
  destruct res as [rows |].
  2:{ apply run_rejected in Hrun. destruct Hrun as [(Eu & _) _].
      now rewrite Eu. }
  run_cases Hrun;
    repeat match goal with
           | E : Db.users t' = _ |- _ => rewrite E; clear E
           end; try assumption.
  apply NoDup_map_snoc; [assumption |]. simpl.
  intros Hin. apply in_map_iff in Hin. destruct Hin as [u [Hue Hin]].
  apply has_user_email_In in Hin. rewrite Hue in Hin. congruence.
Qed.

Lemma existsb_incl {A} (f : A -> bool) (l l' : list A) :
  incl l l' -> existsb f l = true -> existsb f l' = true.
Proof.
  intros Hincl H. apply existsb_exists in H. destruct H as [x [Hx Hf]].
  apply existsb_exists. exists x. split; [now apply Hincl | assumption].
Qed.

Lemma seller_known_incl (r : Db.SellerRef) (t t' : Db.Store) :
  incl (Db.users t) (Db.users t') ->
  Db.seller_known r t = true -> Db.seller_known r t' = true.
Proof. destruct r; apply existsb_incl. Qed.

(** A product that survives a DELETE is still there for the order items
    that survive it: the cascade took the items of the deleted rows. *)
Lemma surviving_item_has_product (i : Z) (seller : Db.SellerRef)
    (products : list Db.Product) (pid : Z) :
  existsb (fun pr => Db.product_id pr =? pid) products = true ->
  existsb (fun pr => Db.product_id pr =? pid)
          (filter (Db.delete_matches i seller) products) = false ->
  existsb (fun pr => Db.product_id pr =? pid)
          (filter (fun pr => negb (Db.delete_matches i seller pr))
                  products) = true.
Proof.
  intros Hin Hgone. apply existsb_exists in Hin.
  destruct Hin as [pr [Hpr Hid]]. apply existsb_exists. exists pr.
  split; [| assumption]. apply filter_In. split; [assumption |].
  destruct (Db.delete_matches i seller pr) eqn:E; [| reflexivity].
  exfalso.
  assert (Ht : existsb (fun pr => Db.product_id pr =? pid)
                       (filter (Db.delete_matches i seller) products)
               = true).
  { apply existsb_exists. exists pr. split; [| assumption].
    apply filter_In. now split. }
  congruence.
Qed.

Lemma seller_known_same (r : Db.SellerRef) (t t' : Db.Store) :
  Db.users t' = Db.users t -> Db.seller_known r t' = Db.seller_known r t.
Proof.
  intros E. destruct r;
    unfold Db.seller_known, Db.has_user_email, Db.has_user_id;
    now rewrite E.
Qed.

Lemma same_rows_references (t t' : Db.Store) :
  references_hold t -> same_rows t t' -> references_hold t'.
Proof.
  intros (Hp & Ho & Hi) (Eu & Ep & Eo & Ei).
  unfold references_hold. rewrite Ep, Eo, Ei. repeat split.
  - eapply Forall_impl; [| exact Hp].
    intros pr H. now rewrite (seller_known_same _ t t' Eu).
  - eapply Forall_impl; [| exact Ho].
    intros o H. unfold Db.has_user_id in *. now rewrite Eu.
  - eapply Forall_impl; [| exact Hi].
    intros it [H1 H2]. unfold Db.has_order_id, Db.has_product_id in *.
    now rewrite Eo, Ep.
Qed.

Lemma run_keeps_references (pg : Db.TextInput) (now : Z) (q : Db.Stmt)
    (t t' : Db.Store) (res : option (list Db.Row)) :
  references_hold t -> Db.run pg now q t = (res, t') ->
  references_hold t'.
Proof.
  intros Href Hrun. destruct res as [rows |].
  2:{ apply run_rejected in Hrun. destruct Hrun as [Hsame _].
      now apply (same_rows_references t). }
  destruct Href as (Hp & Ho & Hi).
  rewrite Forall_forall in Hp, Ho, Hi.
  unfold references_hold. rewrite !Forall_forall.
  run_cases Hrun;
    assert (Gu : incl (Db.users t) (Db.users t'))
      by (rewrite Eu; auto using incl_refl, incl_appl);
    assert (Go : incl (Db.orders t) (Db.orders t'))
      by (rewrite Eo; auto using incl_refl, incl_appl);
    rewrite Ep, Eo, Ei.
  3:{ (* DELETE FROM products: the cascade *)
      repeat split.
      - intros pr Hin. apply filter_In in Hin.
        apply (seller_known_incl _ t); [assumption | now apply Hp].
      - intros o Hin. apply (existsb_incl _ _ _ Gu). now apply Ho.
      - apply filter_In in H. destruct H as [Hin _].
        apply (existsb_incl _ _ _ Go). now apply Hi.
      - apply filter_In in H. destruct H as [Hin Hkept].
        unfold Db.has_product_id. rewrite Ep.
        apply surviving_item_has_product; [now apply Hi |].
        now apply negb_true_iff in Hkept. }
  all: assert (Gp : incl (Db.products t) (Db.products t'))
         by (rewrite Ep; auto using incl_refl, incl_appl).
  all: repeat split;
    [ intros pr Hin; apply (seller_known_incl _ t); [assumption |];
      try (apply in_app_or in Hin; destruct Hin as [Hin | [<- | []]];
           [| assumption]);
      now apply Hp
    | intros o Hin; apply (existsb_incl _ _ _ Gu);
      try (apply in_app_or in Hin; destruct Hin as [Hin | [<- | []]];
           [| assumption]);
      now apply Ho
    | apply (existsb_incl _ _ _ Go);
      try (apply in_app_or in H; destruct H as [H | [<- | []]];
           [| assumption]);
      now apply Hi
    | apply (existsb_incl _ _ _ Gp);
      try (apply in_app_or in H; destruct H as [H | [<- | []]];
           [| assumption]);
      now apply Hi ].
Qed.

(** ** Invariants of the store, over any sequence of requests *)

Lemma keeps_query_when (pg : Db.TextInput) (P : Db.Store -> Prop)
    (now : Z) (q : Db.Stmt) :
  (forall t t' res, P t -> Db.run pg now q t = (res, t') -> P t') ->
  keeps P (query pg now q).
Proof.
  intros Hq p H. unfold query.
  destruct (Db.run pg now q (tables p)) as [[rows |] t'] eqn:E; simpl;
    now apply (Hq (tables p) t' _ H E).
Qed.

Lemma keeps_insert_items_when (pg : Db.TextInput) (P : Db.Store -> Prop)
    (v : Variant) (now o : Z) (lines : list CartLine) :
  (forall line t t' res,
      P t -> Db.run pg now (item_stmt v o line) t = (res, t') -> P t') ->
  keeps P (insert_items pg v now o lines).
Proof.
  intros Hq. induction lines as [| line rest IH]; cbn [insert_items].
  - apply keeps_ret.
  - apply keeps_bind; [| intros _; exact IH].
    destruct (insert_item_cases pg v now o line) as [[_ ->] | [_ ->]];
      [apply keeps_throw |].
    apply keeps_query_when. apply Hq.
Qed.

(** X7. PRIMARY KEY and UNIQUE hold through every request: if the ids of
    each table and the e-mails of the users are pairwise distinct, they
    still are after any sequence of requests; in particular they are in
    every pool the server reaches from the empty store. *)
Theorem requests_keep_keys_and_emails_unique
    (pg : Db.TextInput) (k : option string) (v : Variant)
    (rs : list (Z * Request)) (p : Pool) :
  keys_unique (tables p) /\ emails_unique (tables p) ->
  keys_unique (tables (serve_all pg k v rs p))
  /\ emails_unique (tables (serve_all pg k v rs p)).
Proof.
  apply (keeps_serve_all pg (fun t => keys_unique t /\ emails_unique t)).
  intros now q t t' res [Hk He] Hrun. split.
  - exact (run_keeps_keys_unique pg now q t t' res Hk Hrun).
  - exact (run_keeps_emails_unique pg now q t t' res He Hrun).
Qed.

Lemma requests_keep_keys_and_emails_unique_in_shop :
  keys_unique (tables (shop Db.decimal None Part000))
  /\ emails_unique (tables (shop Db.decimal None Part000)).
Proof.
  apply (requests_keep_keys_and_emails_unique Db.decimal None Part000
           (shop_history None) fresh_pool).
  split; [repeat split |]; constructor.
Defined.

(** X8. The REFERENCES of the DDL hold through every request: if every
    product's seller and every order's buyer is a user, and every order
    item's order and product exist, this is still so after any sequence
    of requests, DELETE /products/:id included: the items of a deleted
    product go with it. *)
Theorem requests_keep_references
    (pg : Db.TextInput) (k : option string) (v : Variant)
    (rs : list (Z * Request)) (p : Pool) :
  references_hold (tables p) ->
  references_hold (tables (serve_all pg k v rs p)).
Proof.
  apply (keeps_serve_all pg references_hold).
  intros now q t t' res. apply run_keeps_references.
Qed.

(** The shop, after the buyer ordered the widget and the seller then
    deleted it. *)
Lemma requests_keep_references_in_shop :
  references_hold
    (tables
       (serve_all Db.decimal None Part000
          [(15, PostOrders
                  (Some (Signed (buyer_token None)))
                  (Some (cart_with_quantity (VNum 2))));
           (16, DeleteProducts (Some (Signed (seller_token None))) "1")]
          (shop Db.decimal None Part000))).
Proof.
  apply requests_keep_references.
  vm_compute. repeat constructor.
Defined.

Lemma login_reads_nothing (pg : Db.TextInput) (k : option string)
    (now : Z) (b : Credentials) (p : Pool) :
  tables (snd (login pg k now b p)) = tables p
  /\ log (snd (login pg k now b p))
     = log p ++ [(Db.SelectUserByCredentials (login_email b)
                                             (login_password b), true)].
Proof.
  destruct (credential_matches b (tables p)) as [| u rest] eqn:E.
  - rewrite (login_no_match pg k now b p E). now split.
  - rewrite (login_match pg k now b p u rest E). now split.
Qed.

(** ** Which tables a route writes *)

Ltac frame_query :=
  apply keeps_query_when; intros ? ? res HP Hrun;
  cbn [untouched] in *;
  destruct res as [? |];
  [ run_inv Hrun; intuition congruence
  | apply run_rejected in Hrun;
    destruct Hrun as [(Eu & Ep & Eo & Ei) _]; intuition congruence ].

(** X9. A route writes only the tables it has a statement for.  POST
    /orders leaves [users] and [products] as they are, whatever it answers:
    no stock is checked or decremented.  POST /upload-product leaves
    [users], [orders] and [order_items]; DELETE /products/:id leaves
    [users] and [orders]; POST /register leaves everything but [users];
    GET /products and POST /login leave the whole store. *)
Theorem routes_write_only_their_tables
    (pg : Db.TextInput) (k : option string) (v : Variant) (now : Z)
    (r : Request) (p : Pool) :
  untouched r (tables p) (tables (snd (serve pg k v now r p))).
Proof.
  assert (H : keeps (untouched r (tables p)) (serve pg k v now r)).
  { destruct r as [a b | | a i | b | b | a b]; cbn [serve untouched].
    - apply keeps_verifyToken. intros user.
      apply keeps_destructure. intros body.
      unfold upload_product_handler.
      destruct (_ || _); [apply keeps_respond |].
      destruct (negb _); [apply keeps_respond |].
      apply keeps_try_catch; [| apply keeps_respond].
      apply keeps_bind; [frame_query | intros; apply keeps_respond].
    - apply keeps_try_catch; [| apply keeps_respond].
      apply keeps_bind; [| intros; apply keeps_respond].
      apply keeps_query_when. intros t t' res HP Hrun.
      cbn [Db.run untouched] in *. injection Hrun as _ <-. exact HP.
    - apply keeps_verifyToken. intros user. unfold delete_product_handler.
      destruct (negb _); [apply keeps_respond |].
      apply keeps_try_catch; [| apply keeps_respond].
      apply keeps_bind; [frame_query |].
      intros rows. destruct (_ =? _); apply keeps_respond.
    - apply keeps_destructure. intros body.
      intros q Hq. rewrite (proj1 (login_reads_nothing pg k now body q)).
      exact Hq.
    - apply keeps_destructure. intros body.
      unfold register. destruct (negb _); [apply keeps_respond |].
      apply keeps_try_catch; [| apply keeps_respond].
      apply keeps_bind; [frame_query |].
      intros rows. destruct (_ <? _); [apply keeps_respond |].
      apply keeps_bind; [frame_query | intros; apply keeps_respond].
    - apply keeps_verifyToken. intros user.
      apply keeps_destructure. intros body.
      unfold create_order_handler.
      destruct (_ || _); [apply keeps_respond |].
      apply keeps_try_catch; [| apply keeps_respond].
      apply keeps_bind; [frame_query |]. intros rows.
      apply keeps_bind; [apply keeps_first_row_id |]. intros orderId.
      apply keeps_bind; [| intros; apply keeps_respond].
      destruct (iterate _); [| apply keeps_throw].
      apply keeps_insert_items_when. intros line t t' res HP Hrun.
      cbn [untouched] in *.
      destruct res as [rows' |].
      + destruct v; cbn [item_stmt] in Hrun; run_inv Hrun;
          intuition congruence.
      + apply run_rejected in Hrun.
        destruct Hrun as [(Eu & Ep & Eo & Ei) _]. intuition congruence. }
  apply H. destruct r; cbn [untouched]; repeat split; reflexivity.
Qed.

(** ** Roles *)

Lemma serve_keeps_roles_valid (pg : Db.TextInput) (k : option string)
    (v : Variant) (now : Z) (r : Request) :
  keeps roles_valid (serve pg k v now r).
Proof.
  assert (Hsame : forall t t' : Db.Store,
             Db.users t' = Db.users t -> roles_valid t -> roles_valid t').
  { intros t t' E H. unfold roles_valid. now rewrite E. }
  assert (Hrun : forall now q,
             (forall t t' rows,
                 Db.run pg now q t = (Some rows, t') ->
                 Db.users t' = Db.users t) ->
             keeps roles_valid (query pg now q)).
  { intros now' q Hq. apply keeps_query_when.
    intros t t' [rows |] HP Hrun.
    - apply (Hsame t); [| assumption]. exact (Hq _ _ _ Hrun).
    - apply run_rejected in Hrun. destruct Hrun as [[Eu _] _].
      now apply (Hsame t). }
  destruct r as [a b | | a i | b | b | a b]; cbn [serve].
  - apply keeps_verifyToken. intros user.
    apply keeps_destructure. intros body. unfold upload_product_handler.
    destruct (_ || _); [apply keeps_respond |].
    destruct (negb _); [apply keeps_respond |].
    apply keeps_try_catch; [| apply keeps_respond].
    apply keeps_bind; [| intros; apply keeps_respond].
    apply Hrun. intros t t' rows E. now run_inv E.
  - apply keeps_try_catch; [| apply keeps_respond].
    apply keeps_bind; [| intros; apply keeps_respond].
    apply Hrun. intros t t' rows E. now run_inv E.
  - apply keeps_verifyToken. intros user. unfold delete_product_handler.
    destruct (negb _); [apply keeps_respond |].
    apply keeps_try_catch; [| apply keeps_respond].
    apply keeps_bind; [| intros rows; destruct (_ =? _); apply keeps_respond].
    apply Hrun. intros t t' rows E. now run_inv E.
  - apply keeps_destructure. intros body.
    intros q Hq. rewrite (proj1 (login_reads_nothing pg k now body q)).
    exact Hq.
  - apply keeps_destructure. intros body.
    intros p Hp. destruct (register_outcome pg now body p)
      as [[[E _] _] | H].
    + now apply (Hsame (tables p)).
    + destruct H as (e & pw & role & _ & _ & _ & Hrole & _ & _ & Eu & _).
      unfold roles_valid. rewrite Eu. apply Forall_app.
      split; [exact Hp |]. constructor; [exact Hrole | constructor].
  - apply keeps_verifyToken. intros user.
    apply keeps_destructure. intros body. unfold create_order_handler.
    destruct (_ || _); [apply keeps_respond |].
    apply keeps_try_catch; [| apply keeps_respond].
    apply keeps_bind.
    { apply Hrun. intros t t' rows E. now run_inv E. }
    intros rows.
    apply keeps_bind; [apply keeps_first_row_id |]. intros orderId.
    apply keeps_bind; [| intros; apply keeps_respond].
    destruct (iterate _); [| apply keeps_throw].
    apply keeps_insert_items_when. intros line t t' res HP E.
    destruct res as [rows' |].
    + destruct v; cbn [item_stmt] in E; run_inv E; now apply (Hsame t).
    + apply run_rejected in E. destruct E as [[Eu _] _].
      now apply (Hsame t).
Qed.

(** X10. The only route that writes a role is /register, and it writes it
    after [validRoles.includes(role)]: if every stored role is buyer or
    seller, this is still so after any sequence of requests. *)
Theorem requests_keep_roles_valid
    (pg : Db.TextInput) (k : option string) (v : Variant)
    (rs : list (Z * Request)) (p : Pool) :
  roles_valid (tables p) -> roles_valid (tables (serve_all pg k v rs p)).
Proof.
  revert p. induction rs as [| [now r] rest IH]; intros p H;
    cbn [serve_all].
  - exact H.
  - apply IH. now apply serve_keeps_roles_valid.
Qed.

Lemma requests_keep_roles_valid_in_shop :
  roles_valid (tables (shop Db.decimal None IndexJs)).
Proof.
  apply (requests_keep_roles_valid Db.decimal None IndexJs
           (shop_history None) fresh_pool).
  constructor.
Defined.

(** ** A registered account logs in *)

Lemma text_eq_same (s : string) : Db.text_eq s (Some s) = true.
Proof. apply String.eqb_refl. Qed.

(** Under UNIQUE, the credential lookup for a stored user's e-mail finds
    that user or nobody. *)
Lemma lookup_by_unique_email (l : list Db.User) (u : Db.User)
    (pw : option string) :
  NoDup (map Db.user_email l) -> In u l ->
  filter (fun x => Db.text_eq (Db.user_email x) (Some (Db.user_email u))
                   && Db.text_eq (Db.user_password x) pw) l
  = if Db.text_eq (Db.user_password u) pw then [u] else [].
Proof.
  induction l as [| a l IH]; intros Hnd Hin; [destruct Hin |].
  simpl map in Hnd. inversion Hnd as [| ? ? Hnot Hrest]; subst.
  cbn [filter]. destruct Hin as [-> | Hin].
  - rewrite text_eq_same. cbn [andb].
    rewrite (filter_drops_all _ l).
    + now destruct (Db.text_eq (Db.user_password u) pw).
    + intros x Hx. apply andb_false_iff. left. simpl.
      apply String.eqb_neq. intros E. apply Hnot. rewrite <- E.
      now apply in_map.
  - assert (Hne : Db.text_eq (Db.user_email a) (Some (Db.user_email u))
                  = false).
    { simpl. apply String.eqb_neq. intros E. apply Hnot. rewrite E.
      now apply in_map. }
    rewrite Hne. cbn [andb]. now apply IH.
Qed.

(** X11. Registration and login compose.  In a store with unique
    e-mails, after a registration answered 201 and whatever requests are
    served afterwards, a login with the e-mail and the password as they
    were stored is answered 200, with the registered role and a token for
    the id the registration returned; with that e-mail and any other
    password it is answered 401.  What was stored is what was submitted
    when that fits the 255 characters of the column; a longer text was
    stored cut, and is the other password (or another e-mail) from then
    on. *)
Theorem registered_account_logs_in
    (pg : Db.TextInput) (k : option string) (v : Variant) (now : Z)
    (b : Registration) (p : Pool) (r : Response) :
  emails_unique (tables p) ->
  fst (register pg now b p) = Ok r -> status r = 201 ->
  exists e pw role,
    column_text 255 (reg_email b) = Some e
    /\ column_text 255 (reg_password b) = Some pw
    /\ reg_role b = Some role
    /\ (forall s, reg_email b = Some s -> (chars s <= 255)%nat -> e = s)
    /\ (forall s, reg_password b = Some s -> (chars s <= 255)%nat ->
                  pw = s)
    /\ forall (rs : list (Z * Request)) (now' : Z),
         let later := serve_all pg k v rs (snd (register pg now b p)) in
         let u := registered_user now e pw role (tables p) in
         fst (login pg k now' {| login_email := Some e;
                                 login_password := Some pw |} later)
         = Ok (logged_in k now' u)
         /\ forall pw' : option string,
              pw' <> Some pw ->
              fst (login pg k now' {| login_email := Some e;
                                      login_password := pw' |} later)
              = Ok bad_credentials.
Proof.
  intros Hunique Hr Hs.
  destruct (register_outcome pg now b p) as [[_ [_ Hnot]] | H].
  { exfalso. exact (Hnot r Hr Hs). }
  destruct H as (e & pw & role & He & Hpw & Hrole & _ & Hfree & _ & Eu & _).
  exists e, pw, role.
  split; [assumption |]. split; [assumption |]. split; [assumption |].
  split.
  { intros s Hsub Hfits. rewrite Hsub in He. cbn [column_text] in He.
    rewrite (varchar_fits 255 s Hfits) in He. now injection He. }
  split.
  { intros s Hsub Hfits. rewrite Hsub in Hpw. cbn [column_text] in Hpw.
    rewrite (varchar_fits 255 s Hfits) in Hpw. now injection Hpw. }
  intros rs now' later u.
  assert (Hin : In u (Db.users (tables later))).
  { apply served_pool_keeps_user. rewrite Eu. apply in_or_app.
    right. now left. }
  assert (Hlater : emails_unique (tables later)).
  { apply (keeps_serve_all pg emails_unique).
    - intros n q t t' res. apply run_keeps_emails_unique.
    - unfold emails_unique. rewrite Eu. apply NoDup_map_snoc.
      + exact Hunique.
      + simpl. intros Hx. apply in_map_iff in Hx.
        destruct Hx as [x [Hxe Hx]]. apply has_user_email_In in Hx.
        rewrite Hxe in Hx. congruence. }
  split.
  - erewrite login_match; [reflexivity |].
    unfold credential_matches. cbn [login_email login_password].
    change e with (Db.user_email u).
    rewrite (lookup_by_unique_email _ u (Some pw) Hlater Hin).
    now rewrite text_eq_same.
  - intros pw' Hpw'. erewrite login_no_match; [reflexivity |].
    unfold credential_matches. cbn [login_email login_password].
    change e with (Db.user_email u).
    rewrite (lookup_by_unique_email _ u pw' Hlater Hin).
    destruct pw' as [s |]; [| reflexivity]. simpl.
    destruct (String.eqb_spec pw s) as [-> | _];
      [now contradiction Hpw' | reflexivity].
Qed.

(** The seller of the shop, registered at 11, logs in at 20. *)
Lemma registered_account_logs_in_in_shop :
  fst (login Db.decimal None 20
             {| login_email := Some "s@x.com";
                login_password := Some "pw" |}
             (shop Db.decimal None Part000))
  = Ok (logged_in None 20
          {| Db.user_id := 2; Db.user_email := "s@x.com";
             Db.user_password := "pw"; Db.user_role := "seller";
             Db.user_created_at := 11 |}).
Proof.
  destruct (registered_account_logs_in Db.decimal None Part000 11
              seller_account
              (serve_all Db.decimal None Part000
                 [(10, PostRegister (Some buyer_account))] fresh_pool)
              _ ltac:(vm_compute; repeat constructor; simpl; tauto)
              eq_refl eq_refl)
    as (e & pw & role & He & Hpw & Hrole & _ & _ & H).
  injection He as <-. injection Hpw as <-. injection Hrole as <-.
  exact (proj1 (H [(13, PostUploadProduct
                          (Some (Signed (seller_token None)))
                          (Some widget))]
                  20)).
Defined.

(** ** Deleting one's own product *)

Lemma existsb_same_id (i x : Z) (l : list Db.Product) :
  l <> [] -> (forall pr, In pr l -> Db.product_id pr = i) ->
  existsb (fun pr => Db.product_id pr =? x) l = (i =? x).
Proof.
  intros Hne Hall. destruct l as [| a l]; [contradiction |].
  destruct (Z.eqb_spec i x) as [<- | Hneq].
  - apply existsb_exists. exists a. split; [now left |].
    apply Z.eqb_eq. apply Hall. now left.
  - apply not_true_is_false. intros H. apply existsb_exists in H.
    destruct H as [pr [Hin Heq]]. apply Z.eqb_eq in Heq.
    rewrite (Hall pr Hin) in Heq. contradiction.
Qed.

(** X12. A seller who deletes a product of theirs is answered 200
    "Producto eliminado exitosamente".  Exactly the products with that id
    that are recorded under the caller leave [products], the order items
    that name the id leave [order_items] with them (the cascade), and
    users and orders are as before.  The id is the integer that [:id] is
    the text of. *)
Theorem seller_deletes_own_product
    (pg : Db.TextInput) (k : option string) (v : Variant) (now : Z)
    (authorization : option AuthHeader) (id : string) (i : Z)
    (user : Jwt.Payload) (p : Pool) :
  decode k now authorization = Some user ->
  Jwt.role user = "seller" ->
  column_int pg (Some (VStr id)) = Some i ->
  (exists pr, In pr (Db.products (tables p))
              /\ Db.product_id pr = i
              /\ owned_by v user pr) ->
  let after := snd (delete_product pg k v now authorization id p) in
  fst (delete_product pg k v now authorization id p) = Ok product_deleted
  /\ (forall pr, In pr (Db.products (tables after))
                 <-> In pr (Db.products (tables p))
                     /\ ~ (Db.product_id pr = i /\ owned_by v user pr))
  /\ Db.order_items (tables after)
     = filter (fun it => negb (i =? Db.item_product it))
              (Db.order_items (tables p))
  /\ Db.users (tables after) = Db.users (tables p)
  /\ Db.orders (tables after) = Db.orders (tables p).
Proof.
  intros Hauth Hrole Hid [pr [Hin [Hpr Hseller]]] after. subst after.
  unfold delete_product. rewrite (verifyToken_passes _ _ _ _ _ _ Hauth).
  rewrite (delete_handler_runs pg v now id user p Hrole).
  rewrite (delete_product_bound pg id i _ _ Hid).
  cbn [fst snd tables Db.products Db.order_items Db.users Db.orders].
  assert (Hgone : In pr (filter (Db.delete_matches i (caller_ref v user))
                                (Db.products (tables p)))).
  { apply filter_In. split; [assumption |].
    apply delete_matches_spec. split; [assumption |].
    now apply owned_by_caller_ref. }
  split; [| split; [| split; [| split]]]; try reflexivity.
  - rewrite length_map.
    destruct (filter _ (Db.products (tables p))); [destruct Hgone |].
    reflexivity.
  - intros x. rewrite filter_In, negb_true_iff.
    rewrite <- not_true_iff_false, delete_matches_spec.
    now rewrite owned_by_caller_ref.
  - apply filter_ext. intros it. f_equal.
    apply existsb_same_id.
    + intros E. rewrite E in Hgone. destruct Hgone.
    + intros x Hx. apply filter_In in Hx. destruct Hx as [_ Hx].
      now apply delete_matches_spec in Hx.
Qed.

(** The seller of the shop deletes the widget. *)
Lemma seller_deletes_own_product_in_shop :
  fst (delete_product Db.decimal None Part000 14
         (Some (Signed (seller_token None))) "1"
         (shop Db.decimal None Part000))
  = Ok product_deleted.
Proof.
  refine (proj1 (seller_deletes_own_product Db.decimal None Part000 14
                   (Some (Signed (seller_token None))) "1" 1
                   (Jwt.payload (seller_token None))
                   (shop Db.decimal None Part000)
                   seller_token_decodes eq_refl eq_refl _)).
  eexists. split; [left; reflexivity | split; reflexivity].
Defined.

(** X13. Deleting is idempotent in its effect and not in its answer.
    When [:id] is the text of an INTEGER, the same DELETE sent again by
    the same seller, right after the first, is answered 404 and changes
    nothing, whatever the first one did.  When [:id] is no such text,
    both are answered 500 and nothing changes. *)
Theorem second_delete_is_not_found
    (pg : Db.TextInput) (v : Variant) (now now' : Z) (id : string)
    (user : Jwt.Payload) (p : Pool) :
  Jwt.role user = "seller" ->
  let once := snd (delete_product_handler pg v now id user p) in
  (forall i, column_int pg (Some (VStr id)) = Some i ->
     fst (delete_product_handler pg v now' id user once)
     = Ok product_not_found
     /\ tables (snd (delete_product_handler pg v now' id user once))
        = tables once)
  /\ (column_int pg (Some (VStr id)) = None ->
      fst (delete_product_handler pg v now id user p) = Ok delete_failed
      /\ fst (delete_product_handler pg v now' id user once)
         = Ok delete_failed
      /\ tables (snd (delete_product_handler pg v now' id user once))
         = tables p).
Proof.
  intros Hrole once. split.
  - intros i Hid. apply (delete_not_found pg v now' id i);
      [assumption .. |].
    subst once. rewrite (delete_handler_runs pg v now id user p Hrole).
    rewrite (delete_product_bound pg id i _ _ Hid).
    cbn [snd tables Db.products].
    intros pr Hin. apply filter_In in Hin.
    destruct Hin as [_ Hin]. now apply negb_true_iff in Hin.
  - intros Hid. subst once.
    rewrite !(delete_handler_runs pg v _ id user _ Hrole).
    rewrite (delete_product_unbound pg id _ _ Hid).
    cbn [fst snd tables].
    rewrite (delete_product_unbound pg id _ _ Hid).
    now repeat split.
Qed.

Lemma second_delete_is_not_found_in_shop :
  let once := snd (delete_product_handler Db.decimal Part000 14 "1"
                     (Jwt.payload (seller_token None))
                     (shop Db.decimal None Part000)) in
  fst (delete_product_handler Db.decimal Part000 15 "1"
         (Jwt.payload (seller_token None)) once)
  = Ok product_not_found.
Proof.
  exact (proj1 (proj1 (second_delete_is_not_found Db.decimal Part000 14 15
                         "1" (Jwt.payload (seller_token None))
                         (shop Db.decimal None Part000) eq_refl)
                      1 eq_refl)).
Defined.

(** ** From upload to listing *)

Lemma get_products_answers_listing (pg : Db.TextInput) (now : Z)
    (p : Pool) :
  fst (get_products pg now p) = Ok (product_list (tables p)).
Proof.
  unfold get_products, try_catch, bind, query, respond, ret; simpl.
  unfold product_list, listing. now rewrite map_row_json_products.
Qed.

Lemma Forall2_In_left {A B} (R : A -> B -> Prop) (l : list A)
    (l' : list B) (x : A) :
  Forall2 R l l' -> In x l -> exists y, In y l' /\ R x y.
Proof.
  induction 1 as [| a b l l' Hab _ IH]; intros Hin; [destruct Hin |].
  destruct Hin as [<- | Hin].
  - exists b. split; [now left | assumption].
  - destruct (IH Hin) as [y [Hy Hxy]]. exists y. split; [now right |].
    assumption.
Qed.

(** An upload answered 201 has written its row. *)
Lemma upload_created (pg : Db.TextInput) (v : Variant) (now : Z)
    (b : UploadBody) (user : Jwt.Payload) (p : Pool) (r : Response) :
  fst (upload_product_handler pg v now b user p) = Ok r ->
  status r = 201 ->
  exists n pr st,
    column_text 255 (name b) = Some n
    /\ column_numeric pg (price b) = Some pr
    /\ column_int pg (stock b) = Some st
    /\ Db.products (tables (snd (upload_product_handler pg v now b user p)))
       = Db.products (tables p)
           ++ [uploaded_product now n pr st (caller_ref v user) (tables p)].
Proof.
  unfold upload_product_handler.
  destruct (_ || _).
  { intros E. injection E as <-. discriminate. }
  destruct (negb _).
  { intros E. injection E as <-. discriminate. }
  unfold try_catch, bind.
  destruct (Db.run pg now (Db.InsertProduct (name b) (price b) (stock b)
                                            (caller_ref v user)) (tables p))
    as [[rows |] t'] eqn:E.
  - rewrite (query_ok _ _ _ _ _ _ E). intros _ _.
    cbn [Db.run] in E. apply insert_product_inv in E.
    destruct E as (n & pr & st & Hn & Hp & Hs & _ & _ & _ & _ & Ep & _).
    exists n, pr, st. now repeat split.
  - rewrite (query_rejected _ _ _ _ _ E).
    intros E'. injection E' as <-. discriminate.
Qed.

(** X14. From upload to listing.  After an upload answered 201 there is
    one more product: recorded under the caller, with the name, the price
    and the stock as their columns store them (a price of 0.001 as 0.00,
    a stock sent as the string of a zero as 0).  GET /products then
    answers 200 with one object per product in stock, carrying the
    columns of its row; the new product is among them when its stock is
    positive, and is not listed when its stock is zero or negative. *)
Theorem uploaded_product_is_listed_when_in_stock
    (pg : Db.TextInput) (k : option string) (v : Variant) (now now' : Z)
    (authorization : option AuthHeader) (b : UploadBody)
    (user : Jwt.Payload) (p : Pool) (r : Response) :
  decode k now authorization = Some user ->
  fst (upload_product pg k v now authorization b p) = Ok r ->
  status r = 201 ->
  let after := snd (upload_product pg k v now authorization b p) in
  exists row : Db.Product,
    (forall pr, In pr (Db.products (tables after))
                <-> In pr (Db.products (tables p)) \/ pr = row)
    /\ owned_by v user row
    /\ column_text 255 (name b) = Some (Db.product_name row)
    /\ column_numeric pg (price b) = Some (Db.product_price row)
    /\ column_int pg (stock b) = Some (Db.product_stock row)
    /\ (forall pr, In pr (listing (tables after))
                   <-> In pr (listing (tables p))
                       \/ (pr = row /\ 0 < Db.product_stock row))
    /\ (Db.product_stock row <= 0 -> ~ In row (listing (tables after)))
    /\ exists items : list Json,
         fst (get_products pg now' after)
         = Ok {| status := 200; body := JArr items |}
         /\ Forall2 shows_product (listing (tables after)) items
         /\ (0 < Db.product_stock row ->
             exists shown, In shown items /\ shows_product row shown).
Proof.
  intros Hauth Hr Hs after. subst after. revert Hr.
  unfold upload_product. rewrite (verifyToken_passes _ _ _ _ _ _ Hauth).
  intros Hr.
  destruct (upload_created pg v now b user p r Hr Hs)
    as (n & pr & st & Hn & Hp & Hst & Ep).
  set (row := uploaded_product now n pr st (caller_ref v user) (tables p))
    in *.
  assert (Hlist : forall x,
             In x (listing
                     (tables (snd (upload_product_handler pg v now b
                                                          user p))))
             <-> In x (listing (tables p))
                 \/ (x = row /\ 0 < Db.product_stock row)).
  { intros x. unfold listing. rewrite Ep, filter_app, in_app_iff.
    cbn [filter]. destruct (Z.ltb_spec 0 (Db.product_stock row)).
    - split; (intros [H' | H']; [now left | right]).
      + destruct H' as [<- | []]. now split.
      + destruct H' as [-> _]. now left.
    - split; (intros [H' | H']; [now left |]).
      + destruct H'.
      + destruct H' as [_ H']. lia. }
  exists row.
  split; [| split; [| split; [| split; [| split; [| split; [| split]]]]]].
  - intros x. rewrite Ep, in_app_iff. cbn [In]. intuition.
  - apply owned_by_caller_ref. reflexivity.
  - exact Hn.
  - exact Hp.
  - exact Hst.
  - exact Hlist.
  - intros Hle Hin. unfold listing in Hin. apply filter_In in Hin.
    destruct Hin as [_ Hin]. apply Z.ltb_lt in Hin. lia.
  - exists (map product_json
                (listing
                   (tables (snd (upload_product_handler pg v now b
                                                        user p))))).
    split; [apply get_products_answers_listing |].
    split; [apply Forall2_map_shows |].
    intros Hpos. apply (Forall2_In_left _ _ _ _ (Forall2_map_shows _)).
    apply Hlist. right. now split.
Qed.

(** The widget, uploaded with a stock of 5, is what the shop lists. *)
Lemma uploaded_product_is_listed_in_shop :
  map Db.product_name (listing (tables (shop Db.decimal None Part000)))
  = ["Widget"]
  /\ exists row, In row (listing (tables (shop Db.decimal None Part000)))
                 /\ Db.product_price row = Db.Cents 999.
Proof.
  split; [reflexivity |].
  destruct (uploaded_product_is_listed_when_in_stock Db.decimal None
              Part000 13 14
              (Some (Signed (seller_token None))) widget
              (Jwt.payload (seller_token None))
              (serve_all Db.decimal None Part000
                 [(10, PostRegister (Some buyer_account));
                  (11, PostRegister (Some seller_account))] fresh_pool)
              _ eq_refl eq_refl eq_refl)
    as (row & _ & _ & _ & Hp & Hst & Hl & _).
  exists row. split.
  - apply Hl. right. split; [reflexivity |].
    injection Hst as <-. reflexivity.
  - now injection Hp as <-.
Defined.

(** ** Which orders go through *)

Lemma next_order_id_free (t : Db.Store) :
  sequences_ahead t -> Db.has_order_id (Db.orders_seq t + 1) t = false.
Proof.
  intros (_ & _ & H & _). unfold Db.has_order_id.
  apply not_true_is_false. intros Hex.
  apply existsb_exists in Hex. destruct Hex as [o [Hin Heq]].
  rewrite Forall_forall in H. specialize (H o Hin).
  apply Z.eqb_eq in Heq. lia.
Qed.

Lemma next_item_id_free (t : Db.Store) :
  sequences_ahead t -> Db.has_item_id (Db.order_items_seq t + 1) t = false.
Proof.
  intros (_ & _ & _ & H). unfold Db.has_item_id.
  apply not_true_is_false. intros Hex.
  apply existsb_exists in Hex. destruct Hex as [it [Hin Heq]].
  rewrite Forall_forall in H. specialize (H it Hin).
  apply Z.eqb_eq in Heq. lia.
Qed.

(** With a free key and the order in place, the INSERT of a line that is
    not [null] passes exactly when the line is one the store accepts. *)
Lemma item_stmt_passes_iff_line_ok (pg : Db.TextInput) (v : Variant)
    (now o : Z) (line : CartLine) (t : Db.Store) :
  Db.has_item_id (Db.order_items_seq t + 1) t = false ->
  Db.has_order_id o t = true ->
  line <> VNull ->
  fst (Db.run pg now (item_stmt v o line) t)
  = if line_ok pg v t line then Some [] else None.
Proof.
  intros Hfree Horder Hnn. unfold line_ok.
  assert (Hn : is_null line = false)
    by (destruct line; try reflexivity; contradiction).
  rewrite Hn. cbn [negb andb].
  destruct (Db.run pg now (item_stmt v o line) t) as [[rows |] t'] eqn:E;
    cbn [fst].
  - destruct v; cbn [item_stmt Db.run] in E;
      pose proof E as E'; apply insert_order_item_inv in E;
      destruct E as (pid & qty & pr & H1 & H2 & H3 & _ & _ & H4 & _);
      rewrite H1, H2, H4; cbn [is_some andb];
      unfold Db.insert_order_item in E'; by_cases E';
      injection E' as <- _; try reflexivity.
    all: destruct H3 as [H3 H3']; rewrite <- H3';
      destruct pr; [reflexivity | contradiction].
  - destruct (column_int pg (line_id line)) as [pid |] eqn:H1;
      [| reflexivity].
    destruct (Db.has_product_id pid t) eqn:H4; [| reflexivity].
    destruct (column_int pg (or_default (line_quantity line) (VNum 1)))
      as [qty |] eqn:H2; [| reflexivity].
    cbn [is_some andb].
    destruct v; cbn [item_stmt Db.run] in E.
    + rewrite (insert_order_item_passes pg o _ _ None t pid qty None
                 H1 H2 eq_refl Hfree Horder H4) in E. discriminate E.
    + destruct (column_numeric pg (line_price line)) as [pr |] eqn:H3;
        [| reflexivity].
      rewrite (insert_order_item_passes pg o _ _ (Some (line_price line))
                 t pid qty (Some pr) H1 H2) in E; try assumption.
      * discriminate E.
      * split; [discriminate | now rewrite H3].
Qed.

Lemma line_ok_same_products (pg : Db.TextInput) (v : Variant)
    (t t' : Db.Store) (line : CartLine) :
  Db.products t' = Db.products t ->
  line_ok pg v t' line = line_ok pg v t line.
Proof.
  intros E. unfold line_ok, Db.has_product_id. now rewrite E.
Qed.

Lemma valid_prefix_same_products (pg : Db.TextInput) (v : Variant)
    (t t' : Db.Store) (lines : list CartLine) :
  Db.products t' = Db.products t ->
  valid_prefix pg v t' lines = valid_prefix pg v t lines
  /\ forallb (line_ok pg v t') lines = forallb (line_ok pg v t) lines.
Proof.
  intros E. induction lines as [| line rest [IH1 IH2]]; [now split |].
  cbn [valid_prefix forallb].
  rewrite (line_ok_same_products pg v t t' line E), IH1, IH2. now split.
Qed.

(** The loop writes the lines up to the first one the store does not
    accept, and ends normally exactly when there is no such line. *)
Lemma insert_items_exact (pg : Db.TextInput) (v : Variant) (now o : Z)
    (lines : list CartLine) (p : Pool) :
  sequences_ahead (tables p) ->
  Db.has_order_id o (tables p) = true ->
  fst (insert_items pg v now o lines p)
  = (if forallb (line_ok pg v (tables p)) lines then Ok tt else Thrown)
  /\ exists new,
       Db.order_items (tables (snd (insert_items pg v now o lines p)))
       = Db.order_items (tables p) ++ new
       /\ Db.orders (tables (snd (insert_items pg v now o lines p)))
          = Db.orders (tables p)
       /\ Forall2 (stored_as pg v o)
                  (valid_prefix pg v (tables p) lines) new.
Proof.
  revert p. induction lines as [| line rest IH]; intros p Hseq Horder.
  - split; [reflexivity |]. exists []. rewrite app_nil_r.
    repeat split. constructor.
  - cbn [insert_items forallb valid_prefix]. unfold bind.
    destruct (insert_item_cases pg v now o line) as [[-> ->] | [Hnn ->]].
    { cbn [line_ok is_null negb andb throw fst snd].
      split; [reflexivity |]. exists []. rewrite app_nil_r.
      repeat split. constructor. }
    pose proof (item_stmt_passes_iff_line_ok pg v now o line (tables p)
                  (next_item_id_free _ Hseq) Horder Hnn) as Hline.
    destruct (Db.run pg now (item_stmt v o line) (tables p))
      as [res t'] eqn:E.
    cbn [fst] in Hline. subst res.
    destruct (line_ok pg v (tables p) line).
    + rewrite (query_ok _ _ _ _ _ _ E).
      destruct (item_stmt_spec _ _ _ _ _ _ _ _ E)
        as (it & _ & Ep & Eo & Ei & Hs).
      set (p1 := {| tables := t';
                    log := log p ++ [(item_stmt v o line, true)] |}).
      destruct (IH p1) as [Hr [new (Hi' & Ho' & Hf')]].
      { exact (run_keeps_sequences_ahead _ _ _ _ _ _ Hseq E). }
      { unfold Db.has_order_id. cbn [tables p1]. now rewrite Eo. }
      destruct (valid_prefix_same_products pg v (tables p) t' rest Ep)
        as [Ev Ef].
      cbn [tables p1] in Hr, Hi', Ho', Hf'.
      rewrite Ev in Hf'. rewrite Ef in Hr. cbn [andb].
      split; [exact Hr |]. exists (it :: new).
      split; [rewrite Hi', Ei, <- app_assoc; reflexivity |].
      split; [congruence |]. now constructor.
    + rewrite (query_rejected _ _ _ _ _ E). cbn [andb fst snd tables].
      apply run_rejected in E. destruct E as [(_ & _ & Eo & Ei) _].
      split; [reflexivity |]. exists []. rewrite app_nil_r.
      repeat split; try assumption. constructor.
Qed.

(** X15. Which orders go through.  For a caller whose token decodes, a
    cart of at least one line and a truthy total, on a store whose
    sequences are ahead of its keys: if the caller is not (or no longer)
    a user, or the total is no NUMERIC(10,2), the order INSERT is
    rejected, the answer is 500 and no row is written.  Otherwise the
    order row is written, then one item row per line up to the first
    line the store does not accept ([null], no id or an id that is no
    INTEGER or that no product has, a quantity that is no INTEGER, or no
    NUMERIC(10,2) price where [order_items] has a price column); the
    answer is 201 exactly when every line is accepted, 500 otherwise,
    with the order row and those item rows left in place. *)
Theorem order_goes_through_iff_every_line_is_accepted
    (pg : Db.TextInput) (k : option string) (v : Variant) (now : Z)
    (authorization : option AuthHeader) (b : OrderBody)
    (user : Jwt.Payload) (p : Pool) (lines : list CartLine) :
  decode k now authorization = Some user ->
  products b = Some (VArr lines) -> lines <> [] ->
  truthy_num (total b) = true ->
  sequences_ahead (tables p) ->
  let answer := fst (create_order pg k v now authorization b p) in
  let after := snd (create_order pg k v now authorization b p) in
  (Db.has_user_id (Jwt.id user) (tables p) = false
   \/ column_numeric pg (total b) = None ->
     answer = Ok order_failed /\ same_rows (tables p) (tables after))
  /\ (Db.has_user_id (Jwt.id user) (tables p) = true ->
      forall tot, column_numeric pg (total b) = Some tot ->
      let o := placed_order now (Jwt.id user) tot (tables p) in
      answer = Ok (if forallb (line_ok pg v (tables p)) lines
                   then order_created (Db.order_id o) else order_failed)
      /\ Db.orders (tables after) = Db.orders (tables p) ++ [o]
      /\ exists items,
           Db.order_items (tables after)
           = Db.order_items (tables p) ++ items
           /\ Forall2 (stored_as pg v (Db.order_id o))
                      (valid_prefix pg v (tables p) lines) items).
Proof.
  intros Hauth Hcart Hne Htruthy Hseq answer after.
  subst answer after.
  unfold create_order. rewrite (verifyToken_passes _ _ _ _ _ _ Hauth).
  destruct (create_order_handler pg v now b user p)
    as [answer after] eqn:Hrun.
  cbn [fst snd].
  unfold create_order_handler in Hrun. rewrite Hcart, Htruthy in Hrun.
  cbn [truthy length_is_zero iterate negb orb] in Hrun.
  assert (Hz : (Z.of_nat (@length Value lines) =? 0) = false)
    by (destruct lines; [contradiction | reflexivity]).
  rewrite Hz in Hrun.
  cbn [orb] in Hrun. unfold try_catch, bind in Hrun.
  split.
  - intros Hbad.
    destruct (Db.run pg now (Db.InsertOrder (Jwt.id user) (total b))
                     (tables p)) as [[rows |] t1] eqn:E.
    + exfalso. cbn [Db.run] in E. apply insert_order_inv in E.
      destruct E as (tot & Ht & _ & Hb & _).
      destruct Hbad; congruence.
    + rewrite (query_rejected _ _ _ _ _ E) in Hrun.
      cbn [respond ret] in Hrun. injection Hrun as <- <-.
      apply run_rejected in E. now destruct E.
  - intros Hbuyer tot Htot.
    set (o := placed_order now (Jwt.id user) tot (tables p)).
    pose proof (insert_order_passes pg now (Jwt.id user) (total b)
                  (tables p) tot Htot (next_order_id_free _ Hseq) Hbuyer)
      as E.
    fold o in E.
    assert (E' : Db.run pg now (Db.InsertOrder (Jwt.id user) (total b))
                        (tables p)
                 = (Some [Db.IdRow (Db.order_id o)],
                    Db.add_order o (Db.draw_orders_seq (tables p))))
      by exact E.
    rewrite (query_ok _ _ _ _ _ _ E') in Hrun.
    cbn [first_row_id ret] in Hrun.
    match type of Hrun with
    | context [insert_items pg v now ?i lines ?q] =>
        destruct (insert_items_exact pg v now i lines q) as [Hr [new H]]
    end.
    { exact (run_keeps_sequences_ahead _ _ _ _ _ _ Hseq E'). }
    { cbn [tables]. unfold Db.has_order_id.
      cbn [Db.orders Db.add_order Db.draw_orders_seq].
      rewrite existsb_app. cbn [existsb]. rewrite Z.eqb_refl.
      now rewrite orb_true_r. }
    destruct H as (Hi & Ho & Hf). cbn [tables] in Hr, Hi, Ho, Hf.
    cbn [Db.order_items Db.orders Db.products Db.add_order
         Db.draw_orders_seq] in Hi, Ho.
    destruct (valid_prefix_same_products pg v (tables p)
                (Db.add_order o (Db.draw_orders_seq (tables p))) lines
                eq_refl) as [Ev Ef].
    rewrite Ev in Hf. rewrite Ef in Hr.
    destruct (insert_items pg v now (Db.order_id o) lines _)
      as [[[] |] p2] eqn:Eloop; cbn [fst snd] in *;
      cbn [respond ret] in Hrun; injection Hrun as <- <-;
      destruct (forallb (line_ok pg v (tables p)) lines);
      try discriminate Hr;
      (split; [reflexivity |]); (split; [exact Ho |]);
      exists new; now split.
Qed.

(** In the shop, the cart whose second line names product 99: the order
    row and the first line are written, and the answer is the 500. *)
Lemma order_with_unknown_product_in_shop :
  fst (create_order Db.decimal None Part000 15
         (Some (Signed (buyer_token None)))
         cart_with_unknown_product (shop Db.decimal None Part000))
  = Ok order_failed
  /\ exists items,
       Db.order_items
         (tables (snd (create_order Db.decimal None Part000 15
                         (Some (Signed (buyer_token None)))
                         cart_with_unknown_product
                         (shop Db.decimal None Part000))))
       = items
       /\ length items = 1%nat.
Proof.
  pose proof (order_goes_through_iff_every_line_is_accepted
                Db.decimal None Part000 15
                (Some (Signed (buyer_token None)))
                cart_with_unknown_product
                (Jwt.payload (buyer_token None))
                (shop Db.decimal None Part000)
                _ buyer_token_decodes eq_refl ltac:(discriminate)
                eq_refl) as H.
  cbv zeta in H. destruct H as [_ H].
  { repeat split; repeat constructor; simpl; lia. }
  destruct (H eq_refl (Db.Cents 1998) eq_refl)
    as (Hans & _ & items & Hitems & Hf).
  split; [exact Hans |]. exists items. split; [exact Hitems |].
  apply Forall2_length in Hf. rewrite <- Hf. reflexivity.
Defined.

(** A line that names the widget with a quantity beyond 32 bits: the
    order row is written, the line is not, and the answer is the 500. *)
Lemma order_with_a_quantity_beyond_integer :
  let run :=
    create_order Db.decimal None Part000 15
      (Some (Signed (buyer_token None)))
      (cart_with_quantity (VNum 2147483648))
      (shop Db.decimal None Part000) in
  fst run = Ok order_failed
  /\ length (Db.orders (tables (snd run))) = 1%nat
  /\ Db.order_items (tables (snd run)) = [].
Proof. vm_compute. repeat split. Qed.
